(** * sv6: trap dispatch, critical sections, IRQ registry and vmdesc

    A shallow embedding of [kernel/trap.cc] (page faults, NMI entry, the
    trap dispatcher, [pushcli]/[popcli], the IRQ registry and
    [scoped_critical::release_yield]), of [kerneltrap] from
    [kernel/console.cc] and of [vmdesc] from [include/vm.hh], followed by
    the properties proved about them.

    Further parts: [check_critical] and [getcallerpcs] of [kernel/trap.cc],
    [v2p] and [p2v] of [include/kernel.hh], and from [kernel/console.cc]
    the console output ([consputc], [consolewrite]), [vsnprintf], the trap
    names of [printtrap], the input ring ([consoleintr], [consoleread]) and
    the print lock of [console_stream].

    Kernel state that the C++ code reaches through globals and per-CPU
    pointers ([mycpu()], [myproc()], [irq_info], ...) is threaded explicitly
    in a record.  Calls that leave the translated files (the scheduler, the
    fault resolver, device drivers) are recorded in an event trace, and what
    they return is read from an environment record.  The texts that the
    trap code prints are recorded in the same trace, one event for a text;
    a print on a console that has panicked does not return.  Functions that
    do not return ([kerneltrap], [panic], [procexit]) end the computation
    with a [stop] reason. *)

From Stdlib Require Import ZArith List Lia Bool String.
From stdpp Require Import base option list gmap.

Open Scope Z_scope.

(** ** Constants of headers that are not part of the translated sources

    [traps.h], [mmu.h], [memlayout.h], [cpu.hh] and [proc.hh] are not
    available; their constants are parameters of the development. *)

Class kconsts := {
  T_ILLOP : Z; T_PGFLT : Z; T_IRQ0 : Z;
  IRQ_TIMER : Z; IRQ_KBD : Z; IRQ_COM2 : Z; IRQ_COM1 : Z; IRQ_MOUSE : Z;
  IRQ_IDE : Z; IRQ_ERROR : Z; IRQ_SPURIOUS : Z;
  T_TLBFLUSH : Z; T_SAMPCONF : Z; T_PAUSE : Z; T_IPICALL : Z; T_WAKE_CORE : Z;
  USERTOP : Z; KGLOBAL : Z; KBASE : Z; KTEXT : Z; KTEXTEND : Z;
  FEC_U : Z; FL_IF : Z; SIGSEGV : Z;
  NO_SCHED_COUNT_YIELD_REQUESTED : Z;
  uaccess_end : Z;
  MSR_GS_BASE : Z
}.

(** The labels of [switch(tf->trapno)] in [trap], in source order. *)
Definition case_labels `{kconsts} : list Z :=
  [ T_IRQ0 + IRQ_TIMER; T_IRQ0 + IRQ_IDE; T_IRQ0 + IRQ_IDE + 1;
    T_IRQ0 + IRQ_KBD; T_IRQ0 + IRQ_MOUSE; T_IRQ0 + IRQ_COM2;
    T_IRQ0 + IRQ_COM1; T_IRQ0 + 7; T_IRQ0 + IRQ_SPURIOUS;
    T_IRQ0 + IRQ_ERROR; T_TLBFLUSH; T_SAMPCONF; T_PAUSE; T_IPICALL;
    T_WAKE_CORE ].

(** One choice of values, for the concrete runs: the exception vectors,
    [FEC_U] and [FL_IF] are the x86-64 ones, the others follow the xv6
    conventions. *)
Definition sv6_consts : kconsts := {|
  T_ILLOP := 6; T_PGFLT := 14; T_IRQ0 := 32;
  IRQ_TIMER := 0; IRQ_KBD := 1; IRQ_COM2 := 3; IRQ_COM1 := 4; IRQ_MOUSE := 12;
  IRQ_IDE := 14; IRQ_ERROR := 19; IRQ_SPURIOUS := 31;
  T_TLBFLUSH := 65; T_SAMPCONF := 66; T_PAUSE := 68; T_IPICALL := 67;
  T_WAKE_CORE := 69;
  USERTOP := 0x0000800000000000; KGLOBAL := 0xffffffffc0000000;
  KBASE := 0xffffff0000000000;
  KTEXT := 0xffffffffc0100000; KTEXTEND := 0xffffffffc0400000;
  FEC_U := 4; FL_IF := 0x200; SIGSEGV := 11;
  NO_SCHED_COUNT_YIELD_REQUESTED := 0x8000000000000000;
  uaccess_end := 0xffffffffc0101000;
  MSR_GS_BASE := 0xc0000101
|}.

(** ** Machine words *)

Definition wrap64 (x : Z) : Z := x mod 2^64.

(** ** Data model *)

Inductive reg :=
| RAX | RCX | RDX | RBX | RSP | RBP | RSI | RDI
| R8 | R9 | R10 | R11 | R12 | R13 | R14 | R15.

Global Instance reg_eq_dec : EqDecision reg.
Proof. solve_decision. Defined.

(** [struct trapframe]: the general registers are kept as a register file,
    the remaining fields are the ones [trap.cc] and [console.cc] read. *)
Record trapframe := mk_tf {
  trapno : Z;
  err : Z;
  cs : Z;
  rip : Z;
  gpr : reg -> Z;
  padding3_0 : Z;
  padding3_1 : Z
}.

Definition set_rip (v : Z) (tf : trapframe) : trapframe :=
  mk_tf (trapno tf) (err tf) (cs tf) v (gpr tf) (padding3_0 tf) (padding3_1 tf).

Definition set_gpr (r : reg) (v : Z) (tf : trapframe) : trapframe :=
  mk_tf (trapno tf) (err tf) (cs tf) (rip tf)
        (fun r' => if decide (r' = r) then v else gpr tf r')
        (padding3_0 tf) (padding3_1 tf).

(** [struct cpu], the fields used here. *)
Record cpu := mk_cpu {
  id : Z;
  ncli : Z;
  intena : Z;
  no_sched_count : Z;
  timer_printpc : Z
}.

Inductive procstate := EMBRYO | SLEEPING | RUNNABLE | RUNNING | ZOMBIE.

Global Instance procstate_eq_dec : EqDecision procstate.
Proof. solve_decision. Defined.

(** [struct proc], the fields used here. *)
Record proc := mk_proc {
  tid : Z;
  killed : Z;
  uaccess_ : bool;
  yield_ : bool;
  get_state : procstate;
  transparent_barriers : Z;
  intentional_barriers : Z;
  kstack : Z
}.

(** One entry of [irq_info]: the chain of handlers (the [next]-linked list,
    head first; the null pointer is the empty list) and the in-use flag. *)
Record irq_info_t := mk_irq_info {
  handlers : list Z;
  in_use : bool
}.

Inductive kstat :=
| sched_tick_count | sched_blocked_tick_count | sched_delayed_tick_count.

(** The texts printed by the trap code and by [kerneltrap], each with the
    arguments that tell one text from another. *)
Inductive message :=
| msg_timer_printpc | msg_timer_frame (pc : Z)
| msg_spurious | msg_lapic_error
| msg_kill_proc (trapno : Z)
| msg_kernel
| msg_trap (trapno : Z) (trapname : string)
| msg_page_fault | msg_stack_overflow
| msg_trace_line (pc : Z)
| msg_last_branch.

(** Calls that leave the translated code, in program order. *)
Inductive event :=
| EvKstat (s : kstat)
| EvCprintf (m : message)
| EvTimerintr | EvRefcacheTick
| EvLapicEoi | EvPicEoi
| EvIdeintr | EvKbdintr | EvMouseintr | EvUartintr
| EvTlbShootdown | EvSampconf | EvPauseCpu | EvIpicall
| EvHandleIrq (h : Z)
| EvSti | EvCli
| EvPagefault (addr err r : Z)
| EvDeliverSignal (sig : Z) (accepted : bool)
| EvSwitchToKstack
| EvWbIncrement (transparent : bool) (key : Z)
| EvTrapHandler (fn ctx : Z)
| EvWritemsr (msr v : Z)
| EvYield (nsc : Z).

(** Why a computation does not return to its caller. *)
Inductive stop :=
| ProcExit            (* procexit(-1) *)
| KernelTrap          (* kerneltrap: halt() *)
| Panic (m : string)  (* panic(msg) *)
| Undefined           (* null dereference or out-of-bounds read *)
| ConsoleSpin         (* the endless loop of consputc after a panic *)
| NestedFault (a : Z). (* a load by trap() itself that faults, at address a *)

Record kstate := mk_kstate {
  mycpu : cpu;
  intr_on : bool;                     (* the interrupt flag of rflags *)
  myproc : option proc;
  tf : trapframe;
  irq_info : list irq_info_t;
  registered_trap_handlers : gmap Z Z;
  registered_trap_handler_contexts : gmap Z Z;
  secrets_mapped : bool;
  ENTRY_COUNT : Z;
  ENTRY_TIMES : gmap Z Z;
  panicked : bool;
  nmi_lastpc : Z;
  nmi_swallow : Z;
  gs_base : Z;                   (* the MSR_GS_BASE register *)
  trace : list event
}.

(** What the collaborators outside the translated files answer. *)
Record env := mk_env {
  rcr2 : Z;                          (* faulting address *)
  mem64 : Z -> Z;                    (* the u64 stored at an address *)
  readable64 : Z -> bool;            (* whether all of its bytes are mapped *)
  pagefault : Z -> Z -> Z;           (* vmap::pagefault(addr, err) *)
  deliver_signal : Z -> bool;        (* proc::deliver_signal(sig) *)
  getcallerpcs : Z -> nat -> list Z; (* pcs[0..n) found from rbp *)
  track_wbs : bool;                  (* cmdline_params.track_wbs *)
  return_address : Z;                (* __builtin_return_address(0) *)
  debugctl : Z;                      (* readmsr(MSR_INTEL_DEBUGCTL) *)
  killed_in_yield : bool;            (* killed by another core while yielded *)
  sampintr : Z;                      (* sampintr(tf): NMI sources handled *)
  sampintr_intena : Z                (* mycpu()->intena its locks leave behind *)
}.

(** *** Field updates *)

Definition with_cpu (f : cpu -> cpu) (s : kstate) : kstate :=
  mk_kstate (f (mycpu s)) (intr_on s) (myproc s) (tf s) (irq_info s)
    (registered_trap_handlers s) (registered_trap_handler_contexts s)
    (secrets_mapped s) (ENTRY_COUNT s) (ENTRY_TIMES s) (panicked s)
    (nmi_lastpc s) (nmi_swallow s) (gs_base s) (trace s).

Definition with_intr_on (b : bool) (s : kstate) : kstate :=
  mk_kstate (mycpu s) b (myproc s) (tf s) (irq_info s)
    (registered_trap_handlers s) (registered_trap_handler_contexts s)
    (secrets_mapped s) (ENTRY_COUNT s) (ENTRY_TIMES s) (panicked s)
    (nmi_lastpc s) (nmi_swallow s) (gs_base s) (trace s).

Definition with_proc (f : proc -> proc) (s : kstate) : kstate :=
  mk_kstate (mycpu s) (intr_on s) (f <$> myproc s) (tf s) (irq_info s)
    (registered_trap_handlers s) (registered_trap_handler_contexts s)
    (secrets_mapped s) (ENTRY_COUNT s) (ENTRY_TIMES s) (panicked s)
    (nmi_lastpc s) (nmi_swallow s) (gs_base s) (trace s).

Definition with_tf (f : trapframe -> trapframe) (s : kstate) : kstate :=
  mk_kstate (mycpu s) (intr_on s) (myproc s) (f (tf s)) (irq_info s)
    (registered_trap_handlers s) (registered_trap_handler_contexts s)
    (secrets_mapped s) (ENTRY_COUNT s) (ENTRY_TIMES s) (panicked s)
    (nmi_lastpc s) (nmi_swallow s) (gs_base s) (trace s).

Definition with_irq_info (l : list irq_info_t) (s : kstate) : kstate :=
  mk_kstate (mycpu s) (intr_on s) (myproc s) (tf s) l
    (registered_trap_handlers s) (registered_trap_handler_contexts s)
    (secrets_mapped s) (ENTRY_COUNT s) (ENTRY_TIMES s) (panicked s)
    (nmi_lastpc s) (nmi_swallow s) (gs_base s) (trace s).

Definition with_secrets (b : bool) (s : kstate) : kstate :=
  mk_kstate (mycpu s) (intr_on s) (myproc s) (tf s) (irq_info s)
    (registered_trap_handlers s) (registered_trap_handler_contexts s)
    b (ENTRY_COUNT s) (ENTRY_TIMES s) (panicked s)
    (nmi_lastpc s) (nmi_swallow s) (gs_base s) (trace s).

Definition with_entry (c : Z) (t : gmap Z Z) (s : kstate) : kstate :=
  mk_kstate (mycpu s) (intr_on s) (myproc s) (tf s) (irq_info s)
    (registered_trap_handlers s) (registered_trap_handler_contexts s)
    (secrets_mapped s) c t (panicked s)
    (nmi_lastpc s) (nmi_swallow s) (gs_base s) (trace s).

Definition with_panicked (b : bool) (s : kstate) : kstate :=
  mk_kstate (mycpu s) (intr_on s) (myproc s) (tf s) (irq_info s)
    (registered_trap_handlers s) (registered_trap_handler_contexts s)
    (secrets_mapped s) (ENTRY_COUNT s) (ENTRY_TIMES s) b
    (nmi_lastpc s) (nmi_swallow s) (gs_base s) (trace s).

Definition with_trace (t : list event) (s : kstate) : kstate :=
  mk_kstate (mycpu s) (intr_on s) (myproc s) (tf s) (irq_info s)
    (registered_trap_handlers s) (registered_trap_handler_contexts s)
    (secrets_mapped s) (ENTRY_COUNT s) (ENTRY_TIMES s) (panicked s)
    (nmi_lastpc s) (nmi_swallow s) (gs_base s) t.

Definition with_nmi (lastpc swallow : Z) (s : kstate) : kstate :=
  mk_kstate (mycpu s) (intr_on s) (myproc s) (tf s) (irq_info s)
    (registered_trap_handlers s) (registered_trap_handler_contexts s)
    (secrets_mapped s) (ENTRY_COUNT s) (ENTRY_TIMES s) (panicked s)
    lastpc swallow (gs_base s) (trace s).

Definition with_gs_base (v : Z) (s : kstate) : kstate :=
  mk_kstate (mycpu s) (intr_on s) (myproc s) (tf s) (irq_info s)
    (registered_trap_handlers s) (registered_trap_handler_contexts s)
    (secrets_mapped s) (ENTRY_COUNT s) (ENTRY_TIMES s) (panicked s)
    (nmi_lastpc s) (nmi_swallow s) v (trace s).

Definition set_ncli (v : Z) (c : cpu) : cpu :=
  mk_cpu (id c) v (intena c) (no_sched_count c) (timer_printpc c).
Definition set_intena (v : Z) (c : cpu) : cpu :=
  mk_cpu (id c) (ncli c) v (no_sched_count c) (timer_printpc c).
Definition set_no_sched_count (v : Z) (c : cpu) : cpu :=
  mk_cpu (id c) (ncli c) (intena c) v (timer_printpc c).
Definition set_timer_printpc (v : Z) (c : cpu) : cpu :=
  mk_cpu (id c) (ncli c) (intena c) (no_sched_count c) v.

Definition set_killed (v : Z) (p : proc) : proc :=
  mk_proc (tid p) v (uaccess_ p) (yield_ p) (get_state p)
          (transparent_barriers p) (intentional_barriers p) (kstack p).
Definition set_transparent_barriers (v : Z) (p : proc) : proc :=
  mk_proc (tid p) (killed p) (uaccess_ p) (yield_ p) (get_state p)
          v (intentional_barriers p) (kstack p).
Definition set_intentional_barriers (v : Z) (p : proc) : proc :=
  mk_proc (tid p) (killed p) (uaccess_ p) (yield_ p) (get_state p)
          (transparent_barriers p) v (kstack p).

(** ** The monad of kernel code: state, and functions that never return *)

Inductive result (A : Type) :=
| Ok (a : A) (s : kstate)
| Stop (why : stop) (s : kstate).
Arguments Ok {A} a s.
Arguments Stop {A} why s.

Definition M (A : Type) : Type := kstate -> result A.

Definition ret {A} (a : A) : M A := fun s => Ok a s.

Definition bind {A B} (m : M A) (k : A -> M B) : M B :=
  fun s => match m s with
           | Ok a s' => k a s'
           | Stop w s' => Stop w s'
           end.

Declare Scope kernel_scope.
Delimit Scope kernel_scope with kernel.
Notation "x <- m ;; k" := (bind m (fun x => k))
  (at level 100, m at next level, right associativity) : kernel_scope.
Notation "m ;; k" := (bind m (fun _ => k))
  (at level 100, right associativity) : kernel_scope.
Open Scope kernel_scope.

Definition get : M kstate := fun s => Ok s s.
Definition modify (f : kstate -> kstate) : M unit := fun s => Ok tt (f s).
Definition emit (e : event) : M unit :=
  modify (fun s => with_trace (trace s ++ [e]) s).
Definition stop_with {A} (w : stop) : M A := fun s => Stop w s.
Definition when (b : bool) (m : M unit) : M unit := if b then m else ret tt.

(** [myproc()->...]: dereferencing a null [myproc()] is undefined. *)
Definition deref_myproc : M proc :=
  s <- get ;;
  match myproc s with
  | Some p => ret p
  | None => stop_with Undefined
  end.

(** The C truth value of an integer. *)
Definition truthy (x : Z) : bool := negb (x =? 0).

(** ** kernel/trap.cc: getcallerpcs *)

Module callstack.
Section Getcallerpcs.

(** [safe_read_vm(&x, src, sizeof(x)) == sizeof(x)] for a word [x]: the
    word at [src] when all of its bytes can be read.  ([safe_read_vm] is
    outside the translated files.) *)
Variable safe_read_vm : Z -> option Z.

(** The first loop.  [k] iterations are left ([n - i]); the result is [i]
    and [pcs] when the loop is left. *)
Fixpoint walk (k : nat) (i : nat) (rbp : Z) (pcs : list Z) : nat * list Z :=
  match k with
  | O => (i, pcs)
  | S k' =>
    match safe_read_vm (wrap64 (rbp + 8)) with
    | None => (i, pcs)
    | Some saved_rip =>
      let pcs := <[i := wrap64 (saved_rip - 1)]> pcs in
      match safe_read_vm rbp with
      | None => (i, pcs)
      | Some rbp' => walk k' (S i) rbp' pcs
      end
    end
  end.

(** The second loop: [for(; i < n; i++) pcs[i] = 0]. *)
Fixpoint zero_fill (k : nat) (i : nat) (pcs : list Z) : list Z :=
  match k with
  | O => pcs
  | S k' => zero_fill k' (S i) (<[i := 0]> pcs)
  end.

(** [getcallerpcs(v, pcs, n)], where [n] is the number of elements of
    [pcs]. *)
Definition getcallerpcs (v : Z) (pcs : list Z) : list Z :=
  let n := length pcs in
  let '(i, pcs) := walk n 0 v pcs in
  zero_fill (n - i)%nat i pcs.

End Getcallerpcs.
End callstack.

(** ** kernel/console.cc: output, formatting into a buffer, the input ring
    and the print lock

    The console has its own state: the [panicked] flag, [cons], [input] and
    the [timer_printpc] request of every core.  The UART, the two displays,
    the spin locks, the condition variable and the process listing are
    outside the translated files; calls to them are recorded in order. *)

Module console.

Definition BACKSPACE : Z := 0x100.
Definition INPUT_BUF : Z := 128.

(** [C(x)]: control-x, [x - '@'] *)
Definition C (x : Z) : Z := x - 64.

Inductive lock := cons_lock | input_lock.

Inductive cevent :=
| EvUartputc (c : Z) | EvCgaputc (c : Z) | EvVgaputc (c : Z)
| EvConsCli
| EvAcquire (l : lock) | EvRelease (l : lock)
| EvWakeAll | EvCvSleep
| EvProcdumpall | EvKmemprint.

(** [struct cons]; [holder] is the id of the holding core, [None] for the
    null pointer. *)
Record cons_t := mk_cons {
  locking : Z;
  holder : option Z;
  nesting_count : Z
}.

(** [input]: [buf] holds [char]s; the indices are [int]s, whose overflow
    is undefined in C, so they are unbounded integers here. *)
Record input_t := mk_input {
  buf : list Z;
  r : Z;
  w : Z;
  e : Z
}.

Record cstate := mk_cstate {
  panicked : Z;
  cons : cons_t;
  input : input_t;
  cpus_timer_printpc : list Z;    (* cpus[i].timer_printpc for i < ncpu *)
  ctrace : list cevent
}.

Definition with_cons (c : cons_t) (s : cstate) : cstate :=
  mk_cstate (panicked s) c (input s) (cpus_timer_printpc s) (ctrace s).
Definition with_input (i : input_t) (s : cstate) : cstate :=
  mk_cstate (panicked s) (cons s) i (cpus_timer_printpc s) (ctrace s).
Definition with_printpc (l : list Z) (s : cstate) : cstate :=
  mk_cstate (panicked s) (cons s) (input s) l (ctrace s).
Definition with_ctrace (t : list cevent) (s : cstate) : cstate :=
  mk_cstate (panicked s) (cons s) (input s) (cpus_timer_printpc s) t.

(** Why a console routine does not return: the endless loop of [consputc]
    after a panic, a sleep on [input.cv] that nothing in the run wakes, a
    failed [assert], an array index outside [input.buf]. *)
Inductive halt := Spinning | Sleeping | AssertFailed | OutOfBounds.

Inductive cresult (A : Type) :=
| Done (a : A) (s : cstate)
| Halt (h : halt) (s : cstate).
Arguments Done {A} a s.
Arguments Halt {A} h s.

Definition CM (A : Type) : Type := cstate -> cresult A.

Definition cret {A} (a : A) : CM A := fun s => Done a s.
Definition cbind {A B} (m : CM A) (k : A -> CM B) : CM B :=
  fun s => match m s with
           | Done a s' => k a s'
           | Halt h s' => Halt h s'
           end.

Declare Scope console_scope.
Notation "x <- m ;; k" := (cbind m (fun x => k))
  (at level 100, m at next level, right associativity) : console_scope.
Notation "m ;; k" := (cbind m (fun _ => k))
  (at level 100, right associativity) : console_scope.
Local Open Scope console_scope.

Definition cget : CM cstate := fun s => Done s s.
Definition cmodify (f : cstate -> cstate) : CM unit := fun s => Done tt (f s).
Definition cemit (ev : cevent) : CM unit :=
  cmodify (fun s => with_ctrace (ctrace s ++ [ev]) s).
Definition chalt {A} (h : halt) : CM A := fun s => Halt h s.
Definition cwhen (b : bool) (m : CM unit) : CM unit := if b then m else cret tt.

Definition uartputc (c : Z) : CM unit := cemit (EvUartputc c).
Definition cgaputc (c : Z) : CM unit := cemit (EvCgaputc c).
Definition vgaputc (c : Z) : CM unit := cemit (EvVgaputc c).
Definition acquire (l : lock) : CM unit := cemit (EvAcquire l).
Definition release (l : lock) : CM unit := cemit (EvRelease l).

(** *** Output *)

Definition consputc (c : Z) : CM unit :=
  s <- cget ;;
  (if truthy (panicked s) then cemit EvConsCli ;; chalt Spinning else cret tt) ;;
  (if c =? BACKSPACE then
     uartputc 8 ;; uartputc 32 ;; uartputc 8
   else if c =? 10 then
     uartputc 13 ;; uartputc c
   else uartputc c) ;;
  cgaputc c ;;
  vgaputc c.

Fixpoint consolewrite_loop (buf : list Z) : CM unit :=
  match buf with
  | [] => cret tt
  | c :: rest => consputc (Z.land c 0xff) ;; consolewrite_loop rest
  end.

(** [consolewrite(buf, n)]: the argument is the [n] characters at [buf]. *)
Definition consolewrite (buf : list Z) : CM Z :=
  acquire cons_lock ;;
  consolewrite_loop buf ;;
  release cons_lock ;;
  cret (Z.of_nat (length buf)).

(** *** Printing to a buffer

    Memory is a map from addresses to bytes; the fields [p] and [e] of
    [struct bufstate] are addresses ([e] is written [e_] here, the name
    being taken by the edit index of [input]). *)
Record bufstate := mk_bufstate {
  p : Z;
  e_ : Z;
  total : Z
}.

Definition store (m : Z -> Z) (a v : Z) : Z -> Z :=
  fun a' => if a' =? a then v else m a'.

(** The [int] argument is stored as a [char]: its low byte. *)
Definition writebuf (c : Z) (st : bufstate * (Z -> Z)) : bufstate * (Z -> Z) :=
  let '(bs, m) := st in
  let '(bs1, m1) :=
    if p bs <? e_ bs
    then (mk_bufstate (p bs + 1) (e_ bs) (total bs), store m (p bs) (Z.land c 0xff))
    else (bs, m) in
  (mk_bufstate (p bs1) (e_ bs1) (total bs1 + 1), m1).

(** [vprintfmt] is defined outside the translated files: it passes the
    characters of the formatted text to [putch], in order.  The formatted
    text stands for the format string and its arguments. *)
Definition vprintfmt {S} (putch : Z -> S -> S) (putdat : S) (text : list Z) : S :=
  fold_left (fun st c => putch c st) text putdat.

(** The result is the return value and the memory afterwards. *)
Definition vsnprintf (buf n : Z) (text : list Z) (m : Z -> Z) : Z * (Z -> Z) :=
  let bs := mk_bufstate buf (buf + n - 1) 0 in
  let '(bs', m') := vprintfmt writebuf (bs, m) text in
  (total bs', store m' (p bs') 0).

(** *** Printing to the console *)

Definition writecons (c : Z) : CM unit := consputc c.

(** [__cprintf(fmt, ...)] is [vprintfmt(writecons, 0, fmt, ap)]: the
    characters of the formatted text go to [writecons], in order. *)
Fixpoint __cprintf (text : list Z) : CM unit :=
  match text with
  | [] => cret tt
  | c :: rest => writecons c ;; __cprintf rest
  end.

(** *** Stack traces

    Both formats of a line of [printtrace] start with two spaces and end
    with a line feed; between them come the address in 16 hexadecimal
    digits and, when [kmeta::lookup] finds one, the symbol and the offset,
    here [body]. *)
Definition trace_line (body : Z -> list Z) (x : Z) : list Z :=
  [32; 32] ++ body x ++ [10].

(** The loop of [printtrace] over [pc]: one line for every entry up to the
    first zero. *)
Fixpoint printtrace_loop (body : Z -> list Z) (pc : list Z) : CM unit :=
  match pc with
  | [] => cret tt
  | x :: rest =>
    if x =? 0 then cret tt
    else __cprintf (trace_line body x) ;; printtrace_loop body rest
  end.

(** [printtrace(rbp)]; [pc] is the local array of 10 entries as the call
    finds it, [safe_read_vm] as for [getcallerpcs]. *)
Definition printtrace (safe_read_vm : Z -> option Z) (body : Z -> list Z)
    (pc : list Z) (rbp : Z) : CM unit :=
  printtrace_loop body (callstack.getcallerpcs safe_read_vm rbp pc).

(** *** Trap names

    [sizeof(trapnames)] is the size of the array in bytes, 8 for each of
    its pointers. *)
Definition trapnames : list string :=
  [ "#DE"; "#DB"; "NMI"; "#BP"; "#OF"; "#BR"; "#UD"; "#NM"; "#DF"; "?";
    "#TS"; "#NP"; "#SS"; "#GP"; "#PF"; "?"; "#MF"; "#AC"; "#MC"; "#XM";
    "#VE" ]%string.

Definition sizeof_trapnames : Z := 8 * Z.of_nat (length trapnames).

(** The choice of [trapname] in [printtrap]; [None] is a read past the end
    of [trapnames]. *)
Definition printtrap_trapname (trapno : Z) : option string :=
  if (0 <=? trapno) && (trapno <? sizeof_trapnames)
  then trapnames !! Z.to_nat trapno
  else Some "?"%string.

(** *** Input *)

(** Conversion of an [int] to [char], which is signed on this target. *)
Definition to_char (x : Z) : Z := (x + 128) mod 256 - 128.

(** [input.buf[i]] as an rvalue and as the target of an assignment. *)
Definition buf_load (i : Z) : CM Z :=
  s <- cget ;;
  match (if 0 <=? i then buf (input s) !! Z.to_nat i else None) with
  | Some c => cret c
  | None => chalt OutOfBounds
  end.

Definition buf_store (i : Z) (c : Z) : CM unit :=
  s <- cget ;;
  if (0 <=? i) && (i <? Z.of_nat (length (buf (input s)))) then
    cmodify (with_input (mk_input (<[Z.to_nat i := to_char c]> (buf (input s)))
                                  (r (input s)) (w (input s)) (e (input s))))
  else chalt OutOfBounds.

Definition set_r (v : Z) (s : cstate) : cstate :=
  with_input (mk_input (buf (input s)) v (w (input s)) (e (input s))) s.
Definition set_w (v : Z) (s : cstate) : cstate :=
  with_input (mk_input (buf (input s)) (r (input s)) v (e (input s))) s.
Definition set_e (v : Z) (s : cstate) : cstate :=
  with_input (mk_input (buf (input s)) (r (input s)) (w (input s)) v) s.

(** The body of the [while] loop of [consoleintr] for one character. *)
Definition consoleintr_char (c : Z) : CM unit :=
  if c =? C 80 then cemit EvProcdumpall
  else if c =? C 69 then
    cmodify (fun s => with_printpc ((fun _ => 1) <$> cpus_timer_printpc s) s)
  else if c =? C 84 then
    cmodify (fun s => with_printpc ((fun _ => 2) <$> cpus_timer_printpc s) s)
  else if c =? C 70 then cemit EvKmemprint
  else if c =? C 89 then cret tt
  else
    s <- cget ;;
    cwhen (negb (c =? 0) && (e (input s) - r (input s) <? INPUT_BUF))
      (let c := if c =? 13 then 10 else c in
       buf_store (Z.rem (e (input s)) INPUT_BUF) c ;;
       cmodify (set_e (e (input s) + 1)) ;;
       cmodify (fun s => set_w (e (input s)) s) ;;
       cemit EvWakeAll).

(** [getc] is given by the values its successive calls return; after
    them it returns a negative value. *)
Fixpoint consoleintr_loop (getc : list Z) : CM unit :=
  match getc with
  | [] => cret tt
  | c :: rest =>
    if 0 <=? c then consoleintr_char c ;; consoleintr_loop rest
    else cret tt
  end.

Definition consoleintr (getc : list Z) : CM unit :=
  acquire input_lock ;;
  consoleintr_loop getc ;;
  release input_lock.

(** The [while(n > 0)] loop of [consoleread] and what follows it; [dst]
    collects the characters stored through the pointer so far.  The sleep
    on [input.cv] ends the run: nothing in it fills the buffer
    meanwhile. *)
Fixpoint consoleread_loop (killed : Z) (target : Z) (n : nat) (dst : list Z)
  : CM (Z * list Z) :=
  match n with
  | O => release input_lock ;; cret (target - Z.of_nat n, dst)
  | S n' =>
    s <- cget ;;
    if r (input s) =? w (input s) then
      if truthy killed then release input_lock ;; cret (-1, dst)
      else cemit EvCvSleep ;; chalt Sleeping
    else
      c <- buf_load (Z.rem (r (input s)) INPUT_BUF) ;;
      cmodify (set_r (r (input s) + 1)) ;;
      if c =? C 68 then
        cwhen (Z.of_nat n <? target) (cmodify (fun s => set_r (r (input s) - 1) s)) ;;
        release input_lock ;; cret (target - Z.of_nat n, dst)
      else
        let dst := dst ++ [c] in
        if c =? 10 then release input_lock ;; cret (target - Z.of_nat n', dst)
        else consoleread_loop killed target n' dst
  end.

(** [consoleread(dst, n)] by a process whose [killed] field is [killed];
    the result is the return value and the characters stored at [dst]. *)
Definition consoleread (killed : Z) (n : nat) : CM (Z * list Z) :=
  acquire input_lock ;;
  consoleread_loop killed (Z.of_nat n) n [].

(** *** The print lock *)

(** [console_stream::_begin_print] and [console_stream::end_print] on the
    core with id [me]. *)
Definition _begin_print (me : Z) : CM unit :=
  s <- cget ;;
  if negb (truthy (locking (cons s))) || bool_decide (holder (cons s) = Some me) then
    cmodify (fun s => with_cons (mk_cons (locking (cons s)) (holder (cons s))
                                         (nesting_count (cons s) + 1)) s)
  else
    acquire cons_lock ;;
    cmodify (fun s => with_cons (mk_cons (locking (cons s)) (Some me)
                                         (nesting_count (cons s))) s) ;;
    cmodify (fun s => with_cons (mk_cons (locking (cons s)) (holder (cons s)) 1) s).

Definition end_print (me : Z) : CM unit :=
  cmodify (fun s => with_cons (mk_cons (locking (cons s)) (holder (cons s))
                                       (nesting_count (cons s) - 1)) s) ;;
  s <- cget ;;
  if negb (nesting_count (cons s) =? 0) || negb (truthy (locking (cons s))) then
    cret tt
  else
    (if bool_decide (holder (cons s) = Some me) then cret tt
     else chalt AssertFailed) ;;
    cmodify (fun s => with_cons (mk_cons (locking (cons s)) None
                                         (nesting_count (cons s))) s) ;;
    release cons_lock.

End console.

(** ** Interrupt flag and nested interrupt disabling *)

Section Cli.
Context `{K : kconsts}.

Definition cli : M unit := emit EvCli ;; modify (with_intr_on false).
Definition sti : M unit := emit EvSti ;; modify (with_intr_on true).

(** [readrflags() & FL_IF] *)
Definition readrflags_IF : M Z :=
  s <- get ;; ret (if intr_on s then FL_IF else 0).

Definition pushcli : M unit :=
  rflags_if <- readrflags_IF ;;
  cli ;;
  s <- get ;;
  let old := ncli (mycpu s) in
  modify (with_cpu (set_ncli (old + 1))) ;;
  when (old =? 0) (modify (with_cpu (set_intena rflags_if))).

Definition popcli : M unit :=
  fl <- readrflags_IF ;;
  (if truthy fl then stop_with (Panic "popcli - interruptible"%string) else ret tt) ;;
  s <- get ;;
  let n := ncli (mycpu s) - 1 in
  modify (with_cpu (set_ncli n)) ;;
  (if n <? 0 then stop_with (Panic "popcli"%string) else ret tt) ;;
  s <- get ;;
  when ((ncli (mycpu s) =? 0) && truthy (intena (mycpu s))) sti.

End Cli.

(** ** Collaborators *)

Section Kernel.
Context `{K : kconsts}.
Variable E : env.

(** [yield()] comes back when the process is scheduled again; meanwhile it
    may have been killed.  The event records [no_sched_count] at the call. *)
Definition yield : M unit :=
  s <- get ;;
  emit (EvYield (no_sched_count (mycpu s))) ;;
  when (killed_in_yield E) (modify (with_proc (set_killed 1))).

Definition procexit {A} : M A := stop_with ProcExit.

Definition lapiceoi : M unit := emit EvLapicEoi.
Definition piceoi : M unit := emit EvPicEoi.

(** [switch_to_kstack()] maps the secrets in (comment in [do_pagefault]). *)
Definition switch_to_kstack : M unit :=
  emit EvSwitchToKstack ;; modify (with_secrets true).

(** ** kernel/console.cc: printing from the trap code, kerneltrap

    Whatever [cprintf], [__cprintf] and the console streams print goes to
    [consputc] character by character ([console.consputc] has the devices),
    and [consputc] tests [panicked] first: once the kernel has panicked, a
    core that prints turns its interrupts off and spins for ever.  In the
    trap code a print is one event that carries the message; none of the
    texts printed here is empty, so every print meets the test.  The console
    lock that [cprintf] and the streams hold around a text is not part of
    the record. *)
Definition cprintf (m : message) : M unit :=
  s <- get ;;
  if panicked s then cli ;; stop_with ConsoleSpin
  else emit (EvCprintf m).

(** [__cprintf] and [uerr.println] differ from [cprintf] in how they deal
    with the console lock only. *)
Abbreviation __cprintf := cprintf (only parsing).
Abbreviation uerr_println := cprintf (only parsing).

(** The loop over the caller pcs, in the timer code and in [printtrace]:
    [for (int i = 0; i < 10 && pc[i]; i++) cprintf(...)], with the text of
    a line given by [line]. *)
Fixpoint print_pcs (line : Z -> message) (pc : list Z) : M unit :=
  match pc with
  | [] => ret tt
  | p :: rest => if truthy p
                 then cprintf (line p) ;; print_pcs line rest
                 else ret tt
  end.

(** [printtrap(tf, false)].  The name of the trap is read from
    [trapnames]; the read is past the end of the table for the vectors 21
    to 167 ([console.printtrap_trapname]).  The last line compares
    [tf->rsp] with the kernel stack of the current process. *)
Definition printtrap : M unit :=
  s <- get ;;
  let t := tf s in
  trapname <- match console.printtrap_trapname (trapno t) with
              | Some name => ret name
              | None => stop_with Undefined
              end ;;
  __cprintf (msg_trap (trapno t) trapname) ;;
  when (trapno t =? T_PGFLT) (__cprintf msg_page_fault) ;;
  when (match myproc s with
        | Some p => truthy (kstack p) && (gpr t RSP <? kstack p)
        | None => false
        end)
       (__cprintf msg_stack_overflow).

(** [printtrace(rbp)] *)
Definition printtrace (rbp : Z) : M unit :=
  print_pcs msg_trace_line (take 10 (getcallerpcs E rbp 10)).

(** The bounded wait for the console lock at the start of [kerneltrap] is
    left out. *)
Definition kerneltrap {A} : M A :=
  cli ;;
  s <- get ;;
  __cprintf msg_kernel ;;
  printtrap ;;
  printtrace (gpr (tf s) RBP) ;;
  when (truthy (Z.land (debugctl E) 1)) (__cprintf msg_last_branch) ;;
  modify (with_panicked true) ;;
  stop_with KernelTrap.

(** ** kernel/trap.cc *)

Definition ensure_secrets : M unit :=
  pushcli ;;
  s <- get ;;
  let had_secrets := secrets_mapped s in
  switch_to_kstack ;;
  popcli ;;
  when (track_wbs E && negb had_secrets)
       (emit (EvWbIncrement false (wrap64 (return_address E - 1)))) ;;
  s <- get ;;
  when (negb had_secrets && bool_decide (is_Some (myproc s)))
       (modify (with_proc (fun p =>
          set_intentional_barriers (wrap64 (intentional_barriers p + 1)) p))).

(** The timing probe that [do_pagefault] and [trap] repeat:
    [ENTRY_TIMES[ENTRY_COUNT++] = end - start]. *)
Definition record_entry_time : M unit :=
  s <- get ;;
  let t := tf s in
  let start := Z.lor (Z.land (gpr t RAX) 0xffffffff)
                     (Z.shiftl (Z.land (gpr t RDX) 0xffffffff) 32) in
  let end_ := Z.lor (Z.land (padding3_1 t) 0xffffffff)
                    (Z.shiftl (Z.land (padding3_0 t) 0xffffffff) 32) in
  modify (with_entry (wrap64 (ENTRY_COUNT s + 1))
                     (<[ENTRY_COUNT s := wrap64 (end_ - start)]> (ENTRY_TIMES s))).

Definition advance_rip (n : Z) : M unit :=
  modify (with_tf (fun t => set_rip (wrap64 (rip t + n)) t)).

Definition do_pagefault (had_secrets : bool) : M Z :=
  let addr := rcr2 E in
  if addr =? 123 then
    record_entry_time ;; advance_rip 8 ;; ret 0
  else
    s <- get ;;
    if ((Z.land (cs (tf s)) 3 =? 0) || bool_decide (myproc s = None))
       && negb had_secrets && (KGLOBAL <=? addr) then
      switch_to_kstack ;;
      when (track_wbs E)
        (let pc := getcallerpcs E (gpr (tf s) RBP) 2 in
         let bt := Z.lor (Z.lor (Z.land (rip (tf s)) 0x1fffff)
                           (Z.shiftl (Z.land (nth 0 pc 0) 0x1fffff) 21))
                         (Z.shiftl (Z.land (nth 1 pc 0) 0x1fffff) 42) in
         emit (EvWbIncrement true bt)) ;;
      when (negb had_secrets && bool_decide (is_Some (myproc s)))
        (modify (with_proc (fun p =>
           set_transparent_barriers (wrap64 (transparent_barriers p + 1)) p))) ;;
      ret 0
    else if (addr <? USERTOP) && truthy (Z.land (err (tf s)) FEC_U) then
      sti ;;
      _ <- deref_myproc ;;
      let r := pagefault E addr (err (tf s)) in
      emit (EvPagefault addr (err (tf s)) r) ;;
      cli ;;
      if 0 <=? r then ret 0
      else
        _ <- deref_myproc ;;
        let accepted := deliver_signal E SIGSEGV in
        emit (EvDeliverSignal SIGSEGV accepted) ;;
        if accepted then ret 0 else ret (-1)
    else
      match myproc s with
      | Some p =>
        if uaccess_ p then
          resolved <-
            (if uaccess_ p && (ncli (mycpu s) =? 0) then
               sti ;;
               let r := pagefault E addr (err (tf s)) in
               emit (EvPagefault addr (err (tf s)) r) ;;
               cli ;;
               ret (0 <=? r)
             else ret false) ;;
          if (resolved : bool) then ret 0
          else
            modify (with_tf (set_gpr RAX (wrap64 (-1)))) ;;
            modify (with_tf (set_rip uaccess_end)) ;;
            ret 0
        else ret (-1)
      | None => ret (-1)
      end.

(** [struct nmiframe], the fields used here. *)
Record nmiframe := mk_nmiframe {
  nmi_rip : Z;
  nmi_gsbase : Z
}.

Definition writemsr_gs_base (v : Z) : M unit :=
  emit (EvWritemsr MSR_GS_BASE v) ;; modify (with_gs_base v).

(** [handled] and [nmi_swallow] are [int]; signed overflow is undefined in
    C, so they are unbounded integers here. *)
Definition nmientry_c (ntf : nmiframe) : M unit :=
  s <- get ;;
  let saved_gsbase := gs_base s in
  writemsr_gs_base (nmi_gsbase ntf) ;;
  let intena_save := intena (mycpu s) in
  let repeat := nmi_lastpc s =? nmi_rip ntf in
  modify (fun s => with_nmi (nmi_rip ntf) (nmi_swallow s) s) ;;
  when (negb repeat) (modify (fun s => with_nmi (nmi_lastpc s) 0 s)) ;;
  let handled := 0 + sampintr E in
  modify (with_cpu (set_intena (sampintr_intena E))) ;;
  s <- get ;;
  (if (handled =? 0) && negb (truthy (nmi_swallow s))
   then stop_with (Panic "NMI"%string) else ret tt) ;;
  modify (fun s => with_nmi (nmi_lastpc s) (nmi_swallow s + (handled - 1)) s) ;;
  modify (with_cpu (set_intena intena_save)) ;;
  writemsr_gs_base saved_gsbase.

(** *** The popcnt emulation of [trap]

    [regs] is a local array of pointers into the trap frame.  A pointer is
    the register it was taken from and the number of [u64] elements it has
    been advanced by. *)
Record regptr := mk_regptr {
  base : reg;
  off : Z
}.

Definition regs_init : list regptr :=
  (fun r => mk_regptr r 0) <$>
  [RAX; RCX; RDX; RBX; RSP; RBP; RSI; RDI;
   R8; R9; R10; R11; R12; R13; R14; R15].

(** [*p] as an rvalue.  A pointer advanced past its register points at
    whatever the layout of [struct trapframe] puts there; that read is left
    undefined. *)
Definition load_regptr (p : option regptr) : M Z :=
  match p with
  | Some (mk_regptr r 0) => s <- get ;; ret (gpr (tf s) r)
  | _ => stop_with Undefined
  end.

(** [*p = v] *)
Definition store_regptr (p : option regptr) (v : Z) : M unit :=
  match p with
  | Some (mk_regptr r 0) => modify (with_tf (set_gpr r v))
  | _ => stop_with Undefined
  end.

(** [p++] on a pointer *)
Definition regptr_incr (p : regptr) : regptr := mk_regptr (base p) (off p + 1).

(** The loop over the 64 bit positions [i]: when bit [i] of the word that
    [regs[reg]] points to is set, [regs[rm]++].  [n] iterations are left. *)
Fixpoint popcnt_loop (n : nat) (i : Z) (reg_ rm : nat) (regs : list regptr)
  : M (list regptr) :=
  match n with
  | O => ret regs
  | S n' =>
    v <- load_regptr (regs !! reg_) ;;
    let regs' := if truthy (Z.land v (Z.shiftl 1 i))
                 then alter regptr_incr rm regs else regs in
    popcnt_loop n' (i + 1) reg_ rm regs'
  end.

Definition popcnt_reg (instr : Z) : Z :=
  Z.lor (Z.land (Z.shiftr instr 32) 0x7)
        (Z.shiftl (Z.land (Z.shiftr instr 8) 0x1) 3).
Definition popcnt_rm (instr : Z) : Z :=
  Z.lor (Z.land (Z.shiftr instr 35) 0x7)
        (Z.shiftl (Z.land (Z.shiftr instr 9) 0x1) 3).

Definition is_popcnt (instr : Z) : bool :=
  Z.land instr 0xc0fffff0ff =? 0xc0b80f40f3.

Definition emulate_popcnt (instr : Z) : M unit :=
  let reg_ := Z.to_nat (popcnt_reg instr) in
  let rm := Z.to_nat (popcnt_rm instr) in
  let regs := regs_init in
  store_regptr (regs !! rm) 0 ;;
  _ <- popcnt_loop 64 0 reg_ rm regs ;;
  advance_rip 5.

(** *** trap *)

(** The code after the [switch]. *)
Definition trap_epilogue : M unit :=
  s <- get ;;
  (match myproc s with
   | Some p => if truthy (killed p) && (Z.land (cs (tf s)) 3 =? 0x3)
               then procexit else ret tt
   | None => ret tt
   end) ;;
  s <- get ;;
  (match myproc s with
   | Some p => if bool_decide (get_state p = RUNNING)
                  && ((trapno (tf s) =? T_IRQ0 + IRQ_TIMER) || yield_ p)
               then yield else ret tt
   | None => ret tt
   end) ;;
  s <- get ;;
  match myproc s with
  | Some p => if truthy (killed p) && (Z.land (cs (tf s)) 3 =? 0x3)
              then procexit else ret tt
  | None => ret tt
  end.

Definition trap_timer : M unit :=
  emit (EvKstat sched_tick_count) ;;
  s <- get ;;
  when (truthy (timer_printpc (mycpu s)))
    (cprintf msg_timer_printpc ;;
     when ((timer_printpc (mycpu s) =? 2) && (KBASE <? gpr (tf s) RBP))
       (print_pcs msg_timer_frame (take 10 (getcallerpcs E (gpr (tf s) RBP) 10))) ;;
     modify (with_cpu (set_timer_printpc 0))) ;;
  when (id (mycpu s) =? 0)
    (emit EvTimerintr ;;
     s <- get ;;
     when (negb (ENTRY_COUNT s =? 0xffffffff))
       (record_entry_time ;;
        s <- get ;;
        when (ENTRY_COUNT s =? 100) (modify (with_tf (set_rip 0x100f))))) ;;
  emit EvRefcacheTick ;;
  lapiceoi ;;
  s <- get ;;
  if truthy (no_sched_count (mycpu s)) then
    emit (EvKstat sched_blocked_tick_count) ;;
    modify (with_cpu (set_no_sched_count
      (Z.lor (no_sched_count (mycpu s)) NO_SCHED_COUNT_YIELD_REQUESTED)))
  else trap_epilogue.

(** The code of the [default:] label after its chain of [if]s. *)
Definition trap_unhandled : M unit :=
  s <- get ;;
  (if bool_decide (myproc s = None) || (Z.land (cs (tf s)) 3 =? 0) then
     kerneltrap
   else
     uerr_println (msg_kill_proc (trapno (tf s))) ;;
     modify (with_proc (set_killed 1))) ;;
  trap_epilogue.

Fixpoint run_handlers (hs : list Z) : M unit :=
  match hs with
  | [] => ret tt
  | h :: rest => emit (EvHandleIrq h) ;; run_handlers rest
  end.

(** The last two [else if]s of the [default:] label. *)
Definition trap_pgflt_or_registered (had_secrets : bool) : M unit :=
  s <- get ;;
  resolved <- (if trapno (tf s) =? T_PGFLT
               then r <- do_pagefault had_secrets ;; ret (r =? 0)
               else ret false) ;;
  if (resolved : bool) then
    p <- deref_myproc ;;
    if truthy (killed p) then procexit else ret tt
  else
    s <- get ;;
    match (if trapno (tf s) <? 256
           then registered_trap_handlers s !! trapno (tf s) else None) with
    | Some fn =>
      ensure_secrets ;;
      emit (EvTrapHandler fn
              (default 0 (registered_trap_handler_contexts s !! trapno (tf s))))
    | None => trap_unhandled
    end.

(** [*(u64* )a] where [a] is an address that the interrupted program
    chose: the load faults when the eight bytes are not all mapped.  The
    page fault is then taken inside [trap], on a frame of its own; that
    nested trap is not followed, the run ends here.  (The other load of
    [trap_default] reads kernel text, which is mapped.) *)
Definition load64 (a : Z) : M Z :=
  if readable64 E a then ret (mem64 E a) else stop_with (NestedFault a).

Definition trap_default (had_secrets : bool) : M unit :=
  s <- get ;;
  let t := tf s in
  if (trapno t =? T_ILLOP) && (Z.land (cs t) 3 =? 0)
     && (KTEXT <=? rip t) && (rip t <? KTEXTEND) then
    let instr := mem64 E (rip t) in
    if is_popcnt instr then emulate_popcnt instr
    else trap_unhandled
  else if (trapno t =? T_ILLOP) && (Z.land (cs t) 3 =? 3) then
    instr <- load64 (rip t) ;;
    if Z.land instr 0xffff =? 0x0b0f then
      record_entry_time ;; advance_rip 2
    else trap_unhandled
  else if T_IRQ0 <=? trapno t then
    match irq_info s !! Z.to_nat (trapno t - T_IRQ0) with
    | None => stop_with Undefined
    | Some (mk_irq_info [] _) => trap_pgflt_or_registered had_secrets
    | Some (mk_irq_info hs _) => run_handlers hs ;; lapiceoi ;; piceoi
    end
  else trap_pgflt_or_registered had_secrets.

(** The [switch] on [tf->trapno] is a chain of tests in label order (the
    labels of a [switch] are pairwise distinct); a [case] that ends in
    [break] continues with [trap_epilogue], one that ends in [return]
    does not. *)
Definition trap (had_secrets : bool) : M unit :=
  s <- get ;;
  let n := trapno (tf s) in
  if n =? T_IRQ0 + IRQ_TIMER then trap_timer
  else if n =? T_IRQ0 + IRQ_IDE then
    emit EvIdeintr ;; lapiceoi ;; piceoi ;; trap_epilogue
  else if n =? T_IRQ0 + IRQ_IDE + 1 then trap_epilogue
  else if n =? T_IRQ0 + IRQ_KBD then
    emit EvKbdintr ;; lapiceoi ;; piceoi ;; trap_epilogue
  else if n =? T_IRQ0 + IRQ_MOUSE then
    emit EvMouseintr ;; lapiceoi ;; piceoi ;; trap_epilogue
  else if (n =? T_IRQ0 + IRQ_COM2) || (n =? T_IRQ0 + IRQ_COM1) then
    emit EvUartintr ;; lapiceoi ;; piceoi ;; trap_epilogue
  else if (n =? T_IRQ0 + 7) || (n =? T_IRQ0 + IRQ_SPURIOUS) then
    cprintf msg_spurious ;; trap_epilogue
  else if n =? T_IRQ0 + IRQ_ERROR then
    cprintf msg_lapic_error ;; lapiceoi ;; trap_epilogue
  else if n =? T_TLBFLUSH then
    lapiceoi ;; emit EvTlbShootdown ;; trap_epilogue
  else if n =? T_SAMPCONF then
    lapiceoi ;; emit EvSampconf ;; trap_epilogue
  else if n =? T_PAUSE then
    lapiceoi ;; emit EvPauseCpu ;; trap_epilogue
  else if n =? T_IPICALL then
    lapiceoi ;; emit EvIpicall ;; trap_epilogue
  else if n =? T_WAKE_CORE then
    lapiceoi ;; trap_epilogue
  else trap_default had_secrets.

Definition trap_c (had_secrets : bool) : M unit := trap had_secrets.

(** *** The IRQ registry *)

(** [irq_info[g].in_use = true]; a write outside the array is undefined. *)
Definition mark_in_use (g : Z) : M unit :=
  s <- get ;;
  match (if 0 <=? g then irq_info s !! Z.to_nat g else None) with
  | Some e => modify (with_irq_info
                (<[Z.to_nat g := mk_irq_info (handlers e) true]> (irq_info s)))
  | None => stop_with Undefined
  end.

Fixpoint for_each (l : list Z) (body : Z -> M unit) : M unit :=
  match l with
  | [] => ret tt
  | i :: rest => body i ;; for_each rest body
  end.

(** The interrupt descriptor table that [inittrap] fills first is read by
    the hardware only and is left out. *)
Definition inittrap : M unit :=
  for_each (seqZ 0 16) mark_in_use ;;
  mark_in_use IRQ_SPURIOUS ;;
  mark_in_use (255 - T_IRQ0).

(** [struct irq] ([irq.hh] is not among the sources: the fields are the
    ones [trap.cc] uses). *)
Record irq := mk_irq {
  vector : Z;
  gsi : Z;
  active_low : bool;
  level_triggered : bool
}.

(** [irq::valid()], declared in [irq.hh]. *)
Variable valid : irq -> bool.

(** The loop over [accept_gsi]: the first accepted line that is free, [-1]
    when there is none, [None] when an entry indexes outside [irq_info]. *)
Fixpoint first_free_accepted (info : list irq_info_t) (accept : list Z)
  : option Z :=
  match accept with
  | [] => Some (-1)
  | g :: rest =>
    match (if 0 <=? g then info !! Z.to_nat g else None) with
    | Some e => if in_use e then first_free_accepted info rest else Some g
    | None => None
    end
  end.

(** The loop from the top: [try_gsi] runs from [n - 1] down to [0]. *)
Fixpoint first_free_from_top (info : list irq_info_t) (n : nat) : option Z :=
  match n with
  | O => Some (-1)
  | S try_gsi =>
    match info !! try_gsi with
    | Some e => if in_use e then first_free_from_top info try_gsi
                else Some (Z.of_nat try_gsi)
    | None => None
    end
  end.

(** [irq::reserve(accept_gsi, num_accept)]: [accept_gsi] is [None] for the
    null pointer, otherwise the [num_accept] entries.  The result is the
    return value and the updated [*this]. *)
Definition reserve (this : irq) (accept_gsi : option (list Z))
  : M (bool * irq) :=
  (if valid this then stop_with (Panic "assert(!valid())"%string) else ret tt) ;;
  s <- get ;;
  match (match accept_gsi with
         | Some accept => first_free_accepted (irq_info s) accept
         | None => first_free_from_top (irq_info s) (length (irq_info s))
         end) with
  | None => stop_with Undefined
  | Some g =>
    if g =? -1 then ret (false, this)
    else
      mark_in_use g ;;
      ret (true, mk_irq (T_IRQ0 + g) g (active_low this) (level_triggered this))
  end.

Definition register_handler (this : irq) (handler : Z) : M unit :=
  (if valid this then ret tt else stop_with (Panic "assert(valid())"%string)) ;;
  (if vector this =? gsi this + T_IRQ0 then ret tt
   else stop_with (Panic "assert(vector == gsi + T_IRQ0)"%string)) ;;
  s <- get ;;
  match (if 0 <=? gsi this then irq_info s !! Z.to_nat (gsi this) else None) with
  | Some e => modify (with_irq_info
                (<[Z.to_nat (gsi this) := mk_irq_info (handler :: handlers e) (in_use e)]>
                   (irq_info s)))
  | None => stop_with Undefined
  end.

(** *** Scheduler-suppressed scopes *)

(** Modelled from the spec: [modify_no_sched_count] is declared in [cpu.hh],
    which is not among the sources; it adds [delta] to the per-core
    scheduler-suppression count. *)
Definition modify_no_sched_count (delta : Z) : M unit :=
  modify (with_cpu (fun c =>
    set_no_sched_count (wrap64 (no_sched_count c + delta)) c)).

Definition release_yield : M unit :=
  emit (EvKstat sched_delayed_tick_count) ;;
  modify_no_sched_count (- NO_SCHED_COUNT_YIELD_REQUESTED) ;;
  yield.

(** Modelled from the spec: entering and leaving a scheduler-suppressed
    scope ([scoped_critical], whose constructor and destructor are not among
    the sources).  Scopes nest by counting; a yield requested meanwhile is
    honoured when the outermost scope exits, that is when the count is back
    to zero and only the request flag is left. *)
Definition scoped_critical_enter : M unit := modify_no_sched_count 1.

Definition scoped_critical_exit : M unit :=
  modify_no_sched_count (-1) ;;
  s <- get ;;
  when (no_sched_count (mycpu s) =? NO_SCHED_COUNT_YIELD_REQUESTED)
       release_yield.

End Kernel.

(** ** include/vm.hh: vmdesc *)

Module vmdesc.

Definition FLAG_LOCK_BIT : Z := 0.
Definition FLAG_LOCK : Z := Z.shiftl 1 FLAG_LOCK_BIT.
Definition FLAG_MAPPED : Z := Z.shiftl 1 1.
Definition FLAG_COW : Z := Z.shiftl 1 2.
Definition FLAG_ANON : Z := Z.shiftl 1 3.
Definition FLAG_WRITE : Z := Z.shiftl 1 4.
Definition FLAG_SHARED : Z := Z.shiftl 1 5.

(** Modelled from the spec: [page_info_ref] is declared in [page_info.hh],
    which is not among the sources.  It is a nullable reference to the
    backing physical page together with the tracker of the cores that cache
    the page; duplicating a descriptor keeps the page and starts with an
    empty tracker (no cached-page association). *)
Record page_info_ref := mk_page_info_ref {
  page_info : option Z;
  tracker : gset Z
}.

Definition page_info_ref_copy (p : page_info_ref) : page_info_ref :=
  mk_page_info_ref (page_info p) ∅.

Record t := mk {
  flags : Z;               (* u64 *)
  page : page_info_ref;
  inode : option Z;        (* sref<pageable>, null for anonymous memory *)
  start : Z                (* intptr_t *)
}.

(** [vmdesc()] *)
Definition unmapped : t := mk 0 (mk_page_info_ref None ∅) None 0.

(** [vmdesc(ip, start)] *)
Definition of_file (ip : option Z) (start : Z) : t :=
  mk (Z.lor FLAG_MAPPED FLAG_WRITE) (mk_page_info_ref None ∅) ip start.

Definition anon_desc : t :=
  mk (Z.lor (Z.lor FLAG_MAPPED FLAG_ANON) FLAG_WRITE)
     (mk_page_info_ref None ∅) None 0.

Definition is_set (d : t) : bool := truthy (Z.land (flags d) FLAG_MAPPED).

(** [~FLAG_LOCK] is an [int], converted to [u64] for the [&]. *)
Definition dup (d : t) : t :=
  mk (Z.land (flags d) (wrap64 (Z.lnot FLAG_LOCK)))
     (page_info_ref_copy (page d)) (inode d) (start d).

End vmdesc.

(** ** kernel/trap.cc: check_critical *)

(** The enumerators of [critical_mask]; the header that declares them is
    not among the sources. *)
Class critical_masks := {
  NO_CRITICAL : Z;
  NO_INT : Z;
  NO_SCHED : Z;
  NO_MIGRATE : Z
}.

Section CheckCritical.
Context `{K : kconsts} `{CMK : critical_masks}.

(** [myproc()->cpu_pin]: the field is not part of the [proc] record above
    and is read through this function. *)
Variable cpu_pin : proc -> Z.

Definition check_critical (mask : Z) : M bool :=
  if mask =? NO_CRITICAL then ret true
  else
    fl <- readrflags_IF ;;
    let safe := negb (truthy fl) in
    if truthy (Z.land mask NO_INT) then ret safe
    else
      s <- get ;;
      let safe := safe || truthy (no_sched_count (mycpu s)) in
      if truthy (Z.land mask NO_SCHED) then ret safe
      else
        safe <- (if safe then ret true
                 else p <- deref_myproc ;; ret (truthy (cpu_pin p))) ;;
        if truthy (Z.land mask NO_MIGRATE) then ret safe
        else ret false.

End CheckCritical.

(** ** include/kernel.hh: v2p and p2v *)

Section AddressTranslation.
Context `{K : kconsts}.

(** [KCODE] is a constant of [memlayout.h], [physical_address_offset] a
    variable set at boot. *)
Variable KCODE : Z.
Variable physical_address_offset : Z.

Definition v2p (a : Z) : Z :=
  if KCODE <=? a then wrap64 (wrap64 (a - KCODE) + physical_address_offset)
  else wrap64 (a - KBASE).

Definition p2v (a : Z) : Z := wrap64 (a + KBASE).

End AddressTranslation.

(** ** Vocabulary of the statements *)

(** The state a computation ends in, whether it returns or not. *)
Definition final {A} (r : result A) : kstate :=
  match r with Ok _ s => s | Stop _ s => s end.

(** The events a computation adds to the trace. *)
Definition emitted {A} (m : M A) (s : kstate) : list event :=
  drop (length (trace s)) (trace (final (m s))).

Definition is_yield (e : event) : bool :=
  match e with EvYield _ => true | _ => false end.

(** Whether the illegal-instruction trap in [s] is one of the two
    instruction patterns that [trap] emulates. *)
Definition illop_emulated `{kconsts} (E : env) (s : kstate) : bool :=
  let t := tf s in
  ((Z.land (cs t) 3 =? 0) && (KTEXT <=? rip t) && (rip t <? KTEXTEND)
   && is_popcnt (mem64 E (rip t)))
  || ((Z.land (cs t) 3 =? 3) && (Z.land (mem64 E (rip t)) 0xffff =? 0x0b0f)).

(** The vector of the trap in [s] has no handler installed: it is not one
    of the vectors [trap] has a [case] for, not a page fault, not an
    emulated instruction, its IRQ line (if it is one) has an empty chain,
    and no trap handler is registered for it. *)
Definition no_installed_handler `{kconsts} (E : env) (s : kstate) : Prop :=
  let n := trapno (tf s) in
  (n ∉ case_labels) /\
  n <> T_PGFLT /\
  (n = T_ILLOP -> illop_emulated E s = false) /\
  (T_IRQ0 <= n ->
     exists u, irq_info s !! Z.to_nat (n - T_IRQ0) = Some (mk_irq_info [] u)) /\
  (n < 256 -> registered_trap_handlers s !! n = None).

(** The test of the last line of [printtrap]: [tf->rsp] lies below the
    kernel stack of the current process. *)
Definition possible_stack_overflow (s : kstate) : bool :=
  match myproc s with
  | Some p => truthy (kstack p) && (gpr (tf s) RSP <? kstack p)
  | None => false
  end.

(** The claim about traps without a handler: taken at kernel privilege or
    without a current process, the trap prints the register dump and halts
    in [kerneltrap]; taken elsewhere with a current process, it returns or
    ends in the exit of that process, which is marked killed. *)
Definition unhandled_trap_claim `{kconsts} (E : env) (had_secrets : bool)
    (s : kstate) : Prop :=
  no_installed_handler E s ->
  (myproc s = None \/ Z.land (cs (tf s)) 3 = 0 ->
   exists s' name,
     trap E had_secrets s = Stop KernelTrap s' /\
     EvCprintf (msg_trap (trapno (tf s)) name) ∈ emitted (trap E had_secrets) s) /\
  (forall p, myproc s = Some p -> Z.land (cs (tf s)) 3 <> 0 ->
   exists s' p',
     (trap E had_secrets s = Ok tt s' \/ trap E had_secrets s = Stop ProcExit s') /\
     myproc s' = Some p' /\ killed p' = 1).

(** The claim about the vectors of the local APIC: the spurious vector
    prints its diagnostic and gets no end-of-interrupt, the others get
    one. *)
Definition lapic_vectors_claim `{kconsts} (E : env) (had_secrets : bool)
    (s : kstate) : Prop :=
  (trapno (tf s) = T_IRQ0 + IRQ_SPURIOUS ->
     EvCprintf msg_spurious ∈ emitted (trap E had_secrets) s /\
     EvLapicEoi ∉ emitted (trap E had_secrets) s) /\
  (trapno (tf s) ∈ [T_TLBFLUSH; T_PAUSE; T_IPICALL; T_WAKE_CORE; T_SAMPCONF;
                    T_IRQ0 + IRQ_ERROR] ->
     EvLapicEoi ∈ emitted (trap E had_secrets) s).

(** What [trap] calls after the end-of-interrupt on the vectors of the
    inter-processor interrupts. *)
Definition ipi_action `{kconsts} (n : Z) : option (list event) :=
  if n =? T_TLBFLUSH then Some [EvTlbShootdown]
  else if n =? T_SAMPCONF then Some [EvSampconf]
  else if n =? T_PAUSE then Some [EvPauseCpu]
  else if n =? T_IPICALL then Some [EvIpicall]
  else if n =? T_WAKE_CORE then Some []
  else None.

(** The claim about timer ticks in scheduler-suppressed scopes: the tick
    returns without a yield, having counted the blocked tick and set the
    request flag. *)
Definition deferred_tick_claim `{kconsts} (E : env) (had_secrets : bool)
    (s : kstate) : Prop :=
  trapno (tf s) = T_IRQ0 + IRQ_TIMER ->
  no_sched_count (mycpu s) <> 0 ->
  exists s' evs,
    trap E had_secrets s = Ok tt s' /\
    no_sched_count (mycpu s') =
      Z.lor (no_sched_count (mycpu s)) NO_SCHED_COUNT_YIELD_REQUESTED /\
    emitted (trap E had_secrets) s = evs ++ [EvKstat sched_blocked_tick_count] /\
    forallb (fun e => negb (is_yield e)) evs = true.

(** The claim about device interrupts: when the line of the trap's vector
    has a chain of registered handlers, the trap invokes every handler of
    the chain, and the first end-of-interrupt comes after all of them. *)
Definition device_irq_claim `{kconsts} (E : env) (had_secrets : bool)
    (s : kstate) : Prop :=
  forall chain u,
    T_IRQ0 <= trapno (tf s) ->
    irq_info s !! Z.to_nat (trapno (tf s) - T_IRQ0) = Some (mk_irq_info chain u) ->
    chain <> [] ->
    exists pre post,
      emitted (trap E had_secrets) s = pre ++ EvLapicEoi :: post /\
      (EvLapicEoi ∉ pre) /\
      (forall h, h ∈ chain -> EvHandleIrq h ∈ pre) /\
      (forall h, EvHandleIrq h ∉ post).

(** The claim about failed user page faults: for a page fault taken from
    user mode, at an address below [USERTOP], that the fault resolver does
    not resolve, the trap attempts to deliver [SIGSEGV]; when the signal is
    refused the process is marked killed and the trap ends in its exit;
    when it is accepted the trap returns or ends in the exit of the
    process. *)
Definition pagefault_failure_claim `{kconsts} (E : env) (had_secrets : bool)
    (s : kstate) : Prop :=
  trapno (tf s) = T_PGFLT ->
  Z.land (cs (tf s)) 3 = 3 ->
  Z.land (err (tf s)) FEC_U <> 0 ->
  rcr2 E < USERTOP ->
  is_Some (myproc s) ->
  pagefault E (rcr2 E) (err (tf s)) < 0 ->
  EvDeliverSignal SIGSEGV (deliver_signal E SIGSEGV)
    ∈ emitted (trap E had_secrets) s /\
  (deliver_signal E SIGSEGV = false ->
   exists s' p', trap E had_secrets s = Stop ProcExit s' /\
                 myproc s' = Some p' /\ killed p' = 1) /\
  (deliver_signal E SIGSEGV = true ->
   exists s', trap E had_secrets s = Ok tt s' \/
              trap E had_secrets s = Stop ProcExit s').

(** The number of set bits of a 64-bit word. *)
Definition popcount64 (v : Z) : Z :=
  Z.of_nat (length (filter (fun i => Z.testbit v i = true) (seqZ 0 64))).

(** What the loop over the caller pcs prints: one line per pc up to the
    first zero. *)
Fixpoint printed_frames (line : Z -> message) (pc : list Z) : list event :=
  match pc with
  | [] => []
  | p :: rest => if truthy p then EvCprintf (line p) :: printed_frames line rest
                 else []
  end.

(** Running a sequence of calls. *)
Fixpoint run_ops {O} (step : O -> M unit) (l : list O) : M unit :=
  match l with
  | [] => ret tt
  | o :: rest => step o ;; run_ops step rest
  end.

(** Properly nested sequences of calls: every call opens a scope, closes
    the innermost open one, or does neither.  [balanced kind d w] holds when
    [w], started at nesting depth [d], never closes a scope it did not open
    before and ends at depth zero. *)
Inductive bracket := Open | Close | Atom.

Fixpoint balanced {O} (kind : O -> bracket) (d : nat) (w : list O) : bool :=
  match w with
  | [] => match d with O => true | S _ => false end
  | o :: rest =>
    match kind o with
    | Open => balanced kind (S d) rest
    | Close => match d with O => false | S d' => balanced kind d' rest end
    | Atom => balanced kind d rest
    end
  end.

(** What happens on a core inside scheduler-suppressed scopes: scopes are
    entered and left, and timer interrupts arrive (each with its own trap
    frame). *)
Inductive crit_op :=
| CEnter
| CExit
| CTick (t : trapframe) (had_secrets : bool).

Definition crit_kind (o : crit_op) : bracket :=
  match o with CEnter => Open | CExit => Close | CTick _ _ => Atom end.

Definition run_crit_op `{kconsts} (E : env) (o : crit_op) : M unit :=
  match o with
  | CEnter => scoped_critical_enter
  | CExit => scoped_critical_exit E
  | CTick t had_secrets => modify (with_tf (fun _ => t)) ;; trap E had_secrets
  end.

Definition is_tick (o : crit_op) : bool :=
  match o with CTick _ _ => true | _ => false end.

(** Every interrupt of the sequence is a timer interrupt. *)
Definition timer_ticks `{kconsts} (w : list crit_op) : bool :=
  forallb (fun o => match o with
                    | CTick t _ => trapno t =? T_IRQ0 + IRQ_TIMER
                    | _ => true
                    end) w.

(** The swallow credit an NMI finds: what earlier back-to-back NMIs left in
    [nmi_swallow] when this one resumes at the same address as the previous
    one, nothing otherwise. *)
Definition nmi_owed (ntf : nmiframe) (s : kstate) : Z :=
  if nmi_lastpc s =? nmi_rip ntf then nmi_swallow s else 0.

(** Whether line [g] of an [irq_info] table is marked in use. *)
Definition line_in_use (info : list irq_info_t) (g : Z) : bool :=
  if 0 <=? g then
    match info !! Z.to_nat g with Some e => in_use e | None => false end
  else false.

(** The lines [inittrap] sets aside: the legacy IRQs, the line of the
    spurious vector and the line of vector 255. *)
Definition reserved_at_boot `{kconsts} (g : Z) : Prop :=
  0 <= g < 16 \/ g = IRQ_SPURIOUS \/ g = 255 - T_IRQ0.

(** A series of [irq::reserve] calls, each on its own [irq] object with its
    own list of acceptable lines; the result lists the objects whose call
    returned true, as the call left them. *)
Fixpoint reserve_all `{kconsts} (valid : irq -> bool)
    (calls : list (irq * option (list Z))) : M (list irq) :=
  match calls with
  | [] => ret []
  | (this, accept_gsi) :: rest =>
    r <- reserve valid this accept_gsi ;;
    granted <- reserve_all valid rest ;;
    ret (if fst r then snd r :: granted else granted)
  end.

Inductive cli_op := Pushcli | Popcli.

Definition cli_kind (o : cli_op) : bracket :=
  match o with Pushcli => Open | Popcli => Close end.

Definition run_cli_op `{kconsts} (o : cli_op) : M unit :=
  match o with Pushcli => pushcli | Popcli => popcli end.

(** An event that is neither a yield nor an end-of-interrupt. *)
Definition is_eoi (e : event) : bool :=
  match e with EvLapicEoi | EvPicEoi => true | _ => false end.

Definition quiet (e : event) : bool := negb (is_yield e) && negb (is_eoi e).

(** The driver routine that [trap] calls for the vector of a legacy
    device, if the vector is one. *)
Definition legacy_driver `{kconsts} (n : Z) : option event :=
  if n =? T_IRQ0 + IRQ_IDE then Some EvIdeintr
  else if n =? T_IRQ0 + IRQ_KBD then Some EvKbdintr
  else if n =? T_IRQ0 + IRQ_MOUSE then Some EvMouseintr
  else if (n =? T_IRQ0 + IRQ_COM2) || (n =? T_IRQ0 + IRQ_COM1) then Some EvUartintr
  else None.

(** The [%rbp] chain that starts at [v]: the frame pointer of frame [j],
    and the return address saved in frame [j]. *)
Fixpoint frame_pointer (read : Z -> option Z) (v : Z) (j : nat) : option Z :=
  match j with
  | O => Some v
  | S j' => match frame_pointer read v j' with
            | Some rbp => read rbp
            | None => None
            end
  end.

Definition saved_return (read : Z -> option Z) (v : Z) (j : nat) : option Z :=
  match frame_pointer read v j with
  | Some rbp => read (wrap64 (rbp + 8))
  | None => None
  end.

(** Both words of each of the frames [0] to [j] can be read. *)
Fixpoint frames_readable (read : Z -> option Z) (v : Z) (j : nat) : bool :=
  bool_decide (is_Some (saved_return read v j))
  && bool_decide (is_Some (frame_pointer read v (S j)))
  && match j with O => true | S j' => frames_readable read v j' end.

(** The address of the call instruction that frame [j] returns to. *)
Definition call_site (read : Z -> option Z) (v : Z) (j : nat) : Z :=
  wrap64 (default 0 (saved_return read v j) - 1).

(** ** Vocabulary of the console statements *)

(** What a console routine adds to the record of outside calls. *)
Definition cfinal {A} (x : console.cresult A) : console.cstate :=
  match x with console.Done _ s => s | console.Halt _ s => s end.

Definition cemitted {A} (m : console.CM A) (s : console.cstate)
  : list console.cevent :=
  drop (length (console.ctrace s)) (console.ctrace (cfinal (m s))).

(** The characters passed to the UART, to the CGA display and to the VGA
    display, in order. *)
Definition uart_output (t : list console.cevent) : list Z :=
  omap (fun ev => match ev with console.EvUartputc c => Some c | _ => None end) t.
Definition cga_output (t : list console.cevent) : list Z :=
  omap (fun ev => match ev with console.EvCgaputc c => Some c | _ => None end) t.
Definition vga_output (t : list console.cevent) : list Z :=
  omap (fun ev => match ev with console.EvVgaputc c => Some c | _ => None end) t.

(** The lock operations among the outside calls, in order. *)
Definition lock_calls (t : list console.cevent) : list console.cevent :=
  omap (fun ev => match ev with
                  | console.EvAcquire _ | console.EvRelease _ => Some ev
                  | _ => None
                  end) t.

(** What one [consputc] passes to the three devices. *)
Definition putc_calls (c : Z) : list console.cevent :=
  (console.EvUartputc <$> (if c =? console.BACKSPACE then [8; 32; 8]
                           else if c =? 10 then [13; 10] else [c]))
  ++ [console.EvCgaputc c; console.EvVgaputc c].

(** The entries of an array of pcs before the first zero. *)
Fixpoint nonzero_prefix (pc : list Z) : list Z :=
  match pc with
  | [] => []
  | x :: rest => if x =? 0 then [] else x :: nonzero_prefix rest
  end.

(** A text with a carriage return put before every line feed. *)
Definition crlf (l : list Z) : list Z :=
  flat_map (fun c => if c =? 10 then [13; 10] else [c]) l.

(** The input ring is well formed: 128 slots, and the indices satisfy
    [0 <= r <= w = e <= r + 128]. *)
Definition input_wf (i : console.input_t) : Prop :=
  length (console.buf i) = 128%nat /\
  0 <= console.r i <= console.w i /\
  console.w i = console.e i /\
  console.e i - console.r i <= 128.

(** The characters typed and not yet read, oldest first. *)
Definition pending (i : console.input_t) : list Z :=
  (fun k => default 0 (console.buf i !! Z.to_nat (k mod 128)))
    <$> seqZ (console.r i) (console.w i - console.r i).

(** The characters of a burst of input that are meant for the ring: the
    burst ends at the first negative value, the control characters that
    [consoleintr] acts on and NUL are not stored, a carriage return is
    stored as a line feed. *)
Definition is_command (c : Z) : bool :=
  (c =? console.C 80) || (c =? console.C 69) || (c =? console.C 84)
  || (c =? console.C 70) || (c =? console.C 89).

Fixpoint typed (getc : list Z) : list Z :=
  match getc with
  | [] => []
  | c :: rest =>
    if c <? 0 then []
    else if is_command c || (c =? 0) then typed rest
    else console.to_char (if c =? 13 then 10 else c) :: typed rest
  end.

(** Begin and end of a print on the console stream. *)
Inductive print_op := BeginPrint | EndPrint.

Definition print_kind (o : print_op) : bracket :=
  match o with BeginPrint => Open | EndPrint => Close end.

Definition run_print_op (me : Z) (o : print_op) : console.CM unit :=
  match o with
  | BeginPrint => console._begin_print me
  | EndPrint => console.end_print me
  end.

Fixpoint crun_ops {O} (step : O -> console.CM unit) (l : list O)
  : console.CM unit :=
  match l with
  | [] => console.cret tt
  | o :: rest => console.cbind (step o) (fun _ => crun_ops step rest)
  end.

(** ** Concrete machines for the examples *)

(** An [irq] object as the default constructor leaves it, and a [valid()]
    that tells whether a vector has been assigned. *)
Definition irq_unassigned : irq := mk_irq (-1) (-1) false false.
Definition irq_unassigned_valid (i : irq) : bool := negb (vector i =? -1).

Definition driver_calls : list (irq * option (list Z)) :=
  [ (irq_unassigned, None); (irq_unassigned, Some [5; 40]);
    (irq_unassigned, Some [40; 41]); (irq_unassigned, None) ].

Definition driver_grants : list irq :=
  [ mk_irq 254 222 false false; mk_irq 72 40 false false;
    mk_irq 73 41 false false; mk_irq 253 221 false false ].

(** A locked, mapped, copy-on-write file page cached on cores 0 and 2. *)
Definition locked_file_page : vmdesc.t :=
  vmdesc.mk 7 (vmdesc.mk_page_info_ref (Some 0x1000) {[0; 2]}) (Some 0x2000) (-4096).

Definition frame (n e c ip : Z) : trapframe := mk_tf n e c ip (fun _ => 0) 0 0.

Definition idle_cpu : cpu := mk_cpu 0 0 0 0 0.

Definition user_proc : proc :=
  mk_proc 1 0 false false RUNNING 0 0 0xffffff0000804000.

(** A core with interrupts on, nothing registered, handling frame [t]. *)
Definition machine (t : trapframe) (p : option proc) : kstate :=
  mk_kstate idle_cpu true p t (replicate 224 (mk_irq_info [] false))
            ∅ ∅ false 0 ∅ false 0 0 0 [].

Definition quiet_env : env :=
  mk_env 0 (fun _ => 0) (fun _ => true) (fun _ _ => 0) (fun _ => false)
         (fun _ _ => []) false 0 0 false 0 0.

(** The keyboard line with a handler registered on it (the line is one an
    [irq] object can name: [console.cc] obtains it from
    [map_isa_irq(IRQ_KBD)]), and a keyboard interrupt arriving. *)
Definition kbd_irq : irq := mk_irq 33 1 false false.

Definition kbd_shared_machine : kstate :=
  final (@register_handler sv6_consts irq_unassigned_valid kbd_irq 7
           (machine (frame 33 0 0 0) None)).

(** Line 40 with two handlers registered, and its interrupt arriving. *)
Definition nic_irq : irq := mk_irq 72 40 false false.

Definition nic_shared_machine : kstate :=
  final ((@register_handler sv6_consts irq_unassigned_valid nic_irq 7 ;;
          @register_handler sv6_consts irq_unassigned_valid nic_irq 8)
           (machine (frame 72 0 0 0) None)).

(** A user process faulting at an unmapped user address; the resolver
    fails and the process does not take the signal. *)
Definition segv_env : env :=
  mk_env 0x1000 (fun _ => 0) (fun _ => true) (fun _ _ => -1) (fun _ => false)
         (fun _ _ => []) false 0 0 false 0 0.

Definition segv_machine : kstate := machine (frame 14 4 3 0x400000) (Some user_proc).

(** The same fault with a trap handler registered for the page-fault
    vector. *)
Definition segv_hooked_machine : kstate :=
  mk_kstate idle_cpu true (Some user_proc) (frame 14 4 3 0x400000)
            (replicate 224 (mk_irq_info [] false))
            {[ 14 := 0xffffffffc0200000 ]} ∅ false 0 ∅ false 0 0 0 [].

(** A general-protection fault (vector 13, nothing installed) in kernel
    mode, and the same fault in a user process. *)
Definition gp_kernel_machine : kstate := machine (frame 13 0 0 0) (Some user_proc).
Definition gp_user_machine : kstate := machine (frame 13 0 3 0) (Some user_proc).

(** A spurious interrupt. *)
Definition spurious_machine : kstate := machine (frame 63 0 0 0) None.

(** [popcnt %rax, %rcx] (bytes f3 48 0f b8 c8) in kernel text, trapping as
    an illegal instruction with 7 in [%rax]. *)
Definition popcnt_env : env :=
  mk_env 0 (fun _ => 0xc8b80f48f3) (fun _ => true) (fun _ _ => 0)
         (fun _ => false) (fun _ _ => []) false 0 0 false 0 0.

Definition popcnt_machine : kstate :=
  machine (set_gpr RCX 0x55 (set_gpr RAX 7 (frame 6 0 0 0xffffffffc0101000)))
          (Some user_proc).

(** A timer interrupt arriving inside a scheduler-suppressed scope, and a
    scope with a nested scope and two timer interrupts inside. *)
Definition timer_frame : trapframe := frame 32 0 0 0xffffffffc0102000.

Definition suppressed_machine : kstate :=
  mk_kstate (mk_cpu 1 0 0 2 0) false (Some user_proc) timer_frame
            (replicate 224 (mk_irq_info [] false)) ∅ ∅ false 0 ∅ false 0 0 0 [].

Definition scope_body : list crit_op :=
  [CEnter; CTick timer_frame false; CExit; CTick timer_frame false].

Definition scope_machine : kstate :=
  mk_kstate (mk_cpu 1 0 0 0 0) false (Some user_proc) (frame 0 0 0 0)
            (replicate 224 (mk_irq_info [] false)) ∅ ∅ false 0 ∅ false 0 0 0 [].

(** A user-mode keyboard interrupt, and a timer tick on a core whose
    scheduler is not suppressed. *)
Definition kbd_user_machine : kstate := machine (frame 33 0 3 0) (Some user_proc).

Definition timer_machine : kstate :=
  mk_kstate (mk_cpu 1 0 0 0 0) false (Some user_proc) timer_frame
            (replicate 224 (mk_irq_info [] false)) ∅ ∅ false 0 ∅ false 0 0 0 [].

(** A kernel-mode fault at a user address during a guarded copy; the
    resolver fails. *)
Definition uaccess_proc : proc :=
  mk_proc 1 0 true false RUNNING 0 0 0xffffff0000804000.

Definition uaccess_machine : kstate :=
  machine (frame 14 0 0 0xffffffffc0100800) (Some uaccess_proc).

(** A kernel-mode page fault at an address of the kernel-secrets region
    on a core without a current process, and with one. *)
Definition secret_env : env :=
  mk_env 0xffffffffc0500000 (fun _ => 0) (fun _ => true)
         (fun _ _ => 0) (fun _ => false)
         (fun _ _ => []) false 0 0 false 0 0.

Definition secret_fault_idle : kstate :=
  machine (frame 14 0 0 0xffffffffc0100800) None.

Definition secret_fault_machine : kstate :=
  machine (frame 14 0 0 0xffffffffc0100800) (Some user_proc).

(** Vector 128 with a trap handler and its context registered. *)
Definition hooked_machine : kstate :=
  mk_kstate idle_cpu true (Some user_proc) (frame 128 0 3 0x400000)
            (replicate 224 (mk_irq_info [] false))
            {[ 128 := 0xffffffffc0200000 ]} {[ 128 := 7 ]} false 0 ∅ false 0 0 0 [].

(** The machine of [machine] on a console that has panicked (another core
    has been through [kerneltrap] or [panic]). *)
Definition panicked_machine (t : trapframe) (p : option proc) : kstate :=
  with_panicked true (machine t p).

(** The page fault of [segv_machine] at the address of the timing probe,
    and on a console that has panicked. *)
Definition probe_env : env :=
  mk_env 123 (fun _ => 0) (fun _ => true) (fun _ _ => -1) (fun _ => false)
         (fun _ _ => []) false 0 0 false 0 0.

Definition segv_panicked_machine : kstate :=
  panicked_machine (frame 14 4 3 0x400000) (Some user_proc).

(** The general-protection fault in a user process on a console that has
    panicked. *)
Definition gp_user_panicked : kstate :=
  panicked_machine (frame 13 0 3 0) (Some user_proc).

(** An illegal instruction in a user process, at an address of which the
    kernel cannot read eight bytes. *)
Definition unreadable_env : env :=
  mk_env 0 (fun _ => 0) (fun _ => false) (fun _ _ => 0) (fun _ => false)
         (fun _ _ => []) false 0 0 false 0 0.

Definition ud_user_machine : kstate :=
  machine (frame 6 0 3 0x400ffe) (Some user_proc).

(** An interrupt on vector 40, whose line has no handler, in kernel
    mode. *)
Definition stray_irq_machine : kstate := machine (frame 40 0 0 0) (Some user_proc).

(** A LAPIC error interrupt (vector 51) on a console that has panicked. *)
Definition lapic_error_panicked : kstate := panicked_machine (frame 51 0 0 0) None.

(** A timer tick inside a scheduler-suppressed scope with a print
    requested, on a console that has panicked. *)
Definition suppressed_panicked_machine : kstate :=
  mk_kstate (mk_cpu 1 0 0 2 1) false (Some user_proc) timer_frame
            (replicate 224 (mk_irq_info [] false)) ∅ ∅ false 0 ∅ true 0 0 0 [].

(** A keyboard interrupt in user mode for a process that is marked
    killed. *)
Definition killed_proc : proc := set_killed 1 user_proc.

Definition kbd_killed_machine : kstate := machine (frame 33 0 3 0) (Some killed_proc).

(** A timer tick in user mode for a process that is marked killed. *)
Definition timer_killed_machine : kstate :=
  mk_kstate (mk_cpu 1 0 0 0 0) false (Some killed_proc)
            (frame 32 0 3 0x400000)
            (replicate 224 (mk_irq_info [] false)) ∅ ∅ false 0 ∅ false 0 0 0 [].

(** One choice of values for the critical-section masks. *)
Definition sv6_critical_masks : critical_masks := {|
  NO_CRITICAL := 0; NO_SCHED := 1; NO_INT := 2; NO_MIGRATE := 4
|}.

(** A stack of two frames: the frame at 0x7000 returns to 0x401000 and
    links to the frame at 0x7100, which returns to 0x402000 and links to
    the null frame; nothing else can be read. *)
Definition two_frames (a : Z) : option Z :=
  if a =? 0x7000 then Some 0x7100
  else if a =? 0x7008 then Some 0x401000
  else if a =? 0x7100 then Some 0
  else if a =? 0x7108 then Some 0x402000
  else None.

(** A stand-in for the text between the two spaces and the line feed of a
    line of [printtrace]: the last decimal digit of the address. *)
Definition low_digit (x : Z) : list Z := [48 + x mod 10].

(** A console with locking enabled, an empty input ring and two cores;
    the same console after a panic, and before locking is enabled. *)
Definition console_up : console.cstate :=
  console.mk_cstate 0 (console.mk_cons 1 None 0)
    (console.mk_input (replicate 128 0) 0 0 0) [0; 0] [].

Definition console_down : console.cstate :=
  console.mk_cstate 1 (console.mk_cons 1 None 0)
    (console.mk_input (replicate 128 0) 0 0 0) [0; 0] [].

Definition console_early : console.cstate :=
  console.mk_cstate 0 (console.mk_cons 0 None 0)
    (console.mk_input (replicate 128 0) 0 0 0) [0; 0] [].

(** The console after [ls], a carriage return and [p] were typed; after
    [a], control-D and [b]; and after [ab]. *)
Definition console_line : console.cstate :=
  cfinal (console.consoleintr [108; 115; 13; 112] console_up).

Definition console_eof : console.cstate :=
  cfinal (console.consoleintr [97; 4; 98] console_up).

Definition console_partial : console.cstate :=
  cfinal (console.consoleintr [97; 98] console_up).

Definition nested_prints : list print_op :=
  [BeginPrint; EndPrint; BeginPrint; BeginPrint; EndPrint; EndPrint].

(** * Proofs *)

(** Unfolds the monad, keeping arithmetic and comparisons folded. *)
Ltac run_monad :=
  unfold bind, get, emit, modify, ret, when, stop_with;
  cbn -[Z.eqb Z.ltb Z.leb Z.add Z.sub Z.land Z.lor truthy wrap64].

(** Brings nested state updates to a single record, innermost first. *)
Ltac kstate_norm :=
  cbv [with_trace with_cpu with_tf with_entry with_proc with_intr_on
       with_secrets with_panicked with_nmi with_gs_base with_irq_info
       mycpu intr_on myproc tf irq_info registered_trap_handlers
       registered_trap_handler_contexts secrets_mapped ENTRY_COUNT
       ENTRY_TIMES panicked nmi_lastpc nmi_swallow gs_base trace
       set_ncli set_intena set_no_sched_count set_timer_printpc
       id ncli intena no_sched_count timer_printpc].

Lemma run_ops_app {O} (step : O -> M unit) (l1 l2 : list O) (s : kstate) :
  run_ops step (l1 ++ l2) s = (run_ops step l1 ;; run_ops step l2) s.
Proof.
  revert s. induction l1 as [|o l1 IH]; intros s; [reflexivity|].
  cbn [run_ops app]. unfold bind in *.
  destruct (step o s) as [[] s1|w s1]; [apply IH | reflexivity].
Qed.

Lemma bind_Ok {A B} (m : M A) (k : A -> M B) s a s1 :
  m s = Ok a s1 -> bind m k s = k a s1.
Proof. unfold bind. intros ->. reflexivity. Qed.

Lemma bind_Stop {A B} (m : M A) (k : A -> M B) s w s1 :
  m s = Stop w s1 -> bind m k s = Stop w s1.
Proof. unfold bind. intros ->. reflexivity. Qed.

Section CliProofs.
Context `{K : kconsts}.
Hypothesis FL_IF_nonzero : FL_IF ≠ 0.

Lemma truthy_FL_IF : truthy FL_IF = true.
Proof. unfold truthy. destruct (Z.eqb_spec FL_IF 0); [contradiction | reflexivity]. Qed.

(** What a nested [pushcli] (depth already positive) does. *)
Lemma pushcli_nested s :
  ncli (mycpu s) ≠ 0 ->
  pushcli s = Ok tt (with_cpu (set_ncli (ncli (mycpu s) + 1))
                      (with_intr_on false (with_trace (trace s ++ [EvCli]) s))).
Proof.
  intros Hn. unfold pushcli, readrflags_IF, cli, bind, get, emit, modify, ret, when. cbn -[Z.eqb Z.ltb Z.add Z.sub].
  destruct (Z.eqb_spec (ncli (mycpu s)) 0); [contradiction | reflexivity].
Qed.

(** What the outermost [pushcli] does. *)
Lemma pushcli_outermost s :
  ncli (mycpu s) = 0 ->
  pushcli s = Ok tt (with_cpu (set_intena (if intr_on s then FL_IF else 0))
                      (with_cpu (set_ncli 1)
                        (with_intr_on false (with_trace (trace s ++ [EvCli]) s)))).
Proof.
  intros Hn. unfold pushcli, readrflags_IF, cli, bind, get, emit, modify, ret, when. cbn -[Z.eqb Z.ltb Z.add Z.sub].
  rewrite Hn. reflexivity.
Qed.

(** A [popcli] that does not reach depth zero only decrements. *)
Lemma popcli_nested s :
  intr_on s = false -> 2 <= ncli (mycpu s) ->
  popcli s = Ok tt (with_cpu (set_ncli (ncli (mycpu s) - 1)) s).
Proof.
  intros Hif Hn.
  unfold popcli, readrflags_IF, sti, bind, get, emit, modify, ret, when, stop_with. cbn -[Z.eqb Z.ltb Z.add Z.sub].
  rewrite Hif. change (truthy 0) with false. cbn -[Z.eqb Z.ltb Z.add Z.sub].
  destruct (Z.ltb_spec (ncli (mycpu s) - 1) 0); [lia|].
  cbn -[Z.eqb Z.ltb Z.add Z.sub].
  destruct (Z.eqb_spec (ncli (mycpu s) - 1) 0); [lia|]. reflexivity.
Qed.

(** The outermost [popcli] restores the interrupt flag saved in [intena]. *)
Lemma popcli_outermost s :
  intr_on s = false -> ncli (mycpu s) = 1 ->
  popcli s = Ok tt
    (if truthy (intena (mycpu s))
     then with_intr_on true (with_trace (trace s ++ [EvSti]) (with_cpu (set_ncli 0) s))
     else with_cpu (set_ncli 0) s).
Proof.
  intros Hif Hn.
  unfold popcli, readrflags_IF, sti, bind, get, emit, modify, ret, when, stop_with. cbn -[Z.eqb Z.ltb Z.add Z.sub].
  rewrite Hif. change (truthy 0) with false. cbn -[Z.eqb Z.ltb Z.add Z.sub].
  rewrite Hn. change (1 - 1 <? 0) with false. cbn.
  destruct (truthy (intena (mycpu s))); reflexivity.
Qed.

(** Inside the outermost scope (interrupts off, [d] more scopes open) a
    sequence that closes these [d] scopes runs to its end without a panic,
    comes back to depth one, leaves [intena] alone and never calls [sti]. *)
Lemma pushcli_popcli_inner (w : list cli_op) :
  forall (d : nat) s,
  balanced cli_kind d w = true ->
  ncli (mycpu s) = 1 + Z.of_nat d -> intr_on s = false ->
  exists s' evs,
    run_ops run_cli_op w s = Ok tt s' /\
    ncli (mycpu s') = 1 /\ intr_on s' = false /\
    intena (mycpu s') = intena (mycpu s) /\
    trace s' = trace s ++ evs /\ EvSti ∉ evs.
Proof.
  induction w as [|o w IH]; intros d s Hb Hn Hif.
  - destruct d; [|discriminate]. exists s, []. cbn. rewrite app_nil_r.
    repeat split; auto; first [lia | apply not_elem_of_nil].
  - destruct o; cbn [balanced cli_kind] in Hb; cbn [run_ops run_cli_op].
    + rewrite (bind_Ok _ _ _ _ _ (pushcli_nested s ltac:(lia))).
      match goal with |- context [run_ops run_cli_op w ?s1] =>
        destruct (IH (S d) s1 Hb) as (s2 & e & R & N & I & A & T & E);
          [cbn; lia | reflexivity |]
      end.
      cbn in A, T. exists s2, (EvCli :: e). repeat split; auto.
      * rewrite T, <- app_assoc. reflexivity.
      * rewrite elem_of_cons. intros [?|?]; [discriminate | auto].
    + destruct d as [|d]; [discriminate|].
      rewrite (bind_Ok _ _ _ _ _ (popcli_nested s Hif ltac:(lia))).
      match goal with |- context [run_ops run_cli_op w ?s1] =>
        destruct (IH d s1 Hb) as (s2 & e & R & N & I & A & T & E);
          [cbn; lia | exact Hif |]
      end.
      cbn in A, T. exists s2, e. repeat split; auto.
Qed.

(** C6: for a matched sequence of pushcli/popcli calls, entered at depth
    zero, the calls between the outermost pushcli and its popcli never
    re-enable interrupts; the outermost popcli brings the depth back to zero
    and calls sti exactly when interrupts were enabled before the outermost
    pushcli, so the interrupt flag ends as it started (off stays off). *)
Theorem pushcli_popcli_matched (w : list cli_op) (s : kstate) :
  balanced cli_kind 0 w = true ->
  ncli (mycpu s) = 0 ->
  exists s' evs,
    run_ops run_cli_op (Pushcli :: w ++ [Popcli]) s = Ok tt s' /\
    ncli (mycpu s') = 0 /\
    intr_on s' = intr_on s /\
    (EvSti ∉ evs) /\
    trace s' = trace s ++ evs ++ (if intr_on s then [EvSti] else []).
Proof.
  intros Hb Hn. cbn [run_ops run_cli_op].
  rewrite (bind_Ok _ _ _ _ _ (pushcli_outermost s Hn)).
  rewrite run_ops_app.
  match goal with |- context [bind (run_ops run_cli_op w) _ ?s1] =>
    destruct (pushcli_popcli_inner w 0 s1 Hb) as (s2 & e & R & N & I & A & T & E);
      [reflexivity | reflexivity |]
  end.
  cbn in A, T.
  rewrite (bind_Ok _ _ _ _ _ R). cbn [run_ops run_cli_op].
  rewrite (bind_Ok _ _ _ _ _ (popcli_outermost s2 I N)). cbv beta.
  rewrite A. unfold ret.
  destruct (intr_on s) eqn:Hif.
  - rewrite truthy_FL_IF. eexists _, (EvCli :: e). repeat split.
    + rewrite elem_of_cons. intros [?|?]; [discriminate | auto].
    + cbn. rewrite T, <- !app_assoc. reflexivity.
  - change (truthy 0) with false. eexists _, (EvCli :: e). repeat split; auto.
    + rewrite elem_of_cons. intros [?|?]; [discriminate | auto].
    + cbn. rewrite T, <- !app_assoc, app_nil_r. reflexivity.
Qed.

End CliProofs.

Section NmiProofs.
Context `{K : kconsts}.
Variable E : env.

(** C3: the NMI entry path panics exactly when no active source was found
    and no swallow credit is owed; otherwise it returns, having remembered
    the resumption address and added (sources handled - 1) to the credit,
    which was first reset to zero unless the NMI resumes at the same address
    as the previous one.  In particular a repeated NMI that finds no source
    is swallowed while the counter is positive. *)
Theorem nmientry_c_swallow (ntf : nmiframe) (s : kstate) :
  match nmientry_c E ntf s with
  | Stop w _ =>
      w = Panic "NMI"%string /\ sampintr E = 0 /\ nmi_owed ntf s = 0
  | Ok _ s' =>
      ~ (sampintr E = 0 /\ nmi_owed ntf s = 0) /\
      nmi_lastpc s' = nmi_rip ntf /\
      nmi_swallow s' = nmi_owed ntf s + (sampintr E - 1) /\
      intena (mycpu s') = intena (mycpu s) /\
      gs_base s' = gs_base s
  end.
Proof.
  unfold nmientry_c, nmi_owed, writemsr_gs_base. run_monad.
  rewrite !Z.add_0_l. unfold truthy.
  destruct (Z.eqb_spec (nmi_lastpc s) (nmi_rip ntf)) as [Hr|Hr];
    destruct (Z.eqb_spec (sampintr E) 0) as [Hh|Hh]; run_monad.
  - destruct (Z.eqb_spec (nmi_swallow s) 0) as [Hs|Hs]; run_monad.
    + auto.
    + repeat split; auto; try lia; try tauto.
  - repeat split; auto; try lia; try tauto.
  - change (0 =? 0) with true. run_monad. auto.
  - change (0 =? 0) with true. run_monad.
    repeat split; auto; try lia; try tauto.
Qed.

End NmiProofs.

Section VmdescProofs.
Import vmdesc.

Lemma wrap64_land (x : Z) : wrap64 x = Z.land x (Z.ones 64).
Proof. unfold wrap64. rewrite Z.land_ones by lia. reflexivity. Qed.

Lemma land_not_lock (f : Z) :
  0 <= f < 2^64 -> Z.land f (wrap64 (Z.lnot FLAG_LOCK)) = Z.land f (Z.lnot 1).
Proof.
  intros Hf. rewrite wrap64_land. change FLAG_LOCK with 1.
  rewrite (Z.land_comm (Z.lnot 1)), Z.land_assoc.
  rewrite <- wrap64_land. unfold wrap64. rewrite Z.mod_small by lia. reflexivity.
Qed.

(** C9: the duplicate of a descriptor has the flag bits of the original
    with the lock bit cleared, and the same backing page, the same pageable
    (inode) and the same start offset. *)
Theorem dup_clears_lock_only (d : vmdesc.t) :
  0 <= flags d < 2^64 ->
  (forall i, Z.testbit (flags (dup d)) i =
             if i =? FLAG_LOCK_BIT then false else Z.testbit (flags d) i) /\
  page_info (page (dup d)) = page_info (page d) /\
  inode (dup d) = inode d /\
  start (dup d) = start d.
Proof.
  intros Hf. repeat split. intros i. cbn [dup flags].
  rewrite land_not_lock by exact Hf. change FLAG_LOCK_BIT with 0.
  destruct (Z.eqb_spec i 0) as [->|Hi].
  - rewrite Z.land_spec, Z.lnot_spec by lia. cbn. apply andb_false_r.
  - destruct (Z.lt_ge_cases i 0) as [Hneg|Hpos].
    + rewrite !Z.testbit_neg_r by lia. reflexivity.
    + rewrite Z.land_spec, Z.lnot_spec by lia.
      change 1 with (2^0). rewrite Z.pow2_bits_eqb by lia.
      destruct (Z.eqb_spec 0 i); [lia|]. apply andb_true_r.
Qed.

End VmdescProofs.

(** C9 at a concrete input. *)
Lemma dup_clears_lock_only_witness :
  (forall i, Z.testbit (vmdesc.flags (vmdesc.dup locked_file_page)) i =
             if i =? vmdesc.FLAG_LOCK_BIT then false
             else Z.testbit (vmdesc.flags locked_file_page) i) /\
  vmdesc.page_info (vmdesc.page (vmdesc.dup locked_file_page)) =
    vmdesc.page_info (vmdesc.page locked_file_page) /\
  vmdesc.inode (vmdesc.dup locked_file_page) = vmdesc.inode locked_file_page /\
  vmdesc.start (vmdesc.dup locked_file_page) = vmdesc.start locked_file_page.
Proof.
  apply (dup_clears_lock_only locked_file_page). cbn. lia.
Defined.

Section IrqProofs.
Context `{K : kconsts}.
Variable valid : irq -> bool.

Lemma line_in_use_insert info g g' e :
  0 <= g -> info !! Z.to_nat g = Some e ->
  line_in_use (<[Z.to_nat g := mk_irq_info (handlers e) true]> info) g' =
  if g' =? g then true else line_in_use info g'.
Proof.
  intros Hg He. unfold line_in_use.
  destruct (Z.eqb_spec g' g) as [->|Hne].
  - destruct (Z.leb_spec 0 g); [|lia].
    rewrite list_lookup_insert_eq; [reflexivity|]. eapply lookup_lt_Some, He.
  - destruct (Z.leb_spec 0 g'); [|reflexivity].
    rewrite list_lookup_insert_ne by lia. reflexivity.
Qed.

(** [mark_in_use] either stops on an index outside the table or sets the
    flag of exactly that line. *)
Lemma mark_in_use_spec g s :
  match mark_in_use g s with
  | Ok _ s' =>
      0 <= g < Z.of_nat (length (irq_info s)) /\
      length (irq_info s') = length (irq_info s) /\
      forall g', line_in_use (irq_info s') g' =
                 if g' =? g then true else line_in_use (irq_info s) g'
  | Stop w _ => w = Undefined /\ ~ (0 <= g < Z.of_nat (length (irq_info s)))
  end.
Proof.
  unfold mark_in_use, bind, get, modify, stop_with.
  destruct (Z.leb_spec 0 g) as [Hg|Hg].
  - destruct (irq_info s !! Z.to_nat g) as [e|] eqn:He.
    + cbn [irq_info with_irq_info]. split; [|split].
      * apply lookup_lt_Some in He. lia.
      * apply length_insert.
      * intros g'. apply line_in_use_insert; assumption.
    + split; [reflexivity|]. apply lookup_ge_None in He. lia.
  - split; [reflexivity | lia].
Qed.

Lemma for_each_mark_in_use l : forall s,
  (forall g, g ∈ l -> 0 <= g < Z.of_nat (length (irq_info s))) ->
  exists s', for_each l mark_in_use s = Ok tt s' /\
    length (irq_info s') = length (irq_info s) /\
    forall g', line_in_use (irq_info s') g' =
               if bool_decide (g' ∈ l) then true else line_in_use (irq_info s) g'.
Proof.
  induction l as [|g l IH]; intros s Hl.
  - exists s. repeat split.
  - cbn [for_each]. pose proof (mark_in_use_spec g s) as Hm.
    destruct (mark_in_use g s) as [[] s1|w s1] eqn:Hrun.
    + destruct Hm as (_ & Hlen & Hm).
      destruct (IH s1) as (s2 & R & L & U).
      { intros g' Hg'. rewrite Hlen. apply Hl. by right. }
      exists s2. rewrite (bind_Ok _ _ _ _ _ Hrun). split; [exact R|].
      split; [congruence|]. intros g'. rewrite U, Hm.
      destruct (Z.eqb_spec g' g) as [->|Hne].
      * rewrite (bool_decide_true (g ∈ g :: l)) by (by left).
        by destruct (bool_decide (g ∈ l)).
      * destruct (decide (g' ∈ l)) as [Hin|Hin].
        -- rewrite !bool_decide_true; [reflexivity | by right | done].
        -- rewrite !bool_decide_false; [reflexivity | | done].
           rewrite elem_of_cons. intros [?|?]; contradiction.
    + destruct Hm as [_ Hm]. exfalso. apply Hm, Hl. by left.
Qed.

Hypothesis T_IRQ0_range : 0 <= T_IRQ0 <= 240.
Hypothesis IRQ_SPURIOUS_range : 0 <= IRQ_SPURIOUS < 256 - T_IRQ0.

(** [inittrap] on the table of [256 - T_IRQ0] lines. *)
Lemma inittrap_marks s :
  length (irq_info s) = Z.to_nat (256 - T_IRQ0) ->
  exists s', inittrap s = Ok tt s' /\
    length (irq_info s') = length (irq_info s) /\
    (forall g, reserved_at_boot g -> line_in_use (irq_info s') g = true) /\
    (forall g, line_in_use (irq_info s) g = true ->
               line_in_use (irq_info s') g = true).
Proof.
  intros Hlen. unfold inittrap.
  destruct (for_each_mark_in_use (seqZ 0 16) s) as (s1 & R1 & L1 & U1).
  { intros g Hg. apply elem_of_seqZ in Hg. lia. }
  rewrite (bind_Ok _ _ _ _ _ R1).
  pose proof (mark_in_use_spec IRQ_SPURIOUS s1) as H2.
  destruct (mark_in_use IRQ_SPURIOUS s1) as [[] s2|w s2] eqn:R2;
    [|destruct H2 as [_ H2]; exfalso; apply H2; lia].
  destruct H2 as (_ & L2 & U2). rewrite (bind_Ok _ _ _ _ _ R2).
  pose proof (mark_in_use_spec (255 - T_IRQ0) s2) as H3.
  destruct (mark_in_use (255 - T_IRQ0) s2) as [[] s3|w s3] eqn:R3;
    [|destruct H3 as [_ H3]; exfalso; apply H3; lia].
  destruct H3 as (_ & L3 & U3).
  exists s3. split; [reflexivity|]. split; [congruence|]. split.
  - intros g Hg. rewrite U3, U2, U1.
    destruct (Z.eqb_spec g (255 - T_IRQ0)); [reflexivity|].
    destruct (Z.eqb_spec g IRQ_SPURIOUS); [reflexivity|].
    rewrite bool_decide_true; [reflexivity|].
    apply elem_of_seqZ. unfold reserved_at_boot in Hg. lia.
  - intros g Hg. rewrite U3, U2, U1, Hg.
    destruct (g =? 255 - T_IRQ0), (g =? IRQ_SPURIOUS),
      (bool_decide (g ∈ seqZ 0 16)); reflexivity.
Qed.

Lemma first_free_accepted_spec info accept g :
  first_free_accepted info accept = Some g ->
  g = -1 \/ (0 <= g /\ line_in_use info g = false /\
             is_Some (info !! Z.to_nat g)).
Proof.
  induction accept as [|a accept IH]; cbn [first_free_accepted].
  - intros [= <-]. by left.
  - destruct (Z.leb_spec 0 a) as [Ha|Ha]; [|discriminate].
    destruct (info !! Z.to_nat a) as [e|] eqn:He; [|discriminate].
    destruct (in_use e) eqn:Hu; [exact IH|].
    intros [= <-]. right. unfold line_in_use.
    destruct (Z.leb_spec 0 a); [|lia]. rewrite He. eauto.
Qed.

Lemma first_free_from_top_spec info n g :
  first_free_from_top info n = Some g ->
  g = -1 \/ (0 <= g /\ line_in_use info g = false /\
             is_Some (info !! Z.to_nat g)).
Proof.
  induction n as [|n IH]; cbn [first_free_from_top].
  - intros [= <-]. by left.
  - destruct (info !! n) as [e|] eqn:He; [|discriminate].
    destruct (in_use e) eqn:Hu; [exact IH|].
    intros [= <-]. right. unfold line_in_use.
    destruct (Z.leb_spec 0 (Z.of_nat n)); [|lia].
    rewrite Nat2Z.id, He. eauto.
Qed.

(** A call of [reserve] that returns true took a line that was free, marked
    exactly that line and set the vector from it; a call that returns false
    changed nothing. *)
Lemma reserve_spec this accept_gsi s b this' s' :
  reserve valid this accept_gsi s = Ok (b, this') s' ->
  length (irq_info s') = length (irq_info s) /\
  if b then
    line_in_use (irq_info s) (gsi this') = false /\
    vector this' = T_IRQ0 + gsi this' /\
    forall g, line_in_use (irq_info s') g =
              if g =? gsi this' then true else line_in_use (irq_info s) g
  else s' = s /\ this' = this.
Proof.
  unfold reserve, bind, get, ret, stop_with.
  destruct (valid this); [discriminate|].
  set (found := match accept_gsi with
                | Some accept => first_free_accepted (irq_info s) accept
                | None => first_free_from_top (irq_info s) (length (irq_info s))
                end).
  assert (Hfound : forall g, found = Some g ->
    g = -1 \/ (0 <= g /\ line_in_use (irq_info s) g = false /\
               is_Some (irq_info s !! Z.to_nat g))).
  { subst found. destruct accept_gsi;
      [apply first_free_accepted_spec | apply first_free_from_top_spec]. }
  destruct found as [g|]; [|discriminate].
  destruct (Z.eqb_spec g (-1)) as [->|Hg].
  - intros [= <- <- <-]. auto.
  - destruct (Hfound g eq_refl) as [?|(Hg0 & Hfree & Hsome)]; [contradiction|].
    pose proof (mark_in_use_spec g s) as Hm.
    destruct (mark_in_use g s) as [[] s1|w s1]; [|discriminate].
    destruct Hm as (_ & Hlen & Hm).
    intros [= <- <- <-]. cbn [gsi vector]. auto.
Qed.

(** Lines are only ever taken: over a series of calls the granted lines
    were all free at the start, are in use at the end and are pairwise
    distinct. *)
Lemma reserve_all_spec calls : forall s granted s',
  reserve_all valid calls s = Ok granted s' ->
  NoDup (gsi <$> granted) /\
  (forall i, i ∈ granted ->
     line_in_use (irq_info s) (gsi i) = false /\
     line_in_use (irq_info s') (gsi i) = true /\
     vector i = T_IRQ0 + gsi i) /\
  (forall g, line_in_use (irq_info s) g = true ->
             line_in_use (irq_info s') g = true).
Proof.
  induction calls as [|[this accept] calls IH]; intros s granted s'.
  - intros [= <- <-]. split; [constructor|]. split; [|auto].
    intros i Hi. by apply elem_of_nil in Hi.
  - cbn [reserve_all]. unfold bind at 1.
    destruct (reserve valid this accept s) as [[b this'] s1|w s1] eqn:R1;
      [|discriminate].
    apply reserve_spec in R1 as [_ R1]. unfold bind, ret.
    destruct (reserve_all valid calls s1) as [granted1 s2|w s2] eqn:R2;
      [|discriminate].
    destruct (IH _ _ _ R2) as (Hnd & Hgr & Hmono).
    intros [= <- <-]. cbn [fst snd].
    destruct b.
    + destruct R1 as (Hfree & Hvec & Hupd).
      assert (Htaken : line_in_use (irq_info s1) (gsi this') = true).
      { rewrite Hupd, Z.eqb_refl. reflexivity. }
      split; [|split].
      * rewrite fmap_cons. constructor; [|exact Hnd].
        intros Hin. apply list_elem_of_fmap in Hin as (i & Hi & Hin).
        destruct (Hgr i Hin) as (Hf & _). congruence.
      * intros i Hi. apply elem_of_cons in Hi as [->|Hi].
        -- auto.
        -- destruct (Hgr i Hi) as (Hf & Ht & Hv). split; [|auto].
           rewrite Hupd in Hf. by destruct (gsi i =? gsi this').
      * intros g Hg. apply Hmono. rewrite Hupd, Hg.
        by destruct (g =? gsi this').
    + destruct R1 as [-> ->]. auto.
Qed.

(** C10: after [inittrap] the legacy lines 0..15, the line of the spurious
    vector and the line of vector 255 are in use; a call of [irq::reserve]
    that returns true chose a line whose flag was false, has set the flag,
    and has set the vector to the line number plus [T_IRQ0]; hence in any
    series of calls after [inittrap] the granted lines are pairwise distinct
    and none of them is a line set aside by [inittrap]. *)
Theorem irq_reserve_exclusive (s : kstate) (calls : list (irq * option (list Z))) :
  length (irq_info s) = Z.to_nat (256 - T_IRQ0) ->
  (forall s1 this accept_gsi this' s2,
     reserve valid this accept_gsi s1 = Ok (true, this') s2 ->
     line_in_use (irq_info s1) (gsi this') = false /\
     line_in_use (irq_info s2) (gsi this') = true /\
     vector this' = gsi this' + T_IRQ0) /\
  exists s0,
    inittrap s = Ok tt s0 /\
    (forall g, reserved_at_boot g -> line_in_use (irq_info s0) g = true) /\
    (forall granted s',
       reserve_all valid calls s0 = Ok granted s' ->
       NoDup (gsi <$> granted) /\
       forall i, i ∈ granted ->
         ~ reserved_at_boot (gsi i) /\ vector i = gsi i + T_IRQ0).
Proof.
  intros Hlen. split.
  - intros s1 this accept this' s2 R. apply reserve_spec in R as [_ (Hf & Hv & Hu)].
    split; [exact Hf|]. split; [|lia]. rewrite Hu, Z.eqb_refl. reflexivity.
  - destruct (inittrap_marks s Hlen) as (s0 & R0 & _ & Hboot & _).
    exists s0. split; [exact R0|]. split; [exact Hboot|].
    intros granted s' R. apply reserve_all_spec in R as (Hnd & Hgr & _).
    split; [exact Hnd|]. intros i Hi. destruct (Hgr i Hi) as (Hf & _ & Hv).
    split; [|lia]. intros Hb. apply Hboot in Hb. congruence.
Qed.

End IrqProofs.

Lemma emitted_app {A} (m : M A) s evs :
  trace (final (m s)) = trace s ++ evs -> emitted m s = evs.
Proof. unfold emitted. intros ->. apply drop_app_length. Qed.

Arguments trap_epilogue : simpl never.
Arguments trap_unhandled : simpl never.
Arguments trap_pgflt_or_registered : simpl never.
Arguments trap_default : simpl never.
Arguments do_pagefault : simpl never.
Arguments ensure_secrets : simpl never.
Arguments trap_timer : simpl never.
Arguments cprintf : simpl never.
Arguments emulate_popcnt : simpl never.
Arguments popcnt_loop : simpl never.

(** Pairwise distinctness of the [case] labels, as linear facts. *)
Ltac distinct_labels H :=
  unfold case_labels in H;
  repeat (apply NoDup_cons in H as [? H]);
  repeat match goal with
         | Hn : _ ∉ _ :: _ |- _ => apply not_elem_of_cons in Hn as [? Hn]
         end.

(** Decides a comparison in the goal that linear arithmetic refutes. *)
Ltac eqb_false :=
  match goal with
  | |- context [?a =? ?b] =>
      destruct (Z.eqb_spec a b) as [?|?]; [congruence|]
  end.

Section TrapProofs.
Context `{K : kconsts}.
Variable E : env.

Lemma yield_spec s :
  yield E s = Ok tt
    ((if killed_in_yield E then with_proc (set_killed 1) else fun s => s)
       (with_trace (trace s ++ [EvYield (no_sched_count (mycpu s))]) s)).
Proof. unfold yield. run_monad. destruct (killed_in_yield E); reflexivity. Qed.

(** The code after the [switch] calls [yield] at most once and nothing
    else; it returns or ends in [procexit]. *)
Lemma trap_epilogue_cases s :
  (trap_epilogue E s = Ok tt s \/ trap_epilogue E s = Stop ProcExit s) \/
  (exists s1, yield E s = Ok tt s1 /\
     (trap_epilogue E s = Ok tt s1 \/ trap_epilogue E s = Stop ProcExit s1)).
Proof.
  rewrite yield_spec.
  destruct s as [c i [p|] t ii rh rc sm ec et pk nl ns gb tr];
    unfold trap_epilogue, procexit; run_monad; [|auto].
  destruct (truthy (killed p) && (Z.land (cs t) 3 =? 3)) eqn:Hk1;
    run_monad; [auto|].
  destruct (bool_decide (get_state p = RUNNING)
            && ((trapno t =? T_IRQ0 + IRQ_TIMER) || yield_ p)); run_monad.
  - right. eexists. split; [reflexivity|].
    destruct (killed_in_yield E); run_monad.
    + destruct (truthy 1 && (Z.land (cs t) 3 =? 3)); auto.
    + rewrite Hk1. auto.
  - left. rewrite Hk1. auto.
Qed.

(** A vector without a [case] label goes to the [default:] label. *)
Lemma trap_reaches_default had_secrets s :
  trapno (tf s) ∉ case_labels -> trap E had_secrets s = trap_default E had_secrets s.
Proof.
  intros Hn. unfold case_labels in Hn.
  repeat (apply not_elem_of_cons in Hn as [? Hn]).
  unfold trap. unfold bind at 1, get at 1. cbv beta iota.
  repeat eqb_false. reflexivity.
Qed.

Lemma trap_pgflt_or_registered_unhandled had_secrets s :
  trapno (tf s) <> T_PGFLT ->
  (trapno (tf s) < 256 -> registered_trap_handlers s !! trapno (tf s) = None) ->
  trap_pgflt_or_registered E had_secrets s = trap_unhandled E s.
Proof.
  intros Hpf Hreg. unfold trap_pgflt_or_registered. run_monad.
  eqb_false. run_monad.
  destruct (Z.ltb_spec (trapno (tf s)) 256) as [Hlt|Hlt]; [|reflexivity].
  rewrite (Hreg Hlt). reflexivity.
Qed.

Lemma trap_default_unhandled had_secrets s :
  no_installed_handler E s ->
  (trapno (tf s) = T_ILLOP -> Z.land (cs (tf s)) 3 = 3 ->
   readable64 E (rip (tf s)) = true) ->
  trap E had_secrets s = trap_unhandled E s.
Proof.
  intros (Hl & Hpf & Hill & Hirq & Hreg) Hread.
  rewrite (trap_reaches_default _ _ Hl).
  unfold trap_default. unfold bind at 1, get at 1. cbv beta iota zeta.
  assert (Hrest :
    (if T_IRQ0 <=? trapno (tf s)
     then match irq_info s !! Z.to_nat (trapno (tf s) - T_IRQ0) with
          | Some {| handlers := []; in_use := _ |} =>
              trap_pgflt_or_registered E had_secrets
          | Some {| handlers := (h :: l) as hs; in_use := _ |} =>
              run_handlers hs;; lapiceoi;; piceoi
          | None => stop_with Undefined
          end
     else trap_pgflt_or_registered E had_secrets) s = trap_unhandled E s).
  { destruct (Z.leb_spec T_IRQ0 (trapno (tf s))) as [Hge|Hlt].
    - destruct (Hirq Hge) as [u ->].
      by apply trap_pgflt_or_registered_unhandled.
    - by apply trap_pgflt_or_registered_unhandled. }
  destruct (Z.eqb_spec (trapno (tf s)) T_ILLOP) as [Heq|Hne];
    [|exact Hrest].
  specialize (Hill Heq). unfold illop_emulated in Hill.
  cbv zeta in Hill. rewrite !andb_true_l.
  destruct (Z.eqb_spec (Z.land (cs (tf s)) 3) 3) as [Hu|Hu].
  - rewrite Hu in Hill |- *. change (3 =? 0) with false in *.
    change (3 =? 3) with true in Hill. cbn [andb orb] in Hill |- *.
    unfold bind, load64. rewrite (Hread Heq Hu). unfold ret. rewrite Hill.
    reflexivity.
  - rewrite orb_false_r in Hill.
    destruct (Z.land (cs (tf s)) 3 =? 0), (KTEXT <=? rip (tf s)),
      (rip (tf s) <? KTEXTEND), (is_popcnt (mem64 E (rip (tf s))));
      cbn [andb orb] in Hill |- *; first [discriminate | exact Hrest | reflexivity].
Qed.

Lemma trap_epilogue_trace s :
  exists evs, trace (final (trap_epilogue E s)) = trace s ++ evs /\
              forallb is_yield evs = true.
Proof.
  destruct (trap_epilogue_cases s) as [[-> | ->] | (s1 & Hy & [-> | ->])];
    try (exists []; cbn [final]; rewrite app_nil_r; split; reflexivity);
    rewrite yield_spec in Hy; injection Hy as <-;
    exists [EvYield (no_sched_count (mycpu s))]; cbn [final];
    (split; [|reflexivity]);
    destruct (killed_in_yield E); reflexivity.
Qed.

Lemma yields_no_eoi evs : forallb is_yield evs = true -> EvLapicEoi ∉ evs.
Proof.
  intros Hall Hin. apply list_elem_of_In in Hin.
  rewrite forallb_forall in Hall. apply Hall in Hin. discriminate.
Qed.

(** A print on a console that has not panicked, and on one that has. *)
Lemma cprintf_live m s :
  panicked s = false ->
  cprintf m s = Ok tt (with_trace (trace s ++ [EvCprintf m]) s).
Proof. intros Hp. unfold cprintf, bind, get. rewrite Hp. reflexivity. Qed.

Lemma cprintf_panicked m s :
  panicked s = true ->
  cprintf m s =
  Stop ConsoleSpin (with_intr_on false (with_trace (trace s ++ [EvCli]) s)).
Proof. intros Hp. unfold cprintf, bind at 1, get. rewrite Hp. reflexivity. Qed.

Lemma print_pcs_spec line pcs s :
  panicked s = false ->
  print_pcs line pcs s = Ok tt (with_trace (trace s ++ printed_frames line pcs) s).
Proof.
  revert s. induction pcs as [|p pcs IH]; intros s Hp.
  - destruct s. cbn. rewrite app_nil_r. reflexivity.
  - cbn [print_pcs printed_frames]. destruct (truthy p).
    + unfold bind. rewrite cprintf_live by exact Hp. rewrite IH by exact Hp.
      destruct s. cbn. rewrite <- app_assoc. reflexivity.
    + destruct s. cbn. rewrite app_nil_r. reflexivity.
Qed.

(** The vectors for which [printtrap] finds a name without reading past
    the end of [trapnames]. *)
Lemma printtrap_trapname_defined n :
  ~ (21 <= n <= 167) -> exists name, console.printtrap_trapname n = Some name.
Proof.
  intros Hn. unfold console.printtrap_trapname.
  change console.sizeof_trapnames with 168.
  destruct (Z.leb_spec 0 n) as [H0|H0]; [|eexists; reflexivity].
  destruct (Z.ltb_spec n 168) as [H1|H1]; [|eexists; reflexivity].
  cbn [andb]. apply lookup_lt_is_Some_2. cbn. lia.
Qed.

(** What [kerneltrap] prints on a console that has not panicked. *)
Lemma kerneltrap_live {A} s name :
  panicked s = false ->
  console.printtrap_trapname (trapno (tf s)) = Some name ->
  trapno (tf s) <> T_PGFLT ->
  @kerneltrap _ E A s =
  Stop KernelTrap
    (with_panicked true
       (with_trace
          (trace s ++
           [EvCli; EvCprintf msg_kernel; EvCprintf (msg_trap (trapno (tf s)) name)] ++
           (if possible_stack_overflow s then [EvCprintf msg_stack_overflow]
            else []) ++
           printed_frames msg_trace_line
             (take 10 (getcallerpcs E (gpr (tf s) RBP) 10)) ++
           (if truthy (Z.land (debugctl E) 1) then [EvCprintf msg_last_branch]
            else []))
          (with_intr_on false s))).
Proof.
  intros Hp Hname Hpf.
  destruct s as [c i mp t ii rh rc sm ec et pk nl ns gb tr].
  cbn [panicked tf] in Hp, Hname, Hpf. subst pk.
  unfold possible_stack_overflow. cbn [myproc tf trace].
  unfold kerneltrap, cli, printtrap, printtrace, cprintf. run_monad.
  rewrite Hname. run_monad.
  destruct (Z.eqb_spec (trapno t) T_PGFLT) as [?|_]; [contradiction|].
  run_monad.
  destruct (match mp with
            | Some p => truthy (kstack p) && (gpr t RSP <? kstack p)
            | None => false
            end); run_monad; rewrite print_pcs_spec by reflexivity;
    destruct (truthy (Z.land (debugctl E) 1)); run_monad; kstate_norm;
    rewrite <- !app_assoc, ?app_nil_r; reflexivity.
Qed.

(** On a console that has panicked [kerneltrap] stops at its first
    print. *)
Lemma kerneltrap_panicked {A} s :
  panicked s = true ->
  @kerneltrap _ E A s =
  Stop ConsoleSpin (with_intr_on false (with_trace (trace s ++ [EvCli; EvCli]) s)).
Proof.
  intros Hp. destruct s as [c i mp t ii rh rc sm ec et pk nl ns gb tr].
  cbn [panicked] in Hp. subst pk.
  unfold kerneltrap, cli, cprintf. run_monad. kstate_norm.
  rewrite <- app_assoc. reflexivity.
Qed.

Lemma trap_unhandled_is_kerneltrap s :
  myproc s = None \/ Z.land (cs (tf s)) 3 = 0 ->
  trap_unhandled E s = kerneltrap E s.
Proof.
  intros Hk.
  assert (Hc : bool_decide (myproc s = None) || (Z.land (cs (tf s)) 3 =? 0) = true).
  { destruct Hk as [Hk|Hk].
    - rewrite bool_decide_true by exact Hk. reflexivity.
    - rewrite Hk, orb_true_r. reflexivity. }
  unfold trap_unhandled. unfold bind at 1 2, get at 1. rewrite Hc.
  unfold kerneltrap. unfold bind.
  destruct (cli s) as [[] s1|w s1]; [|reflexivity].
  unfold get. destruct (cprintf msg_kernel s1) as [[] s2|w s2]; [|reflexivity].
  destruct (printtrap s2) as [[] s3|w s3]; [|reflexivity].
  destruct (printtrace E (gpr (tf s1) RBP) s3) as [[] s4|w s4]; [|reflexivity].
  destruct (when _ _ s4) as [[] s5|w s5]; reflexivity.
Qed.

Lemma trap_unhandled_user s p :
  myproc s = Some p -> Z.land (cs (tf s)) 3 <> 0 ->
  panicked s = false ->
  trap_unhandled E s =
  trap_epilogue E
    (with_proc (set_killed 1)
       (with_trace (trace s ++ [EvCprintf (msg_kill_proc (trapno (tf s)))]) s)).
Proof.
  intros Hp Hcs Hpk.
  assert (Hc : bool_decide (myproc s = None) || (Z.land (cs (tf s)) 3 =? 0) = false).
  { rewrite bool_decide_false by congruence.
    destruct (Z.eqb_spec (Z.land (cs (tf s)) 3) 0); [contradiction | reflexivity]. }
  unfold trap_unhandled. unfold bind at 1 2 3, get at 1.
  rewrite Hc, cprintf_live by exact Hpk. reflexivity.
Qed.

Lemma trap_unhandled_user_panicked s p :
  myproc s = Some p -> Z.land (cs (tf s)) 3 <> 0 ->
  panicked s = true ->
  trap_unhandled E s =
  Stop ConsoleSpin (with_intr_on false (with_trace (trace s ++ [EvCli]) s)).
Proof.
  intros Hp Hcs Hpk.
  assert (Hc : bool_decide (myproc s = None) || (Z.land (cs (tf s)) 3 =? 0) = false).
  { rewrite bool_decide_false by congruence.
    destruct (Z.eqb_spec (Z.land (cs (tf s)) 3) 0); [contradiction | reflexivity]. }
  unfold trap_unhandled. unfold bind at 1 2 3, get at 1.
  rewrite Hc, cprintf_panicked by exact Hpk. reflexivity.
Qed.

(** C4 (amended): a trap whose vector has no installed handler (for an
    illegal instruction in user mode: one whose bytes the kernel can read).
    On a console that has not panicked: taken at kernel privilege or without
    a current process, on a vector outside 21..167, it ends in [kerneltrap],
    which prints the register dump and the backtrace and halts, never
    returning; taken at another privilege level with a current process, it
    marks that process killed and nothing else, and returns or ends in the
    exit of that process.  On a console that has panicked the first print
    of either path stops the core in [consputc] with interrupts off: nothing
    is printed and the process is not marked. *)
Theorem unhandled_trap_policy (had_secrets : bool) (s : kstate) :
  no_installed_handler E s ->
  (trapno (tf s) = T_ILLOP -> Z.land (cs (tf s)) 3 = 3 ->
   readable64 E (rip (tf s)) = true) ->
  (myproc s = None \/ Z.land (cs (tf s)) 3 = 0 ->
   (panicked s = false -> ~ (21 <= trapno (tf s) <= 167) ->
    exists s' name,
      trap E had_secrets s = Stop KernelTrap s' /\
      panicked s' = true /\
      console.printtrap_trapname (trapno (tf s)) = Some name /\
      emitted (trap E had_secrets) s =
        [EvCli; EvCprintf msg_kernel; EvCprintf (msg_trap (trapno (tf s)) name)] ++
        (if possible_stack_overflow s then [EvCprintf msg_stack_overflow]
         else []) ++
        printed_frames msg_trace_line
          (take 10 (getcallerpcs E (gpr (tf s) RBP) 10)) ++
        (if truthy (Z.land (debugctl E) 1) then [EvCprintf msg_last_branch]
         else [])) /\
   (panicked s = true ->
    trap E had_secrets s =
    Stop ConsoleSpin
      (with_intr_on false (with_trace (trace s ++ [EvCli; EvCli]) s)))) /\
  (forall p, myproc s = Some p -> Z.land (cs (tf s)) 3 <> 0 ->
   (panicked s = false ->
    exists evs,
      forallb is_yield evs = true /\
      let s' := with_trace
                  (trace s ++ EvCprintf (msg_kill_proc (trapno (tf s))) :: evs)
                  (with_proc (set_killed 1) s) in
      trap E had_secrets s = Ok tt s' \/ trap E had_secrets s = Stop ProcExit s') /\
   (panicked s = true ->
    trap E had_secrets s =
    Stop ConsoleSpin (with_intr_on false (with_trace (trace s ++ [EvCli]) s)))).
Proof.
  intros Hno Hread.
  pose proof (trap_default_unhandled had_secrets s Hno Hread) as Hd.
  destruct Hno as (_ & Hpf & _).
  split.
  - intros Hk. rewrite Hd, (trap_unhandled_is_kerneltrap s Hk). split.
    + intros Hp Hv. destruct (printtrap_trapname_defined _ Hv) as [name Hname].
      pose proof (@kerneltrap_live unit s name Hp Hname Hpf) as R.
      eexists _, name. split; [exact R|]. split; [reflexivity|].
      split; [exact Hname|]. apply emitted_app.
      rewrite Hd, (trap_unhandled_is_kerneltrap s Hk), R. reflexivity.
    + intros Hp. apply kerneltrap_panicked, Hp.
  - intros p Hp Hcs. split.
    2:{ intros Hpk. rewrite Hd. by eapply trap_unhandled_user_panicked. }
    intros Hpk. cbv zeta. rewrite Hd.
    rewrite (trap_unhandled_user _ _ Hp Hcs Hpk).
    match goal with |- context [trap_epilogue E ?s1] =>
      destruct (trap_epilogue_cases s1) as [[R | R] | (s2 & Hy & [R | R])];
        rewrite R; clear R
    end.
    + exists []. split; [reflexivity|]. left. reflexivity.
    + exists []. split; [reflexivity|]. right. reflexivity.
    + rewrite yield_spec in Hy. injection Hy as <-.
      exists [EvYield (no_sched_count (mycpu s))]. split; [reflexivity|].
      left. destruct s as [c i mp t ii rh rc sm ec et pk nl ns gb tr].
      cbn in Hp. subst mp.
      destruct (killed_in_yield E); unfold with_proc, with_trace; cbn;
        rewrite <- app_assoc; reflexivity.
    + rewrite yield_spec in Hy. injection Hy as <-.
      exists [EvYield (no_sched_count (mycpu s))]. split; [reflexivity|].
      right. destruct s as [c i mp t ii rh rc sm ec et pk nl ns gb tr].
      cbn in Hp. subst mp.
      destruct (killed_in_yield E); unfold with_proc, with_trace; cbn;
        rewrite <- app_assoc; reflexivity.
Qed.

Lemma run_handlers_spec hs s :
  run_handlers hs s = Ok tt (with_trace (trace s ++ (EvHandleIrq <$> hs)) s).
Proof.
  revert s. induction hs as [|h hs IH]; intros s.
  - destruct s. cbn. rewrite app_nil_r. reflexivity.
  - cbn [run_handlers]. unfold bind, emit, modify. rewrite IH.
    destruct s. cbn. rewrite <- app_assoc. reflexivity.
Qed.

(** A vector without a [case] label whose line has a chain of handlers:
    the handlers run in chain order, then the two end-of-interrupts are
    issued, and [trap] returns. *)
Lemma registered_irq_dispatch had_secrets s chain u :
  T_ILLOP < T_IRQ0 ->
  trapno (tf s) ∉ case_labels ->
  T_IRQ0 <= trapno (tf s) ->
  irq_info s !! Z.to_nat (trapno (tf s) - T_IRQ0) = Some (mk_irq_info chain u) ->
  chain <> [] ->
  trap E had_secrets s =
  Ok tt (with_trace (trace s ++ (EvHandleIrq <$> chain) ++ [EvLapicEoi; EvPicEoi]) s).
Proof.
  intros Hill Hl Hge Hline Hne.
  rewrite (trap_reaches_default _ _ Hl).
  unfold trap_default. unfold bind at 1, get at 1. cbv beta iota zeta.
  destruct (Z.eqb_spec (trapno (tf s)) T_ILLOP) as [?|_]; [lia|].
  cbn [andb]. destruct (Z.leb_spec T_IRQ0 (trapno (tf s))) as [_|?]; [|lia].
  rewrite Hline. destruct chain as [|h chain]; [contradiction|].
  unfold bind at 1. rewrite run_handlers_spec.
  unfold lapiceoi, piceoi, bind, emit, modify.
  destruct s. cbn. rewrite <- !app_assoc. reflexivity.
Qed.

(** A user page fault below [USERTOP] that the resolver fails: the signal
    delivery is attempted and its answer decides the result. *)
Lemma do_pagefault_user_failure had_secrets s :
  Z.land (cs (tf s)) 3 = 3 ->
  Z.land (err (tf s)) FEC_U <> 0 ->
  rcr2 E < USERTOP ->
  rcr2 E <> 123 ->
  is_Some (myproc s) ->
  pagefault E (rcr2 E) (err (tf s)) < 0 ->
  do_pagefault E had_secrets s =
  Ok (if deliver_signal E SIGSEGV then 0 else -1)
     (with_intr_on false
        (with_trace
           (trace s ++
            [EvSti; EvPagefault (rcr2 E) (err (tf s)) (pagefault E (rcr2 E) (err (tf s)));
             EvCli; EvDeliverSignal SIGSEGV (deliver_signal E SIGSEGV)]) s)).
Proof.
  intros Hcs Herr Htop H123 [p Hp] Hr.
  unfold do_pagefault, sti, cli, deref_myproc.
  destruct (Z.eqb_spec (rcr2 E) 123) as [?|_]; [contradiction|].
  unfold bind at 1, get at 1. rewrite Hcs.
  change (3 =? 0) with false. rewrite bool_decide_false by congruence.
  cbn [orb andb].
  destruct (Z.ltb_spec (rcr2 E) USERTOP) as [_|?]; [|lia].
  unfold truthy at 1.
  destruct (Z.eqb_spec (Z.land (err (tf s)) FEC_U) 0) as [?|_]; [contradiction|].
  cbn [negb andb].
  destruct (Z.leb_spec 0 (pagefault E (rcr2 E) (err (tf s)))) as [?|_]; [lia|].
  destruct s as [c i mp t ii rh rc sm ec et pk nl ns gb tr].
  cbn in Hp. subst mp. run_monad.
  destruct (deliver_signal E SIGSEGV); run_monad;
    rewrite <- !app_assoc; reflexivity.
Qed.

(** A killed process returning to user mode exits at once. *)
Lemma trap_epilogue_killed_user s p :
  myproc s = Some p -> killed p <> 0 -> Z.land (cs (tf s)) 3 = 3 ->
  trap_epilogue E s = Stop ProcExit s.
Proof.
  intros Hp Hk Hcs. unfold trap_epilogue, procexit.
  unfold bind at 1 2, get at 1. rewrite Hp, Hcs. unfold truthy.
  destruct (Z.eqb_spec (killed p) 0) as [?|_]; [contradiction|]. reflexivity.
Qed.

(** Both register numbers of the emulation index [regs] inside its 16
    entries, all of which point at the start of a register. *)
Lemma popcnt_index_in_regs (x y : Z) :
  exists r, regs_init !! Z.to_nat (Z.lor (Z.land x 7) (Z.shiftl (Z.land y 1) 3))
            = Some (mk_regptr r 0).
Proof.
  change 7 with (Z.ones 3). change 1 with (Z.ones 1).
  rewrite !Z.land_ones by lia.
  pose proof (Z.mod_pos_bound x (2^3) ltac:(lia)) as Hx.
  pose proof (Z.mod_pos_bound y (2^1) ltac:(lia)) as Hy.
  set (a := x mod 2^3) in *. set (b := y mod 2^1) in *.
  assert (Ha : a = 0 \/ a = 1 \/ a = 2 \/ a = 3 \/ a = 4 \/ a = 5 \/ a = 6 \/ a = 7)
    by lia.
  assert (Hb : b = 0 \/ b = 1) by lia.
  clearbody a b.
  destruct Hb as [-> | ->];
    repeat (destruct Ha as [-> | Ha]; [eexists; reflexivity|]);
    subst a; eexists; reflexivity.
Qed.

(** The loop never dereferences a pointer it has advanced: when source and
    destination differ the advanced pointer is not read, and when they
    coincide the word read is the zero just stored, so nothing is
    advanced.  The trap frame is left as it was. *)
Lemma popcnt_loop_spec n : forall i reg_ rm regs s rs,
  regs !! reg_ = Some (mk_regptr rs 0) ->
  (reg_ = rm -> gpr (tf s) rs = 0) ->
  exists regs', popcnt_loop n i reg_ rm regs s = Ok regs' s.
Proof.
  induction n as [|n IH]; intros i reg_ rm regs s rs Hreg Hzero.
  - exists regs. reflexivity.
  - change (popcnt_loop (S n) i reg_ rm regs) with
      (v <- load_regptr (regs !! reg_) ;;
       popcnt_loop n (i + 1) reg_ rm
         (if truthy (Z.land v (Z.shiftl 1 i))
          then alter regptr_incr rm regs else regs)).
    unfold bind. rewrite Hreg. cbn [load_regptr]. unfold bind, get, ret.
    apply (IH _ _ _ _ _ rs); [|exact Hzero].
    destruct (decide (reg_ = rm)) as [Heq|Hne].
    + rewrite (Hzero Heq), Z.land_0_l. exact Hreg.
    + destruct (truthy _); [|exact Hreg].
      rewrite list_lookup_alter_ne by congruence. exact Hreg.
Qed.

(** What the emulation does: the destination register is set to zero and
    the instruction pointer advances by 5. *)
Lemma emulate_popcnt_spec instr s :
  exists rd,
    regs_init !! Z.to_nat (popcnt_rm instr) = Some (mk_regptr rd 0) /\
    emulate_popcnt instr s =
    Ok tt (with_tf (fun t => set_rip (wrap64 (rip t + 5)) (set_gpr rd 0 t)) s).
Proof.
  destruct (popcnt_index_in_regs (Z.shiftr instr 35) (Z.shiftr instr 9)) as [rd Hrd].
  destruct (popcnt_index_in_regs (Z.shiftr instr 32) (Z.shiftr instr 8)) as [rs Hrs].
  exists rd. split; [exact Hrd|].
  unfold emulate_popcnt, popcnt_rm, popcnt_reg. cbv zeta.
  rewrite Hrd. cbn [store_regptr]. unfold bind at 1, modify at 1.
  match goal with |- context [popcnt_loop ?n ?i ?a ?b ?l] =>
    destruct (popcnt_loop_spec n i a b l (with_tf (set_gpr rd 0) s) rs Hrs) as [regs' R]
  end.
  { intros Heq. rewrite Heq in Hrs. rewrite Hrs in Hrd.
    injection Hrd as ->. destruct s as [c i mp [] ii rh rc sm ec et pk nl ns gb tr].
    cbn. destruct (decide (rd = rd)); [reflexivity | contradiction]. }
  unfold bind. rewrite R. unfold advance_rip, modify.
  destruct s. reflexivity.
Qed.

Lemma printed_frames_no_yield line pcs :
  forallb (fun e => negb (is_yield e)) (printed_frames line pcs) = true.
Proof.
  induction pcs as [|p pcs IH]; [reflexivity|].
  cbn [printed_frames]. destruct (truthy p); [exact IH | reflexivity].
Qed.

(** A timer tick inside a scheduler-suppressed scope, when its print (if
    one is requested) finds the console alive: [trap] returns before its
    epilogue, having counted the blocked tick and set the yield-request
    flag. *)
Lemma trap_timer_deferred s :
  no_sched_count (mycpu s) <> 0 ->
  timer_printpc (mycpu s) = 0 \/ panicked s = false ->
  exists s' evs,
    trap_timer E s = Ok tt s' /\
    no_sched_count (mycpu s') =
      Z.lor (no_sched_count (mycpu s)) NO_SCHED_COUNT_YIELD_REQUESTED /\
    trace s' = trace s ++ evs ++ [EvKstat sched_blocked_tick_count] /\
    forallb (fun e => negb (is_yield e)) evs = true /\
    timer_printpc (mycpu s') = 0 /\ panicked s' = panicked s.
Proof.
  intros Hn Hq.
  assert (Ht : truthy (no_sched_count (mycpu s)) = true).
  { unfold truthy. destruct (Z.eqb_spec (no_sched_count (mycpu s)) 0);
      [contradiction | reflexivity]. }
  destruct s as [[cid cncli cint cnsc ctp] i mp t ii rh rc sm ec et pk nl ns gb tr].
  cbn [mycpu no_sched_count timer_printpc panicked] in *.
  destruct (Z.eqb_spec ctp 0) as [-> | Hctp].
  - clear Hq. unfold trap_timer, lapiceoi, record_entry_time. run_monad.
    change (truthy 0) with false. run_monad.
    repeat (first [ rewrite Ht
                  | match goal with
                    | |- context [if ?b then _ else _] => destruct b
                    end ];
            run_monad).
    all: kstate_norm.
    all: eexists _, _; (split; [reflexivity|]); kstate_norm;
      (split; [reflexivity|]); split;
      [ etransitivity; [|symmetry; apply app_assoc]; f_equal;
        rewrite <- !app_assoc; reflexivity
      | split; [reflexivity | split; reflexivity] ].
  - destruct Hq as [? | ->]; [contradiction|].
    assert (Htp : truthy ctp = true).
    { unfold truthy. destruct (Z.eqb_spec ctp 0); [contradiction | reflexivity]. }
    unfold trap_timer, lapiceoi, record_entry_time, cprintf. run_monad.
    repeat (first [ rewrite print_pcs_spec by reflexivity
                  | rewrite Htp
                  | rewrite Ht
                  | match goal with
                    | |- context [if ?b then _ else _] => destruct b
                    end ];
            run_monad).
    all: kstate_norm.
    all: eexists _, _; (split; [reflexivity|]); kstate_norm;
      (split; [reflexivity|]); split;
      [ etransitivity; [|symmetry; apply app_assoc]; f_equal;
        rewrite <- !app_assoc; reflexivity
      | split; [rewrite ?forallb_app, ?printed_frames_no_yield; reflexivity
               | split; reflexivity] ].
Qed.

(** A timer tick that has to print on a console that has panicked stops
    in the print, before the end-of-interrupt. *)
Lemma trap_timer_frozen s :
  timer_printpc (mycpu s) <> 0 ->
  panicked s = true ->
  trap_timer E s =
  Stop ConsoleSpin
    (with_intr_on false
       (with_trace (trace s ++ [EvKstat sched_tick_count; EvCli]) s)).
Proof.
  intros Hq Hp.
  assert (Ht : truthy (timer_printpc (mycpu s)) = true).
  { unfold truthy. destruct (Z.eqb_spec (timer_printpc (mycpu s)) 0);
      [contradiction | reflexivity]. }
  destruct s as [[cid cncli cint cnsc ctp] i mp t ii rh rc sm ec et pk nl ns gb tr].
  cbn [mycpu timer_printpc panicked] in *. subst pk.
  unfold trap_timer, cprintf. run_monad. rewrite Ht. run_monad. kstate_norm.
  rewrite <- app_assoc. reflexivity.
Qed.

Hypothesis labels_distinct : NoDup case_labels.

(** C7 (amended): on the spurious interrupt vector the dispatcher prints
    its diagnostic and issues no end-of-interrupt, neither to the local APIC
    nor to the PIC: after the print only the scheduling code after the
    [switch] runs.  On the vectors of the TLB shootdown, pause, IPI call,
    wake and sample-configure interrupts the end-of-interrupt is the first
    thing it does.  On the LAPIC error vector it is issued after the
    diagnostic, provided the console has not panicked.  On a console that
    has panicked the print of the spurious and of the LAPIC error vector
    stops the core in [consputc], with nothing printed and no
    end-of-interrupt. *)
Theorem spurious_not_acknowledged (had_secrets : bool) (s : kstate) :
  (trapno (tf s) = T_IRQ0 + IRQ_SPURIOUS ->
     (panicked s = false ->
      exists ys, forallb is_yield ys = true /\
        emitted (trap E had_secrets) s = EvCprintf msg_spurious :: ys) /\
     (panicked s = true ->
      emitted (trap E had_secrets) s = [EvCli] /\
      exists s', trap E had_secrets s = Stop ConsoleSpin s')) /\
  (forall act, ipi_action (trapno (tf s)) = Some act ->
     exists ys, forallb is_yield ys = true /\
       emitted (trap E had_secrets) s = EvLapicEoi :: act ++ ys) /\
  (trapno (tf s) = T_IRQ0 + IRQ_ERROR ->
     (panicked s = false ->
      exists ys, forallb is_yield ys = true /\
        emitted (trap E had_secrets) s =
          EvCprintf msg_lapic_error :: EvLapicEoi :: ys) /\
     (panicked s = true ->
      emitted (trap E had_secrets) s = [EvCli] /\
      exists s', trap E had_secrets s = Stop ConsoleSpin s')).
Proof.
  pose proof labels_distinct as Hd. distinct_labels Hd.
  split; [|split].
  - intros Hn.
    assert (Hrun : trap E had_secrets s = (cprintf msg_spurious ;; trap_epilogue E) s).
    { unfold trap. unfold bind at 1, get at 1. cbv beta zeta.
      rewrite Hn. repeat eqb_false. rewrite Z.eqb_refl, orb_true_r. reflexivity. }
    split; intros Hp.
    + rewrite (bind_Ok _ _ _ _ _ (cprintf_live _ s Hp)) in Hrun.
      match type of Hrun with context [trap_epilogue E ?s1] =>
        destruct (trap_epilogue_trace s1) as (ys & T & Y) end.
      exists ys. split; [exact Y|]. apply emitted_app. rewrite Hrun, T.
      cbn [trace with_trace]. rewrite <- app_assoc. reflexivity.
    + rewrite (bind_Stop _ _ _ _ _ (cprintf_panicked _ s Hp)) in Hrun.
      split; [|eauto]. apply emitted_app. rewrite Hrun. reflexivity.
  - intros act Hact.
    assert (Hrun : exists ys,
      trace (final (trap E had_secrets s)) = trace s ++ EvLapicEoi :: act ++ ys /\
      forallb is_yield ys = true).
    { unfold ipi_action in Hact. unfold trap, lapiceoi. run_monad.
      repeat match type of Hact with
      | context [?a =? ?b] =>
          destruct (Z.eqb_spec a b) as [Heq|?];
          [injection Hact as <-; rewrite Heq; repeat eqb_false;
           rewrite ?Z.eqb_refl; run_monad;
           match goal with |- context [trap_epilogue E ?s1] =>
             destruct (trap_epilogue_trace s1) as (ys & T & Y) end;
           exists ys; (split; [|exact Y]); rewrite T; cbn [trace with_trace];
           rewrite <- !app_assoc; reflexivity|]
      end.
      discriminate. }
    destruct Hrun as (ys & T & Y). exists ys. split; [exact Y|].
    apply emitted_app, T.
  - intros Hn.
    assert (Hrun : trap E had_secrets s =
                   (cprintf msg_lapic_error ;; lapiceoi ;; trap_epilogue E) s).
    { unfold trap. unfold bind at 1, get at 1. cbv beta zeta.
      rewrite Hn. repeat eqb_false. rewrite Z.eqb_refl. reflexivity. }
    split; intros Hp.
    + rewrite (bind_Ok _ _ _ _ _ (cprintf_live _ s Hp)) in Hrun.
      unfold lapiceoi, bind at 1, emit, modify in Hrun.
      match type of Hrun with context [trap_epilogue E ?s1] =>
        destruct (trap_epilogue_trace s1) as (ys & T & Y) end.
      exists ys. split; [exact Y|]. apply emitted_app. rewrite Hrun, T.
      cbn [trace with_trace]. rewrite <- !app_assoc. reflexivity.
    + rewrite (bind_Stop _ _ _ _ _ (cprintf_panicked _ s Hp)) in Hrun.
      split; [|eauto]. apply emitted_app. rewrite Hrun. reflexivity.
Qed.

Hypothesis illop_is_exception : T_ILLOP < T_IRQ0.

(** C2 (amended): for a device interrupt on a registered IRQ line whose
    vector is not one of the vectors that [trap] handles by a [case] of its
    own, the handlers in the chain of the line are invoked, each once and in
    chain order; only then are the two end-of-interrupts issued, to the
    local APIC and to the PIC, and [trap] returns with nothing else
    done. *)
Theorem device_irq_chain_then_eoi
    (had_secrets : bool) (s : kstate) (chain : list Z) (u : bool) :
  trapno (tf s) ∉ case_labels ->
  T_IRQ0 <= trapno (tf s) ->
  irq_info s !! Z.to_nat (trapno (tf s) - T_IRQ0) = Some (mk_irq_info chain u) ->
  chain <> [] ->
  trap E had_secrets s =
    Ok tt (with_trace
             (trace s ++ (EvHandleIrq <$> chain) ++ [EvLapicEoi; EvPicEoi]) s) /\
  emitted (trap E had_secrets) s =
    (EvHandleIrq <$> chain) ++ [EvLapicEoi; EvPicEoi].
Proof.
  intros Hl Hge Hline Hne.
  pose proof (registered_irq_dispatch had_secrets s chain u
                illop_is_exception Hl Hge Hline Hne) as R.
  split; [exact R|]. apply emitted_app. rewrite R. reflexivity.
Qed.

Hypothesis pgflt_is_exception : T_PGFLT < T_IRQ0.
Hypothesis pgflt_not_illop : T_PGFLT <> T_ILLOP.
Hypothesis pgflt_not_label : T_PGFLT ∉ case_labels.

(** C1 (amended): for a page fault taken from user mode, at an address
    below the user/kernel split other than the address 123 of the timing
    probe, whose resolution by the fault resolver fails, and with no trap
    handler registered for the page-fault vector, the dispatcher attempts to
    deliver SIGSEGV to the process.  If the delivery is refused, the process
    is marked killed and the trap ends in the exit of the process, unless
    the console has panicked: then the message that precedes the mark stops
    the core in [consputc] and the process is not marked.  If the delivery
    is accepted the trap returns (or ends in the exit of a process that was
    killed already). *)
Theorem pagefault_failure_signalled (had_secrets : bool) (s : kstate) :
  registered_trap_handlers s !! T_PGFLT = None ->
  rcr2 E <> 123 ->
  trapno (tf s) = T_PGFLT ->
  Z.land (cs (tf s)) 3 = 3 ->
  Z.land (err (tf s)) FEC_U <> 0 ->
  rcr2 E < USERTOP ->
  is_Some (myproc s) ->
  pagefault E (rcr2 E) (err (tf s)) < 0 ->
  EvDeliverSignal SIGSEGV (deliver_signal E SIGSEGV)
    ∈ emitted (trap E had_secrets) s /\
  (deliver_signal E SIGSEGV = false -> panicked s = false ->
   exists s' p', trap E had_secrets s = Stop ProcExit s' /\
                 myproc s' = Some p' /\ killed p' = 1) /\
  (deliver_signal E SIGSEGV = false -> panicked s = true ->
   exists s', trap E had_secrets s = Stop ConsoleSpin s' /\
              myproc s' = myproc s) /\
  (deliver_signal E SIGSEGV = true ->
   exists s', trap E had_secrets s = Ok tt s' \/
              trap E had_secrets s = Stop ProcExit s').
Proof.
  intros Hreg H123 Hn Hcs Herr Htop Hsome Hr.
  pose proof (do_pagefault_user_failure had_secrets s Hcs Herr Htop H123 Hsome Hr)
    as Hpf.
  destruct Hsome as [p Hp].
  assert (Hl : trapno (tf s) ∉ case_labels) by (rewrite Hn; exact pgflt_not_label).
  assert (Hrun : trap E had_secrets s =
    (resolved <- (r <- do_pagefault E had_secrets ;; ret (r =? 0)) ;;
     if (resolved : bool) then
       p <- deref_myproc ;; if truthy (killed p) then procexit else ret tt
     else
       s <- get ;;
       match (if trapno (tf s) <? 256
              then registered_trap_handlers s !! trapno (tf s) else None) with
       | Some fn =>
         ensure_secrets E ;;
         emit (EvTrapHandler fn
                 (default 0 (registered_trap_handler_contexts s !! trapno (tf s))))
       | None => trap_unhandled E
       end) s).
  { rewrite (trap_reaches_default _ _ Hl).
    unfold trap_default. unfold bind at 1, get at 1. cbv beta iota zeta.
    rewrite Hn.
    destruct (Z.eqb_spec T_PGFLT T_ILLOP) as [?|_]; [contradiction|].
    cbn [andb]. destruct (Z.leb_spec T_IRQ0 T_PGFLT) as [?|_]; [lia|].
    unfold trap_pgflt_or_registered. unfold bind at 1, get at 1.
    rewrite Hn, Z.eqb_refl. reflexivity. }
  set (s1 := with_intr_on false _) in Hpf.
  assert (Hp1 : myproc s1 = Some p) by exact Hp.
  assert (Hcs1 : Z.land (cs (tf s1)) 3 <> 0) by (change (tf s1) with (tf s); lia).
  assert (Hres : trap E had_secrets s =
    if deliver_signal E SIGSEGV
    then (if truthy (killed p) then Stop ProcExit s1 else Ok tt s1)
    else if panicked s
    then Stop ConsoleSpin
           (with_intr_on false (with_trace (trace s1 ++ [EvCli]) s1))
    else Stop ProcExit
           (with_proc (set_killed 1)
              (with_trace (trace s1 ++ [EvCprintf (msg_kill_proc T_PGFLT)]) s1))).
  { rewrite Hrun. unfold bind at 1 2. rewrite Hpf. unfold ret at 1.
    destruct (deliver_signal E SIGSEGV).
    - change (0 =? 0) with true. cbv beta iota.
      unfold deref_myproc, bind, get. rewrite Hp1.
      unfold ret at 1. cbv beta iota.
      destruct (truthy (killed p)); reflexivity.
    - change (-1 =? 0) with false. cbv beta iota.
      unfold bind at 1, get at 1.
      change (trapno (tf s1)) with (trapno (tf s)).
      change (registered_trap_handlers s1) with (registered_trap_handlers s).
      rewrite Hn, Hreg.
      assert (Hun : (if T_PGFLT <? 256 then None else None) = @None Z)
        by (destruct (T_PGFLT <? 256); reflexivity).
      rewrite Hun. destruct (panicked s) eqn:Hpk.
      + by apply (trap_unhandled_user_panicked s1 p).
      + rewrite (trap_unhandled_user s1 p Hp1 Hcs1 Hpk).
        change (trapno (tf s1)) with (trapno (tf s)). rewrite Hn.
        erewrite trap_epilogue_killed_user;
          [reflexivity | cbn [myproc with_proc with_trace]; rewrite Hp1; reflexivity
          | cbn; lia | exact Hcs]. }
  split; [|split; [|split]].
  - assert (Ht : exists evs, trace (final (trap E had_secrets s)) =
      trace s ++
      [EvSti; EvPagefault (rcr2 E) (err (tf s)) (pagefault E (rcr2 E) (err (tf s)));
       EvCli; EvDeliverSignal SIGSEGV (deliver_signal E SIGSEGV)] ++ evs).
    { rewrite Hres. destruct (deliver_signal E SIGSEGV).
      - exists []. destruct (truthy (killed p)); cbn [final];
          subst s1; cbn [trace with_trace with_intr_on]; reflexivity.
      - destruct (panicked s).
        + exists [EvCli]. cbn [final].
          subst s1. cbn [trace with_trace with_intr_on].
          rewrite <- app_assoc. reflexivity.
        + exists [EvCprintf (msg_kill_proc T_PGFLT)]. cbn [final].
          subst s1. cbn [trace with_trace with_intr_on with_proc].
          rewrite <- app_assoc. reflexivity. }
    destruct Ht as [evs Ht]. rewrite (emitted_app _ _ _ Ht).
    apply elem_of_app. left. rewrite !elem_of_cons. auto.
  - intros Hsig Hpk. rewrite Hres, Hsig, Hpk. eexists _, (set_killed 1 p).
    split; [reflexivity|]. split; [|reflexivity].
    cbn [myproc with_proc with_trace]. rewrite Hp1. reflexivity.
  - intros Hsig Hpk. rewrite Hres, Hsig, Hpk. eexists. split; [reflexivity|].
    reflexivity.
  - intros Hsig. rewrite Hres, Hsig. exists s1.
    destruct (truthy (killed p)); auto.
Qed.

Hypothesis illop_not_label : T_ILLOP ∉ case_labels.

(** X16: on every kernel-mode illegal-instruction trap that matches the popcnt
    pattern, [trap] returns with the destination register set to zero,
    whatever the source register holds, and the instruction pointer
    advanced by 5. *)
Lemma popcnt_trap_zeroes_destination (had_secrets : bool) (s : kstate) :
  trapno (tf s) = T_ILLOP ->
  Z.land (cs (tf s)) 3 = 0 ->
  KTEXT <= rip (tf s) < KTEXTEND ->
  is_popcnt (mem64 E (rip (tf s))) = true ->
  exists rd,
    regs_init !! Z.to_nat (popcnt_rm (mem64 E (rip (tf s)))) = Some (mk_regptr rd 0) /\
    trap E had_secrets s =
    Ok tt (with_tf (fun t => set_rip (wrap64 (rip t + 5)) (set_gpr rd 0 t)) s).
Proof.
  intros Hn Hcs Hrip Hpop.
  assert (Hl : trapno (tf s) ∉ case_labels) by (rewrite Hn; exact illop_not_label).
  rewrite (trap_reaches_default _ _ Hl).
  unfold trap_default. unfold bind at 1, get at 1. cbv beta iota zeta.
  rewrite Hn, Z.eqb_refl, Hcs, Hpop. change (0 =? 0) with true.
  destruct (Z.leb_spec KTEXT (rip (tf s))) as [_|?]; [|lia].
  destruct (Z.ltb_spec (rip (tf s)) KTEXTEND) as [_|?]; [|lia].
  cbn [andb]. apply emulate_popcnt_spec.
Qed.

Lemma trap_is_trap_timer had_secrets s :
  trapno (tf s) = T_IRQ0 + IRQ_TIMER -> trap E had_secrets s = trap_timer E s.
Proof.
  intros Hn. unfold trap. unfold bind at 1, get at 1. cbv beta iota zeta.
  rewrite Hn, Z.eqb_refl. reflexivity.
Qed.

Variable yield_bit : Z.
Hypothesis yield_bit_range : 0 <= yield_bit < 64.
Hypothesis yield_flag_is_bit : NO_SCHED_COUNT_YIELD_REQUESTED = 2 ^ yield_bit.

Lemma yield_flag_bounds : 0 < NO_SCHED_COUNT_YIELD_REQUESTED <= 2 ^ 63.
Proof.
  rewrite yield_flag_is_bit. split; [apply Z.pow_pos_nonneg; lia|].
  apply Z.pow_le_mono_r; lia.
Qed.

Lemma land_below_flag c :
  0 <= c < NO_SCHED_COUNT_YIELD_REQUESTED ->
  Z.land c NO_SCHED_COUNT_YIELD_REQUESTED = 0.
Proof.
  rewrite yield_flag_is_bit. intros Hc. apply Z.bits_inj'. intros n Hn.
  rewrite Z.land_spec, Z.bits_0, Z.pow2_bits_eqb by lia.
  destruct (Z.eqb_spec yield_bit n) as [<-|_]; [|apply andb_false_r].
  rewrite andb_true_r. apply Z.testbit_false; [lia|].
  rewrite Z.div_small by lia. reflexivity.
Qed.

(** Setting the request flag on a count below the flag bit adds the flag;
    setting it again changes nothing. *)
Lemma lor_flag c (f : bool) :
  0 <= c < NO_SCHED_COUNT_YIELD_REQUESTED ->
  Z.lor (c + (if f then NO_SCHED_COUNT_YIELD_REQUESTED else 0))
        NO_SCHED_COUNT_YIELD_REQUESTED
  = c + NO_SCHED_COUNT_YIELD_REQUESTED.
Proof.
  intros Hc. pose proof (land_below_flag c Hc) as Hland.
  assert (Hclear : Z.lor c NO_SCHED_COUNT_YIELD_REQUESTED
                   = c + NO_SCHED_COUNT_YIELD_REQUESTED).
  { rewrite <- Z.lxor_lor by exact Hland. symmetry.
    apply Z.add_nocarry_lxor. exact Hland. }
  destruct f.
  - rewrite <- Hclear, <- Z.lor_assoc, Z.lor_diag. reflexivity.
  - rewrite Z.add_0_r. exact Hclear.
Qed.

Lemma scoped_critical_exit_inner s :
  wrap64 (no_sched_count (mycpu s) + -1) <> NO_SCHED_COUNT_YIELD_REQUESTED ->
  scoped_critical_exit E s =
  Ok tt (with_cpu (set_no_sched_count (wrap64 (no_sched_count (mycpu s) + -1))) s).
Proof.
  intros Hne. unfold scoped_critical_exit, modify_no_sched_count.
  destruct s as [[cid cncli cint cnsc ctp] i mp t ii rh rc sm ec et pk nl ns gb tr].
  cbn [mycpu no_sched_count] in Hne. run_monad.
  destruct (Z.eqb_spec (wrap64 (cnsc + -1)) NO_SCHED_COUNT_YIELD_REQUESTED);
    [contradiction | reflexivity].
Qed.

(** Leaving the outermost scope with the request flag set: the flag is
    taken off, so the count is zero, and then [yield] is called. *)
Lemma scoped_critical_exit_release s :
  wrap64 (no_sched_count (mycpu s) + -1) = NO_SCHED_COUNT_YIELD_REQUESTED ->
  exists s', scoped_critical_exit E s = Ok tt s' /\
             no_sched_count (mycpu s') = 0 /\
             trace s' = trace s ++ [EvKstat sched_delayed_tick_count; EvYield 0].
Proof.
  intros Heq. pose proof yield_flag_bounds as Hb.
  unfold scoped_critical_exit, release_yield, modify_no_sched_count, yield.
  destruct s as [[cid cncli cint cnsc ctp] i mp t ii rh rc sm ec et pk nl ns gb tr].
  cbn [mycpu no_sched_count] in Heq. run_monad. rewrite Heq, Z.eqb_refl.
  run_monad. kstate_norm. rewrite !Heq, !Z.add_opp_diag_r.
  change (wrap64 0) with 0.
  destruct (killed_in_yield E); kstate_norm;
    eexists; (split; [reflexivity|]); (split; [reflexivity|]);
    rewrite <- app_assoc; reflexivity.
Qed.

Lemma wrap64_small x : 0 <= x < 2 ^ 64 -> wrap64 x = x.
Proof. intros Hx. unfold wrap64. apply Z.mod_small. exact Hx. Qed.

(** Inside the outermost scope, with [d] more scopes open, a sequence that
    closes these [d] scopes never yields: it comes back to depth one, with
    the request flag set if it was set before or a timer tick arrived. *)
Lemma critical_scope_inner (w : list crit_op) : forall (d : nat) s (f : bool),
  balanced crit_kind d w = true ->
  timer_ticks w = true ->
  no_sched_count (mycpu s) =
    1 + Z.of_nat d + (if f then NO_SCHED_COUNT_YIELD_REQUESTED else 0) ->
  1 + Z.of_nat d + Z.of_nat (length w) < NO_SCHED_COUNT_YIELD_REQUESTED ->
  timer_printpc (mycpu s) = 0 \/ panicked s = false ->
  exists s' evs,
    run_ops (run_crit_op E) w s = Ok tt s' /\
    no_sched_count (mycpu s') =
      1 + (if f || existsb is_tick w then NO_SCHED_COUNT_YIELD_REQUESTED else 0) /\
    trace s' = trace s ++ evs /\
    forallb (fun e => negb (is_yield e)) evs = true.
Proof.
  pose proof yield_flag_bounds as Hb.
  induction w as [|o w IH]; intros d s f Hbal Hticks Hn Hdepth Hq.
  - destruct d; [|discriminate]. exists s, []. cbn [run_ops existsb].
    rewrite orb_false_r, app_nil_r. repeat split. rewrite Hn. cbn. lia.
  - cbn [length] in Hdepth. cbn [timer_ticks forallb] in Hticks.
    apply andb_prop in Hticks as [Ho Hticks]. fold (timer_ticks w) in Hticks.
    destruct o as [| |t had_secrets];
      cbn [balanced crit_kind] in Hbal; cbn [run_ops run_crit_op existsb is_tick].
    + (* entering a scope *)
      set (s1 := with_cpu (fun c => set_no_sched_count
                                      (wrap64 (no_sched_count c + 1)) c) s).
      rewrite (bind_Ok _ _ s tt s1) by reflexivity.
      destruct (IH (S d) s1 f Hbal Hticks) as (s' & evs & R & N & T & Y).
      { change (no_sched_count (mycpu s1))
          with (wrap64 (no_sched_count (mycpu s) + 1)).
        rewrite Hn, wrap64_small by (destruct f; lia). lia. }
      { lia. }
      { exact Hq. }
      exists s', evs. cbn [orb]. auto.
    + (* leaving an inner scope *)
      destruct d as [|d]; [discriminate|].
      assert (Hv : wrap64 (no_sched_count (mycpu s) + -1) =
                   1 + Z.of_nat d + (if f then NO_SCHED_COUNT_YIELD_REQUESTED else 0)).
      { rewrite Hn, wrap64_small by (destruct f; lia). lia. }
      rewrite (bind_Ok _ _ _ _ _ (scoped_critical_exit_inner s
                 ltac:(rewrite Hv; destruct f; lia))).
      match goal with |- context [run_ops _ w ?s1] =>
        destruct (IH d s1 f Hbal Hticks) as (s' & evs & R & N & T & Y)
      end.
      { cbn [mycpu with_cpu no_sched_count set_no_sched_count]. exact Hv. }
      { lia. }
      { exact Hq. }
      exists s', evs. cbn [orb]. auto.
    + (* a timer tick *)
      apply Z.eqb_eq in Ho.
      set (s0 := with_tf (fun _ => t) s).
      destruct (trap_timer_deferred s0) as (s2 & evs0 & R0 & N0 & T0 & Y0 & Q0 & _).
      { change (no_sched_count (mycpu s0)) with (no_sched_count (mycpu s)).
        rewrite Hn. destruct f; lia. }
      { exact Hq. }
      assert (R1 : (modify (with_tf (fun _ => t)) ;; trap E had_secrets) s = Ok tt s2).
      { rewrite (bind_Ok _ _ s tt s0) by reflexivity.
        rewrite (trap_is_trap_timer had_secrets s0 Ho). exact R0. }
      rewrite (bind_Ok _ _ _ _ _ R1).
      change (no_sched_count (mycpu s0)) with (no_sched_count (mycpu s)) in N0.
      change (trace s0) with (trace s) in T0.
      rewrite Hn, lor_flag in N0 by lia.
      destruct (IH d s2 true Hbal Hticks) as (s' & evs & R & N & T & Y).
      { rewrite N0. reflexivity. }
      { lia. }
      { left. exact Q0. }
      exists s', (evs0 ++ [EvKstat sched_blocked_tick_count] ++ evs).
      split; [exact R|]. split; [|split].
      * rewrite N, orb_true_r. reflexivity.
      * rewrite T, T0, <- !app_assoc. reflexivity.
      * rewrite !forallb_app, Y0, Y. reflexivity.
Qed.

(** C5 (amended): a timer tick that arrives while the scheduler-suppression
    count is nonzero, and that does not have to print on a console that has
    panicked, returns without yielding, having counted the blocked tick and
    set the yield-request flag in the count.  Over a whole outermost scope
    (with nested scopes and timer ticks inside) no yield happens before the
    outermost exit; if a tick arrived, that exit counts the delayed tick,
    clears the flag (the count is zero when [yield] is called) and yields
    exactly once; if none arrived it does not yield.  A tick that has to
    print ([timer_printpc] set) on a console that has panicked stops the
    core in [consputc] before the end-of-interrupt: no tick is counted as
    blocked and no flag is set. *)
Theorem deferred_yield_honored_once
    (had_secrets : bool) (st : kstate) (w : list crit_op) (s : kstate) :
  (trapno (tf st) = T_IRQ0 + IRQ_TIMER ->
   no_sched_count (mycpu st) <> 0 ->
   timer_printpc (mycpu st) = 0 \/ panicked st = false ->
   exists st' evs,
     trap E had_secrets st = Ok tt st' /\
     no_sched_count (mycpu st') =
       Z.lor (no_sched_count (mycpu st)) NO_SCHED_COUNT_YIELD_REQUESTED /\
     emitted (trap E had_secrets) st = evs ++ [EvKstat sched_blocked_tick_count] /\
     forallb (fun e => negb (is_yield e)) evs = true) /\
  (balanced crit_kind 0 w = true ->
   timer_ticks w = true ->
   no_sched_count (mycpu s) = 0 ->
   1 + Z.of_nat (length w) < NO_SCHED_COUNT_YIELD_REQUESTED ->
   timer_printpc (mycpu s) = 0 \/ panicked s = false ->
   exists s' evs,
     run_ops (run_crit_op E) (CEnter :: w ++ [CExit]) s = Ok tt s' /\
     no_sched_count (mycpu s') = 0 /\
     forallb (fun e => negb (is_yield e)) evs = true /\
     trace s' = trace s ++ evs ++
                (if existsb is_tick w
                 then [EvKstat sched_delayed_tick_count; EvYield 0] else [])) /\
  (trapno (tf st) = T_IRQ0 + IRQ_TIMER ->
   timer_printpc (mycpu st) <> 0 ->
   panicked st = true ->
   exists st',
     trap E had_secrets st = Stop ConsoleSpin st' /\
     no_sched_count (mycpu st') = no_sched_count (mycpu st) /\
     emitted (trap E had_secrets) st = [EvKstat sched_tick_count; EvCli]).
Proof.
  pose proof yield_flag_bounds as Hb. split; [|split].
  - intros Hn Hnsc Hq.
    destruct (trap_timer_deferred st Hnsc Hq) as (st' & evs & R & N & T & Y & _).
    rewrite <- (trap_is_trap_timer had_secrets st Hn) in R.
    exists st', evs. split; [exact R|]. split; [exact N|]. split; [|exact Y].
    apply emitted_app. rewrite R. exact T.
  - intros Hbal Hticks Hn Hdepth Hq. cbn [run_ops run_crit_op].
    set (s1 := with_cpu (fun c => set_no_sched_count
                                    (wrap64 (no_sched_count c + 1)) c) s).
    rewrite (bind_Ok _ _ s tt s1) by reflexivity. rewrite run_ops_app.
    destruct (critical_scope_inner w 0 s1 false Hbal Hticks)
      as (s2 & evs & R & N & T & Y).
    { change (no_sched_count (mycpu s1))
        with (wrap64 (no_sched_count (mycpu s) + 1)).
      rewrite Hn. reflexivity. }
    { cbn. lia. }
    { exact Hq. }
    change (trace s1) with (trace s) in T. cbn [orb] in N.
    rewrite (bind_Ok _ _ _ _ _ R). cbn [run_ops run_crit_op].
    destruct (existsb is_tick w).
    + destruct (scoped_critical_exit_release s2) as (s3 & R3 & N3 & T3).
      { rewrite N, wrap64_small by lia. lia. }
      rewrite (bind_Ok _ _ _ _ _ R3). exists s3, evs.
      split; [reflexivity|]. split; [exact N3|]. split; [exact Y|].
      rewrite T3, T, <- app_assoc. reflexivity.
    + assert (Hv : wrap64 (no_sched_count (mycpu s2) + -1) = 0).
      { rewrite N. reflexivity. }
      rewrite (bind_Ok _ _ _ _ _ (scoped_critical_exit_inner s2
                 ltac:(rewrite Hv; lia))).
      eexists _, evs. split; [reflexivity|].
      split; [cbn [mycpu with_cpu no_sched_count set_no_sched_count]; exact Hv|].
      split; [exact Y|]. cbn [trace with_cpu]. rewrite T, app_nil_r.
      destruct s2. reflexivity.
  - intros Hn Hq Hp.
    pose proof (trap_timer_frozen st Hq Hp) as R.
    rewrite <- (trap_is_trap_timer had_secrets st Hn) in R.
    eexists. split; [exact R|]. split; [reflexivity|].
    apply emitted_app. rewrite R. reflexivity.
Qed.

End TrapProofs.

(** The calls of four drivers: two take any free line, two name the lines
    they accept. *)
Example reserve_all_example :
  exists s', (@inittrap sv6_consts ;;
              @reserve_all sv6_consts irq_unassigned_valid driver_calls)
               (machine (frame 0 0 0 0) None) = Ok driver_grants s'.
Proof. eexists. vm_compute. reflexivity. Qed.

(** C10 at a concrete input: the table of 224 lines and the four calls. *)
Lemma irq_reserve_exclusive_witness :
  (forall s1 this accept_gsi this' s2,
     @reserve sv6_consts irq_unassigned_valid this accept_gsi s1 = Ok (true, this') s2 ->
     line_in_use (irq_info s1) (gsi this') = false /\
     line_in_use (irq_info s2) (gsi this') = true /\
     vector this' = gsi this' + @T_IRQ0 sv6_consts) /\
  exists s0,
    @inittrap sv6_consts (machine (frame 0 0 0 0) None) = Ok tt s0 /\
    (forall g, @reserved_at_boot sv6_consts g -> line_in_use (irq_info s0) g = true) /\
    (forall granted s',
       @reserve_all sv6_consts irq_unassigned_valid driver_calls s0 = Ok granted s' ->
       NoDup (gsi <$> granted) /\
       forall i, i ∈ granted ->
         ~ @reserved_at_boot sv6_consts (gsi i) /\
         vector i = gsi i + @T_IRQ0 sv6_consts).
Proof.
  apply (@irq_reserve_exclusive sv6_consts irq_unassigned_valid).
  - cbn. lia.
  - cbn. lia.
  - reflexivity.
Defined.



(** C6 at a concrete input: two nested pairs inside the outermost one, on a
    core that starts with interrupts enabled. *)
Lemma pushcli_popcli_matched_witness :
  exists s' evs,
    @run_ops cli_op (@run_cli_op sv6_consts)
      (Pushcli :: [Pushcli; Pushcli; Popcli; Popcli] ++ [Popcli])
      (machine (frame 0 0 0 0) None) = Ok tt s' /\
    ncli (mycpu s') = 0 /\
    intr_on s' = intr_on (machine (frame 0 0 0 0) None) /\
    (EvSti ∉ evs) /\
    trace s' = trace (machine (frame 0 0 0 0) None) ++ evs ++
               (if intr_on (machine (frame 0 0 0 0) None) then [EvSti] else []).
Proof.
  apply (@pushcli_popcli_matched sv6_consts).
  - vm_compute. discriminate.
  - reflexivity.
  - reflexivity.
Defined.

(** C2 as stated fails: with a handler registered on the keyboard line, a
    keyboard interrupt is served by the keyboard [case] of [trap]; the
    handler of the chain is not invoked. *)
Lemma device_irq_claim_counterexample :
  ~ @device_irq_claim sv6_consts quiet_env false kbd_shared_machine.
Proof.
  intros Hclaim.
  destruct (Hclaim [7] false) as (pre & post & Hem & _ & Hall & _).
  - vm_compute. discriminate.
  - reflexivity.
  - discriminate.
  - assert (Hin : EvHandleIrq 7 ∈ pre ++ EvLapicEoi :: post).
    { apply elem_of_app. left. apply Hall. by left. }
    rewrite <- Hem in Hin. vm_compute in Hin.
    repeat (apply elem_of_cons in Hin as [Hin|Hin]; [discriminate|]).
    by apply elem_of_nil in Hin.
Qed.

(** C2 (amended) at a concrete input: line 40 shared by two handlers. *)
Lemma device_irq_chain_then_eoi_witness :
  @trap sv6_consts quiet_env false nic_shared_machine =
    Ok tt (with_trace
             (trace nic_shared_machine ++
              (EvHandleIrq <$> [8; 7]) ++ [EvLapicEoi; EvPicEoi])
             nic_shared_machine) /\
  emitted (@trap sv6_consts quiet_env false) nic_shared_machine =
    (EvHandleIrq <$> [8; 7]) ++ [EvLapicEoi; EvPicEoi].
Proof.
  apply (@device_irq_chain_then_eoi sv6_consts quiet_env
           ltac:(vm_compute; reflexivity) false nic_shared_machine [8; 7] false).
  - compute_done.
  - vm_compute. discriminate.
  - reflexivity.
  - discriminate.
Defined.

Example nic_interrupt_trace :
  emitted (@trap sv6_consts quiet_env false) nic_shared_machine =
  [EvHandleIrq 8; EvHandleIrq 7; EvLapicEoi; EvPicEoi].
Proof. vm_compute. reflexivity. Qed.

(** C1 as stated fails in three ways.  With a trap handler registered for
    the page-fault vector, a refused SIGSEGV is followed by the registered
    handler and a normal return; the process is not marked killed.  At the
    fault address 123 of the timing probe neither the resolver nor the
    signal is tried: the trap returns to the instruction 8 bytes on.  On a
    console that has panicked, a refused SIGSEGV is followed by the kill
    message, which never returns; the process is not marked killed. *)
Lemma pagefault_failure_claim_counterexample :
  ~ @pagefault_failure_claim sv6_consts segv_env false segv_hooked_machine /\
  ~ @pagefault_failure_claim sv6_consts probe_env false segv_machine /\
  ~ @pagefault_failure_claim sv6_consts segv_env false segv_panicked_machine.
Proof.
  split; [|split].
  - intros Hclaim. destruct Hclaim as (_ & Hrefused & _).
    + reflexivity.
    + reflexivity.
    + vm_compute. discriminate.
    + vm_compute. reflexivity.
    + eexists. reflexivity.
    + vm_compute. reflexivity.
    + destruct (Hrefused eq_refl) as (s' & p' & R & _).
      vm_compute in R. discriminate.
  - intros Hclaim. destruct Hclaim as (Hattempt & _).
    + reflexivity.
    + reflexivity.
    + vm_compute. discriminate.
    + vm_compute. reflexivity.
    + eexists. reflexivity.
    + vm_compute. reflexivity.
    + vm_compute in Hattempt. by apply elem_of_nil in Hattempt.
  - intros Hclaim. destruct Hclaim as (_ & Hrefused & _).
    + reflexivity.
    + reflexivity.
    + vm_compute. discriminate.
    + vm_compute. reflexivity.
    + eexists. reflexivity.
    + vm_compute. reflexivity.
    + destruct (Hrefused eq_refl) as (s' & p' & R & _).
      vm_compute in R. discriminate.
Qed.

Example segv_hooked_result :
  exists s', @trap sv6_consts segv_env false segv_hooked_machine = Ok tt s' /\
             (killed <$> myproc s') = Some 0 /\
             emitted (@trap sv6_consts segv_env false) segv_hooked_machine =
             [EvSti; EvPagefault 0x1000 4 (-1); EvCli; EvDeliverSignal 11 false;
              EvCli; EvSwitchToKstack; EvTrapHandler 0xffffffffc0200000 0].
Proof. eexists. vm_compute. repeat split. Qed.

Example segv_probe_result :
  exists s', @trap sv6_consts probe_env false segv_machine = Ok tt s' /\
             (killed <$> myproc s') = Some 0 /\
             rip (tf s') = rip (tf segv_machine) + 8 /\
             emitted (@trap sv6_consts probe_env false) segv_machine = [].
Proof. eexists. vm_compute. repeat split. Qed.

Example segv_panicked_result :
  exists s', @trap sv6_consts segv_env false segv_panicked_machine
               = Stop ConsoleSpin s' /\
             (killed <$> myproc s') = Some 0 /\
             emitted (@trap sv6_consts segv_env false) segv_panicked_machine =
             [EvSti; EvPagefault 0x1000 4 (-1); EvCli; EvDeliverSignal 11 false;
              EvCli].
Proof. eexists. vm_compute. repeat split. Qed.

(** C1 (amended) at a concrete input: no handler registered, the signal
    refused, the console alive. *)
Lemma pagefault_failure_signalled_witness :
  EvDeliverSignal (@SIGSEGV sv6_consts) false
    ∈ emitted (@trap sv6_consts segv_env false) segv_machine /\
  exists s' p', @trap sv6_consts segv_env false segv_machine = Stop ProcExit s' /\
                myproc s' = Some p' /\ killed p' = 1.
Proof.
  destruct (@pagefault_failure_signalled sv6_consts segv_env
              ltac:(vm_compute; reflexivity)
              ltac:(vm_compute; discriminate)
              ltac:(compute_done)
              false segv_machine eq_refl)
    as (Hattempt & Hrefused & _).
  - vm_compute. discriminate.
  - reflexivity.
  - reflexivity.
  - vm_compute. discriminate.
  - vm_compute. reflexivity.
  - eexists. reflexivity.
  - vm_compute. reflexivity.
  - split; [exact Hattempt | exact (Hrefused eq_refl eq_refl)].
Defined.

(** C4 as stated fails: on a console that has panicked, a
    general-protection fault in a user process stops the core in the print
    of the kill message; the process is not marked killed and the trap does
    not return. *)
Lemma unhandled_trap_claim_counterexample :
  ~ @unhandled_trap_claim sv6_consts quiet_env false gp_user_panicked.
Proof.
  intros Hclaim. destruct Hclaim as [_ Huser].
  - unfold no_installed_handler. cbv zeta. split; [|split; [|split; [|split]]].
    + compute_done.
    + vm_compute. discriminate.
    + vm_compute. discriminate.
    + vm_compute. intros Hle. exfalso. apply Hle. reflexivity.
    + reflexivity.
  - destruct (Huser user_proc eq_refl) as (s' & p' & [R|R] & _).
    + vm_compute. discriminate.
    + vm_compute in R. discriminate.
    + vm_compute in R. discriminate.
Qed.

Example gp_user_panicked_result :
  exists s', @trap sv6_consts quiet_env false gp_user_panicked = Stop ConsoleSpin s' /\
             (killed <$> myproc s') = Some 0 /\
             emitted (@trap sv6_consts quiet_env false) gp_user_panicked = [EvCli].
Proof. eexists. vm_compute. repeat split. Qed.

(** C4 (amended) at concrete inputs: a general-protection fault in kernel
    mode and in a user process, the console alive. *)
Lemma unhandled_trap_policy_witness :
  (exists s' name,
     @trap sv6_consts quiet_env false gp_kernel_machine = Stop KernelTrap s' /\
     panicked s' = true /\
     console.printtrap_trapname (trapno (tf gp_kernel_machine)) = Some name /\
     emitted (@trap sv6_consts quiet_env false) gp_kernel_machine =
       [EvCli; EvCprintf msg_kernel;
        EvCprintf (msg_trap (trapno (tf gp_kernel_machine)) name)] ++
       (if possible_stack_overflow gp_kernel_machine
        then [EvCprintf msg_stack_overflow] else []) ++
       printed_frames msg_trace_line
         (take 10 (getcallerpcs quiet_env (gpr (tf gp_kernel_machine) RBP) 10)) ++
       (if truthy (Z.land (debugctl quiet_env) 1) then [EvCprintf msg_last_branch]
        else [])) /\
  (exists evs,
     forallb is_yield evs = true /\
     let s' := with_trace
                 (trace gp_user_machine ++
                  EvCprintf (msg_kill_proc (trapno (tf gp_user_machine))) :: evs)
                 (with_proc (set_killed 1) gp_user_machine) in
     @trap sv6_consts quiet_env false gp_user_machine = Ok tt s' \/
     @trap sv6_consts quiet_env false gp_user_machine = Stop ProcExit s').
Proof.
  assert (Hno : forall c, @no_installed_handler sv6_consts quiet_env
                            (machine (frame 13 0 c 0) (Some user_proc))).
  { intros c. unfold no_installed_handler. cbv zeta.
    split; [|split; [|split; [|split]]].
    - compute_done.
    - vm_compute. discriminate.
    - intros Heq. vm_compute in Heq. discriminate.
    - vm_compute. intros Hle. exfalso. apply Hle. reflexivity.
    - reflexivity. }
  split.
  - refine (proj1 (proj1 (@unhandled_trap_policy sv6_consts quiet_env false
                            gp_kernel_machine (Hno 0) _) _) eq_refl _).
    + intros Heq. vm_compute in Heq. discriminate.
    + right. reflexivity.
    + cbn. lia.
  - refine (proj1 (proj2 (@unhandled_trap_policy sv6_consts quiet_env false
                            gp_user_machine (Hno 3) _) user_proc eq_refl _) eq_refl).
    + intros Heq. vm_compute in Heq. discriminate.
    + vm_compute. discriminate.
Defined.

(** The outcomes of C4 on concrete runs, and the two inputs that the
    amended statement leaves out: an interrupt on vector 40 without a
    handler, taken in kernel mode, makes [printtrap] read past the end of
    [trapnames]; an illegal instruction of a user process within 8 bytes of
    the end of its mapping makes [trap] fault in kernel mode. *)
Example gp_kernel_halts :
  exists s', @trap sv6_consts quiet_env false gp_kernel_machine = Stop KernelTrap s' /\
             panicked s' = true /\
             emitted (@trap sv6_consts quiet_env false) gp_kernel_machine =
             [EvCli; EvCprintf msg_kernel; EvCprintf (msg_trap 13 "#GP");
              EvCprintf msg_stack_overflow].
Proof. eexists. vm_compute. repeat split. Qed.

Example gp_user_killed :
  exists s', @trap sv6_consts quiet_env false gp_user_machine = Stop ProcExit s' /\
             (killed <$> myproc s') = Some 1 /\ panicked s' = false.
Proof. eexists. vm_compute. repeat split. Qed.

Example stray_irq_reads_past_trapnames :
  exists s', @trap sv6_consts quiet_env false stray_irq_machine = Stop Undefined s' /\
             emitted (@trap sv6_consts quiet_env false) stray_irq_machine =
             [EvCli; EvCprintf msg_kernel].
Proof. eexists. vm_compute. repeat split. Qed.

Example ud_user_faults_in_kernel :
  exists s', @trap sv6_consts unreadable_env false ud_user_machine
               = Stop (NestedFault 0x400ffe) s' /\
             (killed <$> myproc s') = Some 0.
Proof. eexists. vm_compute. repeat split. Qed.

(** C7 as stated fails: on a console that has panicked, the LAPIC error
    interrupt stops in its print and no end-of-interrupt is issued. *)
Lemma lapic_vectors_claim_counterexample :
  ~ @lapic_vectors_claim sv6_consts quiet_env false lapic_error_panicked.
Proof.
  intros [_ Heoi].
  assert (Hin : EvLapicEoi ∈
            emitted (@trap sv6_consts quiet_env false) lapic_error_panicked).
  { apply Heoi. vm_compute. repeat (first [by left | right]). }
  vm_compute in Hin.
  repeat (apply elem_of_cons in Hin as [Hin|Hin]; [discriminate|]).
  by apply elem_of_nil in Hin.
Qed.

Example lapic_error_panicked_result :
  exists s', @trap sv6_consts quiet_env false lapic_error_panicked
               = Stop ConsoleSpin s' /\
             emitted (@trap sv6_consts quiet_env false) lapic_error_panicked = [EvCli].
Proof. eexists. vm_compute. repeat split. Qed.

(** C7 (amended) at concrete inputs, the console alive: the spurious
    vector 63, the TLB shootdown vector 65 and the LAPIC error vector 51. *)
Lemma spurious_not_acknowledged_witness :
  (exists ys, forallb is_yield ys = true /\
     emitted (@trap sv6_consts quiet_env false) spurious_machine =
       EvCprintf msg_spurious :: ys) /\
  (exists ys, forallb is_yield ys = true /\
     emitted (@trap sv6_consts quiet_env false) (machine (frame 65 0 0 0) None) =
       EvLapicEoi :: [EvTlbShootdown] ++ ys) /\
  (exists ys, forallb is_yield ys = true /\
     emitted (@trap sv6_consts quiet_env false) (machine (frame 51 0 0 0) None) =
       EvCprintf msg_lapic_error :: EvLapicEoi :: ys).
Proof.
  split; [|split].
  - apply (proj1 (proj1 (@spurious_not_acknowledged sv6_consts quiet_env
                           ltac:(compute_done) false spurious_machine) eq_refl)).
    reflexivity.
  - apply (proj1 (proj2 (@spurious_not_acknowledged sv6_consts quiet_env
                           ltac:(compute_done) false
                           (machine (frame 65 0 0 0) None)))).
    reflexivity.
  - apply (proj1 (proj2 (proj2 (@spurious_not_acknowledged sv6_consts quiet_env
                                  ltac:(compute_done) false
                                  (machine (frame 51 0 0 0) None))) eq_refl)).
    reflexivity.
Defined.

Example spurious_trace :
  emitted (@trap sv6_consts quiet_env false) spurious_machine = [EvCprintf msg_spurious].
Proof. vm_compute. reflexivity. Qed.

(** C8 on a failing input: [popcnt %rax, %rcx] with 7 in [%rax] traps in
    kernel text.  The emulation is entered, picks [%rax] as source and
    [%rcx] as destination, advances the instruction pointer by 5 and
    returns; [%rcx] then holds 0, not the population count 3 of [%rax]. *)
Theorem popcnt_emulation_failing_input :
  let instr := mem64 popcnt_env (rip (tf popcnt_machine)) in
  let s' := final (@trap sv6_consts popcnt_env false popcnt_machine) in
  is_popcnt instr = true /\
  popcnt_reg instr = 0 /\ popcnt_rm instr = 1 /\
  regs_init !! 0%nat = Some (mk_regptr RAX 0) /\
  regs_init !! 1%nat = Some (mk_regptr RCX 0) /\
  @trap sv6_consts popcnt_env false popcnt_machine = Ok tt s' /\
  rip (tf s') = rip (tf popcnt_machine) + 5 /\
  gpr (tf s') RAX = 7 /\
  popcount64 7 = 3 /\
  gpr (tf s') RCX = 0.
Proof. vm_compute. repeat split. Qed.

(** C5 as stated fails: a timer tick at suppression count 2 that has to
    print on a console that has panicked stops in the print; the tick is
    not counted as blocked and the request flag is not set. *)
Lemma deferred_tick_claim_counterexample :
  ~ @deferred_tick_claim sv6_consts quiet_env false suppressed_panicked_machine.
Proof.
  intros Hclaim. destruct Hclaim as (st' & evs & R & _).
  - reflexivity.
  - vm_compute. discriminate.
  - vm_compute in R. discriminate.
Qed.

Example suppressed_panicked_result :
  exists s', @trap sv6_consts quiet_env false suppressed_panicked_machine
               = Stop ConsoleSpin s' /\
             no_sched_count (mycpu s') = 2 /\
             emitted (@trap sv6_consts quiet_env false) suppressed_panicked_machine
               = [EvKstat sched_tick_count; EvCli].
Proof. eexists. vm_compute. repeat split. Qed.

(** C5 (amended) at concrete inputs: a tick at suppression count 2, a
    scope with a nested scope and two ticks inside, and the tick that has
    to print on a console that has panicked. *)
Lemma deferred_yield_honored_once_witness :
  (exists st' evs,
     @trap sv6_consts quiet_env false suppressed_machine = Ok tt st' /\
     no_sched_count (mycpu st') =
       Z.lor (no_sched_count (mycpu suppressed_machine))
             (@NO_SCHED_COUNT_YIELD_REQUESTED sv6_consts) /\
     emitted (@trap sv6_consts quiet_env false) suppressed_machine =
       evs ++ [EvKstat sched_blocked_tick_count] /\
     forallb (fun e => negb (is_yield e)) evs = true) /\
  (exists s' evs,
     run_ops (@run_crit_op sv6_consts quiet_env)
             (CEnter :: scope_body ++ [CExit]) scope_machine = Ok tt s' /\
     no_sched_count (mycpu s') = 0 /\
     forallb (fun e => negb (is_yield e)) evs = true /\
     trace s' = trace scope_machine ++ evs ++
                (if existsb is_tick scope_body
                 then [EvKstat sched_delayed_tick_count; EvYield 0] else [])) /\
  (exists st',
     @trap sv6_consts quiet_env false suppressed_panicked_machine
       = Stop ConsoleSpin st' /\
     no_sched_count (mycpu st') = no_sched_count (mycpu suppressed_panicked_machine) /\
     emitted (@trap sv6_consts quiet_env false) suppressed_panicked_machine
       = [EvKstat sched_tick_count; EvCli]).
Proof.
  destruct (@deferred_yield_honored_once sv6_consts quiet_env 63
              ltac:(lia) eq_refl false suppressed_machine scope_body scope_machine)
    as (Htick & Hscope & _).
  destruct (@deferred_yield_honored_once sv6_consts quiet_env 63
              ltac:(lia) eq_refl false suppressed_panicked_machine [] scope_machine)
    as (_ & _ & Hfrozen).
  split; [|split].
  - apply Htick; [reflexivity | vm_compute; discriminate | left; reflexivity].
  - apply Hscope; [reflexivity | reflexivity | reflexivity | vm_compute; reflexivity
                  | left; reflexivity].
  - apply Hfrozen; [reflexivity | vm_compute; discriminate | reflexivity].
Defined.

Example scope_trace :
  trace (final (run_ops (@run_crit_op sv6_consts quiet_env)
                        (CEnter :: scope_body ++ [CExit]) scope_machine)) =
  [EvKstat sched_tick_count; EvRefcacheTick; EvLapicEoi;
   EvKstat sched_blocked_tick_count;
   EvKstat sched_tick_count; EvRefcacheTick; EvLapicEoi;
   EvKstat sched_blocked_tick_count;
   EvKstat sched_delayed_tick_count; EvYield 0].
Proof. vm_compute. reflexivity. Qed.

(** ** More on the IRQ registry *)

Section IrqChoice.
Context `{K : kconsts}.
Variable valid : irq -> bool.

(** The search from the top stays inside the table and stops at the
    highest free line. *)
Lemma first_free_from_top_highest info n :
  (n <= length info)%nat ->
  exists g, first_free_from_top info n = Some g /\
    ((g = -1 /\ forall k, 0 <= k < Z.of_nat n -> line_in_use info k = true) \/
     (0 <= g < Z.of_nat n /\ line_in_use info g = false /\
      forall k, g < k < Z.of_nat n -> line_in_use info k = true)).
Proof.
  induction n as [|n IH]; intros Hn; cbn [first_free_from_top].
  - exists (-1). split; [reflexivity|]. left. split; [reflexivity|]. lia.
  - destruct (lookup_lt_is_Some_2 info n ltac:(lia)) as [e He]. rewrite He.
    assert (Hline : line_in_use info (Z.of_nat n) = in_use e).
    { unfold line_in_use. destruct (Z.leb_spec 0 (Z.of_nat n)); [|lia].
      rewrite Nat2Z.id, He. reflexivity. }
    destruct (in_use e) eqn:Hu.
    + destruct (IH ltac:(lia)) as (g & R & Hg). exists g. split; [exact R|].
      destruct Hg as [[-> Hall]|(Hr & Hfree & Hall)].
      * left. split; [reflexivity|]. intros k Hk.
        destruct (decide (k = Z.of_nat n)) as [->|?]; [exact Hline | apply Hall; lia].
      * right. split; [lia|]. split; [exact Hfree|]. intros k Hk.
        destruct (decide (k = Z.of_nat n)) as [->|?]; [exact Hline | apply Hall; lia].
    + exists (Z.of_nat n). split; [reflexivity|]. right.
      split; [lia|]. split; [exact Hline|]. lia.
Qed.

(** The search through the accept list stops at its first free entry. *)
Lemma first_free_accepted_first info accept :
  (forall g, g ∈ accept -> 0 <= g < Z.of_nat (length info)) ->
  exists g, first_free_accepted info accept = Some g /\
    ((g = -1 /\ forall k, k ∈ accept -> line_in_use info k = true) \/
     (line_in_use info g = false /\
      exists pre post, accept = pre ++ g :: post /\
        forall k, k ∈ pre -> line_in_use info k = true)).
Proof.
  induction accept as [|a accept IH]; intros Hin; cbn [first_free_accepted].
  - exists (-1). split; [reflexivity|]. left. split; [reflexivity|].
    intros k Hk. by apply elem_of_nil in Hk.
  - pose proof (Hin a ltac:(left)) as Ha.
    destruct (Z.leb_spec 0 a); [|lia].
    destruct (lookup_lt_is_Some_2 info (Z.to_nat a) ltac:(lia)) as [e He].
    rewrite He.
    assert (Hline : line_in_use info a = in_use e).
    { unfold line_in_use. destruct (Z.leb_spec 0 a); [|lia].
      rewrite He. reflexivity. }
    destruct (in_use e) eqn:Hu.
    + destruct IH as (g & R & Hg); [intros g Hg; apply Hin; by right|].
      exists g. split; [exact R|].
      destruct Hg as [[-> Hall]|(Hfree & pre & post & -> & Hall)].
      * left. split; [reflexivity|]. intros k Hk.
        apply elem_of_cons in Hk as [->|Hk]; [exact Hline | by apply Hall].
      * right. split; [exact Hfree|]. exists (a :: pre), post.
        split; [reflexivity|]. intros k Hk.
        apply elem_of_cons in Hk as [->|Hk]; [exact Hline | by apply Hall].
    + exists a. split; [reflexivity|]. right. split; [exact Hline|].
      exists [], accept. split; [reflexivity|].
      intros k Hk. by apply elem_of_nil in Hk.
Qed.

(** X1: [irq::reserve] without an accept list always returns.  It
    returns false, leaving the registry as it was, exactly when every line
    of the table is in use; otherwise it grants the highest-numbered free
    line. *)
Theorem reserve_takes_highest_free (this : irq) (s : kstate) :
  valid this = false ->
  exists b this' s',
    reserve valid this None s = Ok (b, this') s' /\
    if b then
      0 <= gsi this' < Z.of_nat (length (irq_info s)) /\
      line_in_use (irq_info s) (gsi this') = false /\
      (forall g, gsi this' < g < Z.of_nat (length (irq_info s)) ->
                 line_in_use (irq_info s) g = true)
    else
      s' = s /\ this' = this /\
      forall g, 0 <= g < Z.of_nat (length (irq_info s)) ->
                line_in_use (irq_info s) g = true.
Proof.
  intros Hv. unfold reserve. unfold bind at 1. rewrite Hv.
  unfold ret at 1, bind at 1, get at 1.
  destruct (first_free_from_top_highest (irq_info s) (length (irq_info s)) ltac:(lia))
    as (g & R & Hg).
  rewrite R.
  destruct Hg as [[-> Hall]|(Hr & Hfree & Hall)].
  - change (-1 =? -1) with true. cbv iota. exists false, this, s. auto.
  - destruct (Z.eqb_spec g (-1)); [lia|].
    pose proof (mark_in_use_spec g s) as Hm.
    destruct (mark_in_use g s) as [[] s1|w s1] eqn:Hrun;
      [|destruct Hm as [_ Hm]; exfalso; apply Hm; lia].
    rewrite (bind_Ok _ _ _ _ _ Hrun). unfold ret.
    eexists true, _, s1. split; [reflexivity|]. cbn [gsi]. auto.
Qed.

(** X2: [irq::reserve] with an accept list whose entries are lines of
    the table returns false, leaving the registry as it was, exactly when
    every accepted line is in use; otherwise it grants the first entry of
    the list that is free, whatever comes after it. *)
Theorem reserve_takes_first_accepted (this : irq) (accept : list Z) (s : kstate) :
  valid this = false ->
  (forall g, g ∈ accept -> 0 <= g < Z.of_nat (length (irq_info s))) ->
  exists b this' s',
    reserve valid this (Some accept) s = Ok (b, this') s' /\
    if b then
      line_in_use (irq_info s) (gsi this') = false /\
      line_in_use (irq_info s') (gsi this') = true /\
      exists pre post, accept = pre ++ gsi this' :: post /\
        forall g, g ∈ pre -> line_in_use (irq_info s) g = true
    else
      s' = s /\ this' = this /\
      forall g, g ∈ accept -> line_in_use (irq_info s) g = true.
Proof.
  intros Hv Hin. unfold reserve. unfold bind at 1. rewrite Hv.
  unfold ret at 1, bind at 1, get at 1.
  destruct (first_free_accepted_first (irq_info s) accept Hin) as (g & R & Hg).
  rewrite R.
  destruct Hg as [[-> Hall]|(Hfree & pre & post & Hacc & Hall)].
  - change (-1 =? -1) with true. cbv iota. exists false, this, s. auto.
  - assert (Hr : 0 <= g < Z.of_nat (length (irq_info s))).
    { apply Hin. rewrite Hacc, elem_of_app. right. by left. }
    destruct (Z.eqb_spec g (-1)); [lia|].
    pose proof (mark_in_use_spec g s) as Hm.
    destruct (mark_in_use g s) as [[] s1|w s1] eqn:Hrun;
      [|destruct Hm as [_ Hm]; exfalso; apply Hm; lia].
    destruct Hm as (_ & _ & Hm).
    rewrite (bind_Ok _ _ _ _ _ Hrun). unfold ret.
    eexists true, _, s1. split; [reflexivity|]. cbn [gsi].
    split; [exact Hfree|]. split; [rewrite Hm, Z.eqb_refl; reflexivity|].
    exists pre, post. auto.
Qed.

End IrqChoice.

(** ** More on the trap dispatcher *)

Section TrapMore.
Context `{K : kconsts}.
Variable E : env.

(** Whatever path the code after the [switch] takes, it does not return
    to a killed process in user mode. *)
Lemma trap_epilogue_safe s s' :
  trap_epilogue E s = Ok tt s' ->
  forall p, myproc s' = Some p -> Z.land (cs (tf s')) 3 = 3 -> killed p = 0.
Proof.
  destruct s as [c i [p|] t ii rh rc sm ec et pk nl ns gb tr];
    unfold trap_epilogue, procexit, yield; run_monad.
  2:{ intros [= <-] p Hp. discriminate. }
  assert (Hsafe : truthy (killed p) && (Z.land (cs t) 3 =? 3) = false ->
                  Z.land (cs t) 3 = 3 -> killed p = 0).
  { unfold truthy. intros Hk Hcs. rewrite Hcs in Hk.
    destruct (Z.eqb_spec (killed p) 0); [assumption | discriminate]. }
  destruct (truthy (killed p) && (Z.land (cs t) 3 =? 3)) eqn:Hk1;
    run_monad; [discriminate|].
  destruct (bool_decide (get_state p = RUNNING)
            && ((trapno t =? T_IRQ0 + IRQ_TIMER) || yield_ p)); run_monad.
  - destruct (killed_in_yield E); run_monad.
    + change (truthy 1) with true. cbn [andb].
      destruct (Z.eqb_spec (Z.land (cs t) 3) 3); [discriminate|].
      intros [= <-] p' _ Hcs. contradiction.
    + rewrite Hk1. intros [= <-] p' [= <-] Hcs. auto.
  - rewrite Hk1. intros [= <-] p' [= <-] Hcs. auto.
Qed.

Lemma bind_returns {A} (m : M A) (k : M unit) (P : kstate -> Prop) s s' :
  (forall s1, k s1 = Ok tt s' -> P s') ->
  bind m (fun _ => k) s = Ok tt s' -> P s'.
Proof.
  intros Hk. unfold bind. destruct (m s) as [a s1|w s1]; [apply Hk | discriminate].
Qed.

Lemma printed_frames_quiet line pcs : forallb quiet (printed_frames line pcs) = true.
Proof.
  induction pcs as [|p pcs IH]; [reflexivity|].
  cbn [printed_frames]. destruct (truthy p); [exact IH | reflexivity].
Qed.

(** A timer tick outside scheduler-suppressed scopes, when its print (if
    one is requested) finds the console alive: after the bookkeeping and
    the end-of-interrupt, [trap] goes on to the code after the [switch]. *)
Lemma trap_timer_running s :
  no_sched_count (mycpu s) = 0 ->
  timer_printpc (mycpu s) = 0 \/ panicked s = false ->
  exists s1 evs,
    trap_timer E s = trap_epilogue E s1 /\
    trace s1 = trace s ++ evs ++ [EvLapicEoi] /\
    forallb quiet evs = true /\
    myproc s1 = myproc s /\ cs (tf s1) = cs (tf s) /\
    trapno (tf s1) = trapno (tf s) /\
    no_sched_count (mycpu s1) = 0.
Proof.
  intros Hn Hq.
  destruct s as [[cid cncli cint cnsc ctp] i mp t ii rh rc sm ec et pk nl ns gb tr].
  cbn [mycpu no_sched_count timer_printpc panicked] in *. subst cnsc.
  assert (Hcases : truthy ctp = false \/ (truthy ctp = true /\ pk = false)).
  { unfold truthy. destruct (Z.eqb_spec ctp 0) as [?|Hne]; [by left|].
    right. split; [reflexivity|]. destruct Hq; [contradiction | assumption]. }
  unfold trap_timer, lapiceoi, record_entry_time, cprintf. run_monad.
  destruct Hcases as [-> | [-> ->]]; run_monad.
  all: repeat (first [ rewrite print_pcs_spec by reflexivity
                     | progress change (truthy 0) with false
                     | match goal with
                       | |- context [if ?b then _ else _] => destruct b
                       end ];
               run_monad).
  all: kstate_norm.
  all: eexists _, _; (split; [reflexivity|]); kstate_norm;
    destruct t as [tn te tcs trip tg tp0 tp1]; cbn [cs trapno set_rip];
    split;
    [ etransitivity; [|symmetry; apply app_assoc]; f_equal;
      rewrite <- !app_assoc; reflexivity
    | split; [rewrite ?forallb_app, ?printed_frames_quiet; reflexivity|];
      repeat split ].
Qed.

(** A trap on one of the other vectors of the [switch] does what its
    [case] says and goes on to the code after the [switch], unless its print
    stops on a console that has panicked; the current process and the trap
    frame are as on entry. *)
Lemma labelled_trap_shape had_secrets s :
  trapno (tf s) ∈ case_labels ->
  trapno (tf s) <> T_IRQ0 + IRQ_TIMER ->
  (exists s1, trap E had_secrets s = trap_epilogue E s1 /\
              myproc s1 = myproc s /\ cs (tf s1) = cs (tf s)) \/
  (panicked s = true /\ exists s', trap E had_secrets s = Stop ConsoleSpin s').
Proof.
  intros Hin Ht.
  cut (forall r, trap E had_secrets s = r ->
         (exists s1, r = trap_epilogue E s1 /\
                     myproc s1 = myproc s /\ cs (tf s1) = cs (tf s)) \/
         (panicked s = true /\ exists s', r = Stop ConsoleSpin s')).
  { intros Hr. exact (Hr _ eq_refl). }
  intros r. unfold trap. unfold bind at 1, get at 1. cbv beta zeta.
  destruct (Z.eqb_spec (trapno (tf s)) (T_IRQ0 + IRQ_TIMER)) as [?|_];
    [contradiction|].
  unfold lapiceoi, piceoi.
  repeat match goal with
  | |- context [?a =? ?b] =>
      destruct (Z.eqb_spec a b) as [_|?];
      cbn [orb];
      [ intros <-;
        first
          [ left; eexists; split;
            [unfold bind, emit, modify; reflexivity | split; reflexivity]
          | destruct (panicked s) eqn:Hp;
            [ right; split; [reflexivity|];
              rewrite (bind_Stop _ _ _ _ _ (cprintf_panicked _ s Hp)); eauto
            | left; rewrite (bind_Ok _ _ _ _ _ (cprintf_live _ s Hp));
              eexists; split;
              [unfold bind, emit, modify; reflexivity | split; reflexivity] ] ]
      |]
  end.
  exfalso. unfold case_labels in Hin.
  repeat (apply elem_of_cons in Hin as [Hin|Hin]; [contradiction|]).
  by apply elem_of_nil in Hin.
Qed.

(** X3: on the vectors of its [switch] (for the timer tick: outside
    scheduler-suppressed scopes) [trap] never returns to user mode in a
    process that is marked killed.  Whenever such a trap returns, the
    current process is not killed or the trap frame is not a user-mode one;
    and a process that is marked killed when the trap is taken in user mode
    is made to exit, unless a print of the trap stops the core on a console
    that has panicked. *)
Theorem labelled_trap_never_resumes_killed_user
    (had_secrets : bool) (s : kstate) :
  trapno (tf s) ∈ case_labels ->
  (trapno (tf s) = T_IRQ0 + IRQ_TIMER -> no_sched_count (mycpu s) = 0) ->
  (forall s', trap E had_secrets s = Ok tt s' ->
     forall p, myproc s' = Some p -> Z.land (cs (tf s')) 3 = 3 -> killed p = 0) /\
  (forall p, myproc s = Some p -> killed p <> 0 -> Z.land (cs (tf s)) 3 = 3 ->
     exists s', trap E had_secrets s = Stop ProcExit s' \/
                (panicked s = true /\ trap E had_secrets s = Stop ConsoleSpin s')).
Proof.
  intros Hin Hn.
  assert (Hshape :
    (exists s1, trap E had_secrets s = trap_epilogue E s1 /\
                myproc s1 = myproc s /\ cs (tf s1) = cs (tf s)) \/
    (panicked s = true /\ exists s', trap E had_secrets s = Stop ConsoleSpin s')).
  { destruct (Z.eq_dec (trapno (tf s)) (T_IRQ0 + IRQ_TIMER)) as [Ht|Ht].
    - rewrite (trap_is_trap_timer E had_secrets s Ht).
      destruct (Z.eq_dec (timer_printpc (mycpu s)) 0) as [Hq|Hq].
      + destruct (trap_timer_running s (Hn Ht) (or_introl Hq))
          as (s1 & evs & R & _ & _ & Hp1 & Hcs1 & _).
        left. exists s1. auto.
      + destruct (panicked s) eqn:Hp.
        * right. split; [reflexivity|].
          rewrite (trap_timer_frozen E s Hq Hp). eauto.
        * destruct (trap_timer_running s (Hn Ht) (or_intror Hp))
            as (s1 & evs & R & _ & _ & Hp1 & Hcs1 & _).
          left. exists s1. auto.
    - exact (labelled_trap_shape had_secrets s Hin Ht). }
  split.
  - intros s' R. destruct Hshape as [(s1 & R1 & _)|(_ & s2 & R2)].
    + rewrite R1 in R. eapply trap_epilogue_safe, R.
    + rewrite R2 in R. discriminate.
  - intros p Hp Hk Hcs. destruct Hshape as [(s1 & R1 & Hp1 & Hcs1)|(Hpk & s2 & R2)].
    + exists s1. left. rewrite R1.
      apply (trap_epilogue_killed_user E s1 p); [congruence | exact Hk | congruence].
    + exists s2. right. auto.
Qed.



(** X5: an interrupt of a legacy device (IDE disk, keyboard, mouse,
    serial ports) calls the driver routine first and acknowledges the
    interrupt afterwards, at the local APIC and then at the PIC; after that
    [trap] only runs the scheduling code that follows the [switch]. *)
Theorem legacy_device_acknowledged (had_secrets : bool) (s : kstate) (d : event) :
  NoDup case_labels ->
  legacy_driver (trapno (tf s)) = Some d ->
  exists ys,
    forallb is_yield ys = true /\
    emitted (trap E had_secrets) s = d :: EvLapicEoi :: EvPicEoi :: ys.
Proof.
  intros Hd Hdrv. distinct_labels Hd.
  assert (Hrun : exists ys,
    trace (final (trap E had_secrets s)) =
      trace s ++ d :: EvLapicEoi :: EvPicEoi :: ys /\ forallb is_yield ys = true).
  { unfold legacy_driver in Hdrv. unfold trap, lapiceoi, piceoi. run_monad.
    repeat match type of Hdrv with
    | context [?a =? ?b] =>
        destruct (Z.eqb_spec a b) as [Heq|?]; cbn [orb] in Hdrv;
        [injection Hdrv as <-; rewrite Heq; repeat eqb_false;
         rewrite ?Z.eqb_refl, ?orb_true_r; run_monad;
         match goal with |- context [trap_epilogue E ?s1] =>
           destruct (trap_epilogue_trace E s1) as (ys & T & Y) end;
         exists ys; (split; [|exact Y]); rewrite T; cbn [trace with_trace];
         rewrite <- !app_assoc; reflexivity|]
    end.
    discriminate. }
  destruct Hrun as (ys & T & Y). exists ys. split; [exact Y|].
  apply emitted_app, T.
Qed.

End TrapMore.

Section HandlerChain.
Context `{K : kconsts}.
Variable E : env.
Variable valid : irq -> bool.

(** X6: a handler registered on an IRQ line is put in front of the
    chain of that line: at the next interrupt on the vector of the line
    (one that [trap] has no [case] for) the new handler is called first,
    then the handlers registered before it in their old order, then the two
    end-of-interrupts.  Registering does not change which lines are in
    use. *)
Theorem newest_handler_runs_first
    (had_secrets : bool) (this : irq) (h : Z) (chain : list Z) (u : bool)
    (s : kstate) :
  valid this = true ->
  vector this = gsi this + T_IRQ0 ->
  0 <= gsi this ->
  irq_info s !! Z.to_nat (gsi this) = Some (mk_irq_info chain u) ->
  T_ILLOP < T_IRQ0 ->
  vector this ∉ case_labels ->
  trapno (tf s) = vector this ->
  exists s',
    (register_handler valid this h ;; trap E had_secrets) s = Ok tt s' /\
    emitted (register_handler valid this h ;; trap E had_secrets) s =
      EvHandleIrq h :: (EvHandleIrq <$> chain) ++ [EvLapicEoi; EvPicEoi] /\
    forall g, line_in_use (irq_info s') g = line_in_use (irq_info s) g.
Proof.
  intros Hv Hvec Hg Hline Hill Hl Htn.
  set (s1 := with_irq_info
               (<[Z.to_nat (gsi this) := mk_irq_info (h :: chain) u]> (irq_info s)) s).
  assert (R1 : register_handler valid this h s = Ok tt s1).
  { unfold register_handler. unfold bind at 1. rewrite Hv.
    unfold ret at 1, bind at 1.
    destruct (Z.eqb_spec (vector this) (gsi this + T_IRQ0)); [|contradiction].
    unfold ret at 1, bind at 1, get at 1.
    destruct (Z.leb_spec 0 (gsi this)); [|lia]. rewrite Hline. reflexivity. }
  assert (R2 : trap E had_secrets s1 =
    Ok tt (with_trace (trace s1 ++ (EvHandleIrq <$> (h :: chain))
                       ++ [EvLapicEoi; EvPicEoi]) s1)).
  { apply (registered_irq_dispatch E had_secrets s1 (h :: chain) u Hill).
    - subst s1. cbn [tf with_irq_info]. rewrite Htn. exact Hl.
    - subst s1. cbn [tf with_irq_info]. lia.
    - subst s1. cbn [tf irq_info with_irq_info].
      replace (trapno (tf s) - T_IRQ0) with (gsi this) by lia.
      apply list_lookup_insert_eq. eapply lookup_lt_Some, Hline.
    - discriminate. }
  eexists. rewrite (bind_Ok _ _ _ _ _ R1). split; [exact R2|]. split.
  - apply emitted_app. rewrite (bind_Ok _ _ _ _ _ R1), R2. reflexivity.
  - intros g. cbn [irq_info with_trace]. subst s1. cbn [irq_info with_irq_info].
    unfold line_in_use. destruct (Z.leb_spec 0 g); [|reflexivity].
    destruct (decide (Z.to_nat g = Z.to_nat (gsi this))) as [Heq|Hne].
    + rewrite Heq, list_lookup_insert_eq by (eapply lookup_lt_Some, Hline).
      rewrite Hline. reflexivity.
    + rewrite list_lookup_insert_ne by congruence. reflexivity.
Qed.

End HandlerChain.

Section PagefaultMore.
Context `{K : kconsts}.
Variable E : env.

(** X7: [do_pagefault] called for a process always returns, with 0 or
    -1.  It leaves the [pushcli] depth alone, and whenever it enabled
    interrupts for the fault resolver it has disabled them again before it
    returns; otherwise the interrupt flag is as it was. *)
Theorem do_pagefault_interrupt_discipline (had_secrets : bool) (s : kstate) :
  is_Some (myproc s) ->
  exists r s',
    do_pagefault E had_secrets s = Ok r s' /\
    (r = 0 \/ r = -1) /\
    ncli (mycpu s') = ncli (mycpu s) /\
    (EvSti ∈ emitted (do_pagefault E had_secrets) s -> intr_on s' = false) /\
    (EvSti ∉ emitted (do_pagefault E had_secrets) s -> intr_on s' = intr_on s).
Proof.
  intros [p Hp].
  destruct s as [c i mp t ii rh rc sm ec et pk nl ns gb tr].
  cbn [myproc] in Hp. subst mp.
  set (s := mk_kstate c i (Some p) t ii rh rc sm ec et pk nl ns gb tr).
  assert (Hfin : forall r s' evs,
    do_pagefault E had_secrets s = Ok r s' ->
    trace s' = tr ++ evs ->
    (r = 0 \/ r = -1) ->
    ncli (mycpu s') = ncli c ->
    ((EvSti ∈ evs /\ intr_on s' = false) \/ ((EvSti ∉ evs) /\ intr_on s' = i)) ->
    exists r s',
      do_pagefault E had_secrets s = Ok r s' /\
      (r = 0 \/ r = -1) /\
      ncli (mycpu s') = ncli (mycpu s) /\
      (EvSti ∈ emitted (do_pagefault E had_secrets) s -> intr_on s' = false) /\
      (EvSti ∉ emitted (do_pagefault E had_secrets) s -> intr_on s' = intr_on s)).
  { intros r s' evs R T Hr Hn Hi. exists r, s'.
    split; [exact R|]. split; [exact Hr|]. split; [exact Hn|].
    rewrite (emitted_app _ _ evs) by (rewrite R; exact T).
    destruct Hi as [[Hin Hi]|[Hno Hi]]; split; intros;
      try contradiction; assumption. }
  subst s.
  unfold do_pagefault, sti, cli, switch_to_kstack, deref_myproc,
    record_entry_time, advance_rip in *.
  revert Hfin. run_monad. intros Hfin.
  repeat match goal with
  | |- context [if ?b then _ else _] => destruct b; revert Hfin; run_monad; intros Hfin
  end.
  all: eapply Hfin; [reflexivity | kstate_norm | auto | reflexivity | kstate_norm].
  all: try (rewrite <- ?app_assoc; cbn [app]; reflexivity).
  all: try (instantiate (1 := []); rewrite ?app_nil_r; reflexivity).
  all: first
    [ left; split; [by left | reflexivity]
    | right; split; [|reflexivity];
      intros Hin;
      repeat (apply elem_of_cons in Hin as [Hin|Hin]; [discriminate|]);
      by apply elem_of_nil in Hin ].
Qed.

(** X8: a fault in kernel mode during a guarded access to user memory
    (the process has [uaccess_] set; the address is not the address 123 of
    the timing probe and is not served by the user-fault path or the
    kernel-secrets path) always makes [do_pagefault] return 0.  Outside
    [pushcli] sections the fault resolver is consulted with interrupts
    enabled, and when it succeeds the trap frame is left alone; when it
    fails, or inside a [pushcli] section where it is not consulted at all
    and interrupts stay off, the access is aborted: [%rax] is set to all
    ones and execution resumes at [__uaccess_end]. *)
Theorem uaccess_fault_fixup (had_secrets : bool) (s : kstate) (p : proc) :
  myproc s = Some p ->
  uaccess_ p = true ->
  rcr2 E <> 123 ->
  USERTOP <= rcr2 E \/ Z.land (err (tf s)) FEC_U = 0 ->
  Z.land (cs (tf s)) 3 <> 0 \/ had_secrets = true \/ rcr2 E < KGLOBAL ->
  exists s',
    do_pagefault E had_secrets s = Ok 0 s' /\
    if (ncli (mycpu s) =? 0) && (0 <=? pagefault E (rcr2 E) (err (tf s))) then
      tf s' = tf s /\
      emitted (do_pagefault E had_secrets) s =
        [EvSti; EvPagefault (rcr2 E) (err (tf s)) (pagefault E (rcr2 E) (err (tf s)));
         EvCli]
    else
      gpr (tf s') RAX = 2^64 - 1 /\
      rip (tf s') = uaccess_end /\
      (ncli (mycpu s) <> 0 ->
       emitted (do_pagefault E had_secrets) s = [] /\ intr_on s' = intr_on s).
Proof.
  intros Hp Hu H123 Huser Hsec.
  destruct s as [c i mp t ii rh rc sm ec et pk nl ns gb tr].
  cbn [myproc tf mycpu] in *. subst mp.
  set (s := mk_kstate c i (Some p) t ii rh rc sm ec et pk nl ns gb tr).
  assert (Hc1 : ((Z.land (cs t) 3 =? 0) || bool_decide (Some p = None))
                && negb had_secrets && (KGLOBAL <=? rcr2 E) = false).
  { rewrite bool_decide_false by discriminate. rewrite orb_false_r.
    destruct Hsec as [Hcs|[->|Hlt]].
    - destruct (Z.eqb_spec (Z.land (cs t) 3) 0); [contradiction | reflexivity].
    - destruct (Z.land (cs t) 3 =? 0); reflexivity.
    - destruct (Z.leb_spec KGLOBAL (rcr2 E)); [lia|]. apply andb_false_r. }
  assert (Hc2 : (rcr2 E <? USERTOP) && truthy (Z.land (err t) FEC_U) = false).
  { destruct Huser as [Hge|Hz].
    - destruct (Z.ltb_spec (rcr2 E) USERTOP); [lia | reflexivity].
    - rewrite Hz. apply andb_false_r. }
  assert (Hfin : forall s' evs,
    do_pagefault E had_secrets s = Ok 0 s' -> trace s' = tr ++ evs ->
    (if (ncli c =? 0) && (0 <=? pagefault E (rcr2 E) (err t)) then
       tf s' = t /\
       evs = [EvSti; EvPagefault (rcr2 E) (err t) (pagefault E (rcr2 E) (err t)); EvCli]
     else
       gpr (tf s') RAX = 2^64 - 1 /\ rip (tf s') = uaccess_end /\
       (ncli c <> 0 -> evs = [] /\ intr_on s' = i)) ->
    exists s',
      do_pagefault E had_secrets s = Ok 0 s' /\
      if (ncli c =? 0) && (0 <=? pagefault E (rcr2 E) (err t)) then
        tf s' = t /\
        emitted (do_pagefault E had_secrets) s =
          [EvSti; EvPagefault (rcr2 E) (err t) (pagefault E (rcr2 E) (err t)); EvCli]
      else
        gpr (tf s') RAX = 2^64 - 1 /\ rip (tf s') = uaccess_end /\
        (ncli c <> 0 ->
         emitted (do_pagefault E had_secrets) s = [] /\ intr_on s' = i)).
  { intros s' evs R T H. exists s'. split; [exact R|].
    rewrite (emitted_app _ _ evs) by (rewrite R; exact T). exact H. }
  subst s. unfold do_pagefault, sti, cli in *.
  destruct (Z.eqb_spec (rcr2 E) 123); [contradiction|].
  revert Hfin. unfold bind at 1 2 3, get at 1 2 3. cbn [tf cs myproc mycpu err].
  rewrite Hc1, Hc2, Hu. cbn [andb]. intros Hfin.
  destruct (Z.eqb_spec (ncli c) 0) as [Hn|Hn]; revert Hfin; run_monad; intros Hfin.
  - destruct (Z.leb_spec 0 (pagefault E (rcr2 E) (err t))); revert Hfin; run_monad;
      intros Hfin; (eapply Hfin; [reflexivity | kstate_norm; rewrite <- ?app_assoc; reflexivity |]);
      kstate_norm.
    + split; reflexivity.
    + split; [|split; [reflexivity | intros; contradiction]].
      destruct t. cbn. destruct (decide (RAX = RAX)); [reflexivity | contradiction].
  - eapply (Hfin _ []); [reflexivity | kstate_norm; rewrite app_nil_r; reflexivity |].
    kstate_norm. split; [|split; [reflexivity | intros _; split; reflexivity]].
    destruct t. cbn. destruct (decide (RAX = RAX)); [reflexivity | contradiction].
Qed.

End PagefaultMore.

Section ResolvedFaults.
Context `{K : kconsts}.
Variable E : env.

(** X9: a fault in kernel mode, or without a current process, at an
    address from [KGLOBAL] on while the secrets are not mapped is resolved
    by switching to the kernel stack: [do_pagefault] returns 0 without
    consulting the fault resolver, without a signal and without touching the
    interrupt flag or the trap frame, and counts one transparent barrier
    for the current process if there is one. *)
Theorem secrets_fault_resolved (s : kstate) :
  rcr2 E <> 123 ->
  Z.land (cs (tf s)) 3 = 0 \/ myproc s = None ->
  KGLOBAL <= rcr2 E ->
  exists s' evs,
    do_pagefault E false s = Ok 0 s' /\
    emitted (do_pagefault E false) s = EvSwitchToKstack :: evs /\
    (forall e, e ∈ evs -> exists bt, e = EvWbIncrement true bt) /\
    intr_on s' = intr_on s /\ tf s' = tf s /\
    (transparent_barriers <$> myproc s') =
      ((fun p => wrap64 (transparent_barriers p + 1)) <$> myproc s).
Proof.
  intros H123 Hk Hg.
  assert (Hc : ((Z.land (cs (tf s)) 3 =? 0) || bool_decide (myproc s = None))
               && negb false && (KGLOBAL <=? rcr2 E) = true).
  { destruct (Z.leb_spec KGLOBAL (rcr2 E)); [|lia]. cbn [negb]. rewrite !andb_true_r.
    destruct Hk as [-> | Hn]; [reflexivity|].
    rewrite (bool_decide_true _ Hn). apply orb_true_r. }
  assert (Hrun : exists s' evs,
    do_pagefault E false s = Ok 0 s' /\
    trace s' = trace s ++ EvSwitchToKstack :: evs /\
    (forall e, e ∈ evs -> exists bt, e = EvWbIncrement true bt) /\
    intr_on s' = intr_on s /\ tf s' = tf s /\
    (transparent_barriers <$> myproc s') =
      ((fun p => wrap64 (transparent_barriers p + 1)) <$> myproc s)).
  { unfold do_pagefault, switch_to_kstack.
    destruct (Z.eqb_spec (rcr2 E) 123); [contradiction|].
    unfold bind at 1, get at 1. rewrite Hc.
    destruct s as [c i mp t ii rh rc sm ec et pk nl ns gb tr].
    run_monad.
    destruct (track_wbs E), mp as [p|]; run_monad;
      eexists _, _; (split; [reflexivity|]); kstate_norm;
      (split; [rewrite <- ?app_assoc; reflexivity|]);
      (split; [|repeat split]);
      intros e He;
      repeat (apply elem_of_cons in He as [->|He]; [eexists; reflexivity|]);
      by apply elem_of_nil in He. }
  destruct Hrun as (s' & evs & R & T & Hev & H1 & H2 & H3).
  exists s', evs. rewrite (emitted_app _ _ _ (eq_trans (f_equal (fun x => trace (final x)) R) T)).
  auto 10.
Qed.

Hypothesis pgflt_not_label : T_PGFLT ∉ case_labels.
Hypothesis pgflt_not_illop : T_PGFLT <> T_ILLOP.
Hypothesis pgflt_is_exception : T_PGFLT < T_IRQ0.

(** A page fault that [do_pagefault] resolves. *)
Lemma trap_resolved_pagefault had_secrets s s1 :
  trapno (tf s) = T_PGFLT ->
  do_pagefault E had_secrets s = Ok 0 s1 ->
  trap E had_secrets s =
  match myproc s1 with
  | Some p => if truthy (killed p) then Stop ProcExit s1 else Ok tt s1
  | None => Stop Undefined s1
  end.
Proof.
  intros Hn R.
  assert (Hl : trapno (tf s) ∉ case_labels) by (rewrite Hn; exact pgflt_not_label).
  rewrite (trap_reaches_default _ _ _ Hl).
  unfold trap_default. unfold bind at 1, get at 1. cbv beta iota zeta.
  rewrite Hn. destruct (Z.eqb_spec T_PGFLT T_ILLOP); [contradiction|]. cbn [andb].
  destruct (Z.leb_spec T_IRQ0 T_PGFLT); [lia|].
  unfold trap_pgflt_or_registered. unfold bind at 1, get at 1.
  rewrite Hn, Z.eqb_refl. unfold bind at 1 2. rewrite R.
  unfold ret at 1. change (0 =? 0) with true. cbv iota.
  unfold deref_myproc, procexit. run_monad.
  destruct (myproc s1) as [p|]; run_monad; [|reflexivity].
  destruct (truthy (killed p)); reflexivity.
Qed.

(** X10: a page fault that [do_pagefault] resolves ends the trap at
    once, without the scheduling code that follows the [switch]: [trap]
    reads [myproc()->killed], ends in the exit of the process when it is
    set, whatever the privilege level of the fault, and returns otherwise.
    [do_pagefault] also resolves faults taken without a current process; in
    particular after a kernel-secrets fault without a process the read of
    [myproc()->killed] dereferences a null pointer. *)
Theorem resolved_pagefault_ends_trap (had_secrets : bool) (s : kstate) :
  trapno (tf s) = T_PGFLT ->
  (forall s1, do_pagefault E had_secrets s = Ok 0 s1 ->
     trap E had_secrets s =
     match myproc s1 with
     | Some p => if truthy (killed p) then Stop ProcExit s1 else Ok tt s1
     | None => Stop Undefined s1
     end) /\
  (had_secrets = false -> myproc s = None ->
   rcr2 E <> 123 -> KGLOBAL <= rcr2 E ->
   exists s', trap E had_secrets s = Stop Undefined s' /\
              EvSwitchToKstack ∈ emitted (trap E had_secrets) s).
Proof.
  intros Hn. split.
  - intros s1 R. exact (trap_resolved_pagefault _ _ _ Hn R).
  - intros -> Hp H123 Hg.
    assert (Hrun : exists s' evs,
      do_pagefault E false s = Ok 0 s' /\ myproc s' = None /\
      trace s' = trace s ++ EvSwitchToKstack :: evs).
    { unfold do_pagefault, switch_to_kstack.
      destruct (Z.eqb_spec (rcr2 E) 123); [contradiction|].
      unfold bind at 1, get at 1.
      rewrite (bool_decide_true _ Hp), orb_true_r.
      destruct (Z.leb_spec KGLOBAL (rcr2 E)); [|lia]. cbn [negb andb].
      destruct s as [c i mp t ii rh rc sm ec et pk nl ns gb tr].
      cbn [myproc] in Hp. subst mp. run_monad.
      destruct (track_wbs E); run_monad;
        eexists _, _; (split; [reflexivity|]); kstate_norm;
        (split; [reflexivity|]); rewrite <- ?app_assoc; reflexivity. }
    destruct Hrun as (s' & evs & R & Hp' & T).
    pose proof (trap_resolved_pagefault _ _ _ Hn R) as Rt. rewrite Hp' in Rt.
    exists s'. split; [exact Rt|].
    rewrite (emitted_app _ _ (EvSwitchToKstack :: evs)) by (rewrite Rt; exact T).
    by left.
Qed.

End ResolvedFaults.

Section SecretsMore.
Context `{K : kconsts}.
Variable E : env.
Hypothesis FL_IF_nonzero : FL_IF ≠ 0.

(** What [ensure_secrets] does, step by step. *)
Lemma ensure_secrets_run (s : kstate) :
  ncli (mycpu s) = 0 \/ (0 < ncli (mycpu s) /\ intr_on s = false) ->
  exists s' evs,
    ensure_secrets E s = Ok tt s' /\ trace s' = trace s ++ evs /\
    EvSwitchToKstack ∈ evs /\ forallb (fun e => negb (is_yield e)) evs = true /\
    ncli (mycpu s') = ncli (mycpu s) /\ intr_on s' = intr_on s /\
    tf s' = tf s /\
    (intentional_barriers <$> myproc s') =
      ((fun p => if secrets_mapped s then intentional_barriers p
                 else wrap64 (intentional_barriers p + 1)) <$> myproc s).
Proof.
  intros Hn.
  destruct s as [[cid cncli cint cnsc ctp] i mp t ii rh rc sm ec et pk nl ns gb tr].
  cbn [mycpu ncli intr_on secrets_mapped myproc trace tf] in *.
  unfold ensure_secrets, switch_to_kstack, pushcli, popcli, readrflags_IF, cli, sti.
  assert (Hi : i = true -> cncli = 0) by (destruct Hn as [?|[? ?]]; congruence).
  unfold when, emit, modify, bind, get, ret, stop_with.
  destruct i; [rewrite (Hi eq_refl) in *|];
  repeat first
    [ progress kstate_norm
    | progress change (truthy 0) with false
    | rewrite (truthy_FL_IF FL_IF_nonzero)
    | match goal with
      | |- context [?a =? ?b] => destruct (Z.eqb_spec a b); try lia
      | |- context [?a <? ?b] => destruct (Z.ltb_spec a b); try lia
      end ].
  all: destruct (track_wbs E), sm, mp as [p|]; cbn [andb negb]; kstate_norm.
  all: try rewrite bool_decide_true by eauto.
  all: try rewrite bool_decide_false by (intros [? ?]; discriminate).
  all: kstate_norm.
  all: eexists _, _; (split; [reflexivity|]); kstate_norm;
    (split; [rewrite <- ?app_assoc; reflexivity|]);
    (split; [cbn [app]; rewrite !elem_of_cons; auto|]);
    (split; [reflexivity|]);
    (split; [lia|]); repeat split.
Qed.

(** X11: [ensure_secrets] is transparent for the interrupt state: entered
    at [pushcli] depth zero, or at a positive depth with interrupts off, it
    returns without a panic, with the depth and the interrupt flag as it
    found them, having switched to the kernel stack; the intentional
    barrier of the current process is counted exactly when the secrets were
    not mapped before. *)
Theorem ensure_secrets_transparent (s : kstate) :
  ncli (mycpu s) = 0 \/ (0 < ncli (mycpu s) /\ intr_on s = false) ->
  exists s',
    ensure_secrets E s = Ok tt s' /\
    ncli (mycpu s') = ncli (mycpu s) /\
    intr_on s' = intr_on s /\
    EvSwitchToKstack ∈ emitted (ensure_secrets E) s /\
    (intentional_barriers <$> myproc s') =
      ((fun p => if secrets_mapped s then intentional_barriers p
                 else wrap64 (intentional_barriers p + 1)) <$> myproc s).
Proof.
  intros Hn.
  destruct (ensure_secrets_run s Hn) as (s' & evs & R & T & Hin & _ & H1 & H2 & _ & H3).
  exists s'. rewrite (emitted_app _ _ evs) by (rewrite R; exact T). auto.
Qed.

(** X12: a trap handler registered for a vector is called with the
    context registered with it when no other part of [trap] claims the
    vector (no [case], not a page fault or an illegal instruction, no
    handler chain on its IRQ line).  The call is the last thing [trap]
    does: it comes after the switch to the kernel stack, and [trap] returns
    without the scheduling and exit checks that follow the [switch]. *)
Theorem registered_trap_handler_called
    (had_secrets : bool) (s : kstate) (fn : Z) :
  trapno (tf s) ∉ case_labels ->
  trapno (tf s) <> T_PGFLT ->
  trapno (tf s) <> T_ILLOP ->
  (T_IRQ0 <= trapno (tf s) ->
   exists u, irq_info s !! Z.to_nat (trapno (tf s) - T_IRQ0) = Some (mk_irq_info [] u)) ->
  trapno (tf s) < 256 ->
  registered_trap_handlers s !! trapno (tf s) = Some fn ->
  ncli (mycpu s) = 0 \/ (0 < ncli (mycpu s) /\ intr_on s = false) ->
  exists s' pre,
    trap E had_secrets s = Ok tt s' /\
    emitted (trap E had_secrets) s =
      pre ++ [EvTrapHandler fn
                (default 0 (registered_trap_handler_contexts s !! trapno (tf s)))] /\
    EvSwitchToKstack ∈ pre /\
    forallb (fun e => negb (is_yield e)) pre = true /\
    intr_on s' = intr_on s.
Proof.
  intros Hl Hpf Hill Hirq Hlt Hreg Hn.
  assert (Hpath : trap_default E had_secrets s =
                  (ensure_secrets E ;;
                   emit (EvTrapHandler fn
                     (default 0 (registered_trap_handler_contexts s !! trapno (tf s))))) s).
  { unfold trap_default. unfold bind at 1, get at 1. cbv beta iota zeta.
    destruct (Z.eqb_spec (trapno (tf s)) T_ILLOP); [contradiction|]. cbn [andb].
    assert (Hrest : trap_pgflt_or_registered E had_secrets s =
      (ensure_secrets E ;;
       emit (EvTrapHandler fn
         (default 0 (registered_trap_handler_contexts s !! trapno (tf s))))) s).
    { unfold trap_pgflt_or_registered. unfold bind at 1, get at 1.
      destruct (Z.eqb_spec (trapno (tf s)) T_PGFLT); [contradiction|].
      unfold bind at 1, ret at 1. cbv beta iota. unfold bind at 1, get at 1.
      destruct (Z.ltb_spec (trapno (tf s)) 256); [|lia].
      rewrite Hreg. reflexivity. }
    destruct (Z.leb_spec T_IRQ0 (trapno (tf s))) as [Hge|_]; [|exact Hrest].
    destruct (Hirq Hge) as [u ->]. exact Hrest. }
  destruct (ensure_secrets_run s Hn) as (s1 & evs & R & T & Hin & Hy & _ & H2 & _).
  assert (Rfull : trap E had_secrets s =
    Ok tt (with_trace (trace s1 ++
             [EvTrapHandler fn
                (default 0 (registered_trap_handler_contexts s !! trapno (tf s)))]) s1)).
  { rewrite (trap_reaches_default _ _ _ Hl), Hpath, (bind_Ok _ _ _ _ _ R).
    reflexivity. }
  eexists _, evs. split; [exact Rfull|]. split; [|split; [exact Hin|split; [exact Hy|]]].
  - apply emitted_app. rewrite Rfull. cbn [final]. destruct s1. cbn in T |- *.
    rewrite T, <- app_assoc. reflexivity.
  - destruct s1. exact H2.
Qed.

End SecretsMore.

Section AddressTranslationProofs.
Context `{K : kconsts}.
Variable KCODE : Z.
Variable physical_address_offset : Z.

(** X13: below [KCODE] the two address translations are inverse to each
    other: a direct-map virtual address ([KBASE <= va < KCODE]) is mapped to
    a physical address and back to itself, and a physical address whose
    direct-map alias lies below [KCODE] is mapped to that alias and back to
    itself. *)
Theorem direct_map_round_trip :
  0 <= KBASE -> KBASE <= KCODE -> KCODE <= 2^64 ->
  (forall va, KBASE <= va < KCODE ->
     p2v (v2p KCODE physical_address_offset va) = va) /\
  (forall pa, 0 <= pa -> pa + KBASE < KCODE ->
     v2p KCODE physical_address_offset (p2v pa) = pa).
Proof.
  intros H0 H1 H2. split.
  - intros va Hva. unfold v2p, p2v.
    destruct (Z.leb_spec KCODE va); [lia|].
    rewrite (wrap64_small (va - KBASE)) by lia.
    rewrite wrap64_small by lia. lia.
  - intros pa Hpa Hlt. unfold v2p, p2v.
    rewrite (wrap64_small (pa + KBASE)) by lia.
    destruct (Z.leb_spec KCODE (pa + KBASE)); [lia|].
    rewrite wrap64_small by lia. lia.
Qed.

End AddressTranslationProofs.

Section CheckCriticalProofs.
Context `{K : kconsts} `{CMK : critical_masks}.
Variable cpu_pin : proc -> Z.

Hypothesis masks_are_flags :
  NO_INT <> 0 /\ NO_SCHED <> 0 /\ NO_MIGRATE <> 0 /\
  Z.land NO_SCHED NO_INT = 0 /\ Z.land NO_MIGRATE NO_INT = 0 /\
  Z.land NO_MIGRATE NO_SCHED = 0.
Hypothesis masks_not_NO_CRITICAL :
  NO_INT <> NO_CRITICAL /\ NO_SCHED <> NO_CRITICAL /\ NO_MIGRATE <> NO_CRITICAL.

Lemma truthy_nonzero x : x <> 0 -> truthy x = true.
Proof. intros Hx. unfold truthy. destruct (Z.eqb_spec x 0); [contradiction | reflexivity]. Qed.

Lemma check_critical_NO_INT s :
  check_critical cpu_pin NO_INT s =
  Ok (negb (truthy (if intr_on s then FL_IF else 0))) s.
Proof.
  destruct masks_are_flags as (Hi & _). destruct masks_not_NO_CRITICAL as (Hc & _).
  unfold check_critical, readrflags_IF.
  destruct (Z.eqb_spec NO_INT NO_CRITICAL); [contradiction|].
  run_monad. rewrite Z.land_diag, (truthy_nonzero _ Hi). reflexivity.
Qed.

Lemma check_critical_NO_SCHED s :
  check_critical cpu_pin NO_SCHED s =
  Ok (negb (truthy (if intr_on s then FL_IF else 0))
      || truthy (no_sched_count (mycpu s))) s.
Proof.
  destruct masks_are_flags as (_ & Hs & _ & Hsi & _).
  destruct masks_not_NO_CRITICAL as (_ & Hc & _).
  unfold check_critical, readrflags_IF.
  destruct (Z.eqb_spec NO_SCHED NO_CRITICAL); [contradiction|].
  run_monad. rewrite Hsi. change (truthy 0) with false. run_monad.
  rewrite Z.land_diag, (truthy_nonzero _ Hs). reflexivity.
Qed.

Lemma check_critical_NO_MIGRATE s :
  check_critical cpu_pin NO_MIGRATE s =
  if negb (truthy (if intr_on s then FL_IF else 0))
     || truthy (no_sched_count (mycpu s))
  then Ok true s
  else match myproc s with
       | Some p => Ok (truthy (cpu_pin p)) s
       | None => Stop Undefined s
       end.
Proof.
  destruct masks_are_flags as (_ & _ & Hm & _ & Hmi & Hms).
  destruct masks_not_NO_CRITICAL as (_ & _ & Hc).
  unfold check_critical, readrflags_IF, deref_myproc.
  destruct (Z.eqb_spec NO_MIGRATE NO_CRITICAL); [contradiction|].
  run_monad. rewrite Hmi. change (truthy 0) with false. run_monad.
  rewrite Hms. change (truthy 0) with false. cbv iota.
  rewrite Z.land_diag, (truthy_nonzero _ Hm).
  destruct (negb (truthy (if intr_on s then FL_IF else 0))
            || truthy (no_sched_count (mycpu s))); run_monad; [reflexivity|].
  destruct (myproc s); reflexivity.
Qed.

(** X14: the levels of protection that [check_critical] tests are
    nested, the three masks being distinct flag bits other than
    [NO_CRITICAL]: a
    context that passes the test for disabled interrupts passes the test
    for a suppressed scheduler, and a context that passes that one passes
    the test for suppressed migration; [NO_CRITICAL] is passed by every
    context.  The test for suppressed migration reads the current process
    only when neither of the stronger conditions holds, and is undefined
    then if there is no current process. *)
Theorem critical_levels_nest (s : kstate) :
  check_critical cpu_pin NO_CRITICAL s = Ok true s /\
  (check_critical cpu_pin NO_INT s = Ok true s ->
   check_critical cpu_pin NO_SCHED s = Ok true s) /\
  (check_critical cpu_pin NO_SCHED s = Ok true s ->
   check_critical cpu_pin NO_MIGRATE s = Ok true s) /\
  (check_critical cpu_pin NO_SCHED s = Ok false s -> myproc s = None ->
   check_critical cpu_pin NO_MIGRATE s = Stop Undefined s).
Proof.
  rewrite check_critical_NO_INT, check_critical_NO_SCHED, check_critical_NO_MIGRATE.
  split; [|split; [|split]].
  - unfold check_critical. rewrite Z.eqb_refl. reflexivity.
  - intros [= ->]. reflexivity.
  - intros [= ->]. reflexivity.
  - intros [= ->] ->. reflexivity.
Qed.

End CheckCriticalProofs.

Section VmdescMore.
Import vmdesc.

(** X15: duplicating a descriptor twice gives the same as duplicating it
    once, and a duplicate is mapped exactly when the original is. *)
Theorem dup_idempotent_keeps_mapping (d : vmdesc.t) :
  dup (dup d) = dup d /\ is_set (dup d) = is_set d.
Proof.
  split.
  - unfold dup. cbn [flags page inode start]. f_equal.
    rewrite <- Z.land_assoc, Z.land_diag. reflexivity.
  - unfold is_set, dup. cbn [flags]. rewrite <- Z.land_assoc. reflexivity.
Qed.

End VmdescMore.

(** ** getcallerpcs *)

Section CallstackProofs.
Import callstack.
Variable read : Z -> option Z.

Lemma walk_length k : forall i rbp pcs,
  length (snd (walk read k i rbp pcs)) = length pcs.
Proof.
  induction k as [|k IH]; intros i rbp pcs; cbn [walk]; [reflexivity|].
  destruct (read (wrap64 (rbp + 8))); [|reflexivity].
  destruct (read rbp); cbn [snd].
  - rewrite IH. apply length_insert.
  - apply length_insert.
Qed.

Lemma zero_fill_length k : forall i pcs, length (zero_fill k i pcs) = length pcs.
Proof.
  induction k as [|k IH]; intros i pcs; cbn [zero_fill]; [reflexivity|].
  rewrite IH. apply length_insert.
Qed.

Lemma zero_fill_lookup k : forall i pcs j,
  (i + k <= length pcs)%nat ->
  zero_fill k i pcs !! j =
  if bool_decide (i <= j < i + k)%nat then Some 0 else pcs !! j.
Proof.
  induction k as [|k IH]; intros i pcs j Hlen; cbn [zero_fill].
  - rewrite bool_decide_false by lia. reflexivity.
  - rewrite IH by (rewrite length_insert; lia).
    destruct (decide (j = i)) as [->|Hne].
    + rewrite bool_decide_false by lia.
      rewrite (bool_decide_true (i <= i < i + S k)%nat) by lia.
      apply list_lookup_insert_eq. lia.
    + rewrite list_lookup_insert_ne by lia.
      destruct (decide (S i <= j < S i + k)%nat).
      * rewrite !bool_decide_true by lia. reflexivity.
      * rewrite !bool_decide_false by lia. reflexivity.
Qed.

(** The frames seen from a later frame of the chain. *)
Lemma frame_pointer_shift v rbp' j :
  read v = Some rbp' ->
  frame_pointer read v (S j) = frame_pointer read rbp' j.
Proof.
  intros Hv. induction j as [|j IH]; [exact Hv|].
  cbn [frame_pointer] in *. rewrite IH. reflexivity.
Qed.

Lemma saved_return_shift v rbp' j :
  read v = Some rbp' ->
  saved_return read v (S j) = saved_return read rbp' j.
Proof.
  intros Hv. unfold saved_return. rewrite (frame_pointer_shift _ _ _ Hv).
  reflexivity.
Qed.

Lemma frames_readable_first v j :
  frames_readable read v j = true ->
  is_Some (read (wrap64 (v + 8))) /\ is_Some (read v).
Proof.
  induction j as [|j IH]; cbn [frames_readable].
  - rewrite !andb_true_iff, !bool_decide_eq_true. intros [[H1 H2] _]. auto.
  - rewrite !andb_true_iff. intros [_ H]. auto.
Qed.

Lemma frames_readable_shift v rbp' j :
  read v = Some rbp' -> is_Some (read (wrap64 (v + 8))) ->
  frames_readable read v (S j) = frames_readable read rbp' j.
Proof.
  intros Hv Hr. induction j as [|j IH].
  - cbn [frames_readable].
    rewrite (saved_return_shift _ _ _ Hv), (frame_pointer_shift _ _ 1 Hv).
    rewrite (bool_decide_true (is_Some (saved_return read v 0))) by exact Hr.
    rewrite (bool_decide_true (is_Some (frame_pointer read v 1)))
      by (cbn; rewrite Hv; eauto).
    rewrite !andb_true_r. reflexivity.
  - cbn [frames_readable] in *.
    rewrite (saved_return_shift _ _ _ Hv), (frame_pointer_shift _ _ (S (S j)) Hv).
    rewrite IH. reflexivity.
Qed.

(** What the two loops leave in [pcs], entry by entry: above the start
    index [i], entry [i + j] is the return address of frame [j] less one
    when the frames up to [j] are readable, and zero otherwise; the entries
    below [i] are untouched. *)
Lemma walk_zero_fill k : forall i rbp pcs j,
  (i + k = length pcs)%nat -> (j < length pcs)%nat ->
  (let '(i', pcs') := walk read k i rbp pcs in
   zero_fill (length pcs - i') i' pcs') !! j =
  if bool_decide (j < i)%nat then pcs !! j
  else if frames_readable read rbp (j - i)
       then Some (wrap64 (default 0 (saved_return read rbp (j - i)) - 1))
       else Some 0.
Proof.
  induction k as [|k IH]; intros i rbp pcs j Hlen Hj.
  - cbn [walk]. replace (length pcs - i)%nat with 0%nat by lia.
    cbn [zero_fill]. rewrite bool_decide_true by lia. reflexivity.
  - cbn [walk].
    assert (Hstop : forall pcs0, length pcs0 = length pcs ->
      (forall j', (j' < i)%nat -> pcs0 !! j' = pcs !! j') ->
      frames_readable read rbp (j - i) = false ->
      zero_fill (length pcs - i) i pcs0 !! j =
      if bool_decide (j < i)%nat then pcs !! j
      else if frames_readable read rbp (j - i)
           then Some (wrap64 (default 0 (saved_return read rbp (j - i)) - 1))
           else Some 0).
    { intros pcs0 Hl0 Hlow Hbad. rewrite zero_fill_lookup by lia. rewrite Hbad.
      destruct (decide (j < i)%nat).
      - rewrite bool_decide_false, bool_decide_true by lia. auto.
      - rewrite bool_decide_true, bool_decide_false by lia. reflexivity. }
    assert (Hbad : is_Some (read (wrap64 (rbp + 8))) /\ is_Some (read rbp) \/
                   frames_readable read rbp (j - i) = false).
    { destruct (frames_readable read rbp (j - i)) eqn:Hf; [|by right].
      left. eapply frames_readable_first, Hf. }
    destruct (read (wrap64 (rbp + 8))) as [saved_rip|] eqn:Hrip.
    2:{ destruct Hbad as [[[? ?] _]|Hbad]; [discriminate|].
        apply Hstop; auto. }
    destruct (read rbp) as [rbp'|] eqn:Hrbp.
    2:{ destruct Hbad as [[_ [? ?]]|Hbad]; [discriminate|].
        apply Hstop; [apply length_insert | | exact Hbad].
        intros j' Hj'. apply list_lookup_insert_ne. lia. }
    specialize (IH (S i) rbp' (<[i := wrap64 (saved_rip - 1)]> pcs) j).
    rewrite length_insert in IH. rewrite IH by lia.
    destruct (decide (j < i)%nat) as [Hlt|Hge].
    + rewrite !bool_decide_true by lia. apply list_lookup_insert_ne. lia.
    + rewrite (bool_decide_false (j < i)%nat) by lia.
      destruct (decide (j = i)) as [->|Hne].
      * rewrite bool_decide_true by lia. rewrite Nat.sub_diag.
        cbn [frames_readable]. unfold saved_return. cbn [frame_pointer].
        rewrite Hrip, Hrbp.
        rewrite !bool_decide_true by eauto. cbn.
        apply list_lookup_insert_eq. lia.
      * rewrite bool_decide_false by lia.
        replace (j - i)%nat with (S (j - S i)) by lia.
        rewrite (frames_readable_shift _ _ _ Hrbp) by (rewrite Hrip; eauto).
        rewrite (saved_return_shift _ _ _ Hrbp). reflexivity.
Qed.

(** X17: [getcallerpcs] fills all [n] entries of [pcs]: entry [j] is the
    return address saved in frame [j] of the [%rbp] chain less one when both
    words of every frame up to [j] can be read, and zero otherwise.  So the
    trace ends at the first frame with an unreadable word, and a frame whose
    return address can be read but whose saved [%rbp] cannot is left out. *)
Theorem getcallerpcs_entries (v : Z) (pcs : list Z) (j : nat) :
  (j < length pcs)%nat ->
  length (getcallerpcs read v pcs) = length pcs /\
  getcallerpcs read v pcs !! j =
    Some (if frames_readable read v j then call_site read v j else 0).
Proof.
  intros Hj. split.
  - unfold getcallerpcs.
    pose proof (walk_length (length pcs) 0 v pcs) as Hw.
    destruct (walk read (length pcs) 0 v pcs) as [i pcs']. cbn [snd] in Hw.
    rewrite zero_fill_length. exact Hw.
  - unfold getcallerpcs.
    pose proof (walk_zero_fill (length pcs) 0 v pcs j ltac:(lia) Hj) as H.
    rewrite bool_decide_false in H by lia. rewrite Nat.sub_0_r in H.
    rewrite H. destruct (frames_readable read v j); reflexivity.
Qed.

(** The whole array after the call. *)
Lemma getcallerpcs_list v pcs :
  getcallerpcs read v pcs =
  (fun j => if frames_readable read v j then call_site read v j else 0)
    <$> seq 0 (length pcs).
Proof.
  assert (Hlen : length (getcallerpcs read v pcs) = length pcs).
  { unfold getcallerpcs.
    pose proof (walk_length (length pcs) 0 v pcs) as Hw.
    destruct (walk read (length pcs) 0 v pcs) as [i pcs']. cbn [snd] in Hw.
    rewrite zero_fill_length. exact Hw. }
  apply list_eq. intros j.
  destruct (decide (j < length pcs)%nat) as [Hj|Hj].
  - rewrite list_lookup_fmap, lookup_seq_lt by exact Hj. cbn.
    unfold getcallerpcs, call_site.
    pose proof (walk_zero_fill (length pcs) 0 v pcs j ltac:(lia) Hj) as H.
    rewrite bool_decide_false in H by lia. rewrite Nat.sub_0_r in H.
    rewrite H. destruct (frames_readable read v j); reflexivity.
  - rewrite (proj2 (lookup_ge_None _ _)) by lia.
    rewrite (proj2 (lookup_ge_None _ _)); [reflexivity|].
    rewrite length_fmap, length_seq. lia.
Qed.

End CallstackProofs.

(** ** The console *)

Ltac crun :=
  unfold console.cbind, console.cget, console.cemit, console.cmodify,
         console.cret, console.cwhen, console.chalt;
  cbn -[Z.eqb Z.ltb Z.leb Z.add Z.sub Z.land Z.rem truthy].

Ltac cstate_norm :=
  cbn [console.input console.panicked console.cons console.cpus_timer_printpc
       console.ctrace console.buf console.r console.w console.e
       console.locking console.holder console.nesting_count
       console.with_ctrace console.with_input console.with_cons
       console.with_printpc console.set_r console.set_w console.set_e].

Lemma cbind_Done {A B} (m : console.CM A) (k : A -> console.CM B) s a s1 :
  m s = console.Done a s1 -> console.cbind m k s = k a s1.
Proof. unfold console.cbind. intros ->. reflexivity. Qed.

Lemma cemitted_app {A} (m : console.CM A) s evs :
  console.ctrace (cfinal (m s)) = console.ctrace s ++ evs -> cemitted m s = evs.
Proof. unfold cemitted. intros ->. apply drop_app_length. Qed.

Section ConsoleOutput.
Import console.

Lemma consputc_live c s :
  panicked s = 0 ->
  consputc c s = Done tt (with_ctrace (ctrace s ++ putc_calls c) s).
Proof.
  intros Hp. unfold consputc, uartputc, cgaputc, vgaputc, putc_calls.
  destruct s as [pk cn inp pcs tr]. cbn in Hp. subst pk. crun.
  destruct (c =? BACKSPACE); [|destruct (Z.eqb_spec c 10) as [->|?]]; crun;
    unfold with_ctrace; cbn; rewrite <- ?app_assoc; reflexivity.
Qed.

Lemma consputc_panicked c s :
  panicked s <> 0 ->
  consputc c s = Halt Spinning (with_ctrace (ctrace s ++ [EvConsCli]) s).
Proof.
  intros Hp. unfold consputc. crun. unfold truthy.
  destruct (Z.eqb_spec (panicked s) 0); [contradiction|]. reflexivity.
Qed.

Lemma consolewrite_loop_live buf : forall s,
  panicked s = 0 ->
  consolewrite_loop buf s =
  Done tt (with_ctrace
             (ctrace s ++ flat_map (fun c => putc_calls (Z.land c 0xff)) buf) s).
Proof.
  induction buf as [|c buf IH]; intros s Hp.
  - destruct s. unfold with_ctrace. cbn. rewrite app_nil_r. reflexivity.
  - cbn [consolewrite_loop flat_map].
    rewrite (cbind_Done _ _ _ _ _ (consputc_live _ s Hp)).
    rewrite IH by exact Hp. destruct s. unfold with_ctrace. cbn.
    rewrite <- app_assoc. reflexivity.
Qed.

Lemma byte_not_backspace c : (Z.land c 0xff =? BACKSPACE) = false.
Proof.
  apply Z.eqb_neq. change 0xff with (Z.ones 8). rewrite Z.land_ones by lia.
  pose proof (Z.mod_pos_bound c (2 ^ 8) ltac:(lia)). unfold BACKSPACE. lia.
Qed.

Lemma uart_output_app t1 t2 : uart_output (t1 ++ t2) = uart_output t1 ++ uart_output t2.
Proof. apply omap_app. Qed.
Lemma cga_output_app t1 t2 : cga_output (t1 ++ t2) = cga_output t1 ++ cga_output t2.
Proof. apply omap_app. Qed.
Lemma vga_output_app t1 t2 : vga_output (t1 ++ t2) = vga_output t1 ++ vga_output t2.
Proof. apply omap_app. Qed.
Lemma lock_calls_app t1 t2 : lock_calls (t1 ++ t2) = lock_calls t1 ++ lock_calls t2.
Proof. apply omap_app. Qed.

Lemma written_bytes_output buf :
  let t := flat_map (fun c => putc_calls (Z.land c 0xff)) buf in
  uart_output t = crlf ((fun c => Z.land c 0xff) <$> buf) /\
  cga_output t = (fun c => Z.land c 0xff) <$> buf /\
  vga_output t = (fun c => Z.land c 0xff) <$> buf /\
  lock_calls t = [].
Proof.
  induction buf as [|c buf (IHu & IHc & IHv & IHl)]; [repeat split|].
  cbn [flat_map fmap list_fmap crlf].
  rewrite uart_output_app, cga_output_app, vga_output_app, lock_calls_app.
  cbv zeta in IHu, IHc, IHv, IHl. rewrite IHu, IHc, IHv, IHl.
  unfold putc_calls. rewrite byte_not_backspace.
  destruct (Z.land c 255 =? 10); repeat split.
Qed.

(** X19: on a console that has not panicked, [consolewrite] returns the
    number of characters it was given; the CGA and the VGA display receive
    exactly the low bytes of these characters in order, the UART receives
    them with a carriage return put before every line feed, and the console
    lock is taken once before and released once after the output. *)
Theorem consolewrite_output (buf : list Z) (s : cstate) :
  panicked s = 0 ->
  exists s',
    consolewrite buf s = Done (Z.of_nat (length buf)) s' /\
    let t := cemitted (consolewrite buf) s in
    let bytes := (fun c => Z.land c 0xff) <$> buf in
    uart_output t = crlf bytes /\
    cga_output t = bytes /\
    vga_output t = bytes /\
    lock_calls t = [EvAcquire cons_lock; EvRelease cons_lock].
Proof.
  intros Hp.
  assert (R : consolewrite buf s =
    Done (Z.of_nat (length buf))
      (with_ctrace (ctrace s ++ [EvAcquire cons_lock]
                    ++ flat_map (fun c => putc_calls (Z.land c 0xff)) buf
                    ++ [EvRelease cons_lock]) s)).
  { unfold consolewrite, acquire, release.
    unfold cbind at 1, cemit at 1, cmodify at 1.
    erewrite cbind_Done; [|apply consolewrite_loop_live; exact Hp].
    destruct s. crun. unfold with_ctrace. cbn.
    rewrite <- !app_assoc. reflexivity. }
  eexists. split; [exact R|]. cbv zeta.
  rewrite (cemitted_app _ _ _ (f_equal (fun x => ctrace (cfinal x)) R)).
  destruct (written_bytes_output buf) as (Hu & Hc & Hv & Hl). cbv zeta in *.
  repeat split.
  - rewrite !uart_output_app, Hu. cbn. apply app_nil_r.
  - rewrite !cga_output_app, Hc. cbn. apply app_nil_r.
  - rewrite !vga_output_app, Hv. cbn. apply app_nil_r.
  - rewrite !lock_calls_app, Hl. reflexivity.
Qed.

(** X20: once the kernel has panicked, console output never returns and
    nothing reaches a device: [consputc] disables interrupts and spins, and
    a [consolewrite] of at least one character does so holding the console
    lock, which it never releases. *)
Theorem console_silent_after_panic (c : Z) (buf : list Z) (s : cstate) :
  panicked s <> 0 ->
  (exists s', consputc c s = Halt Spinning s' /\
              cemitted (consputc c) s = [EvConsCli]) /\
  (exists s', consolewrite (c :: buf) s = Halt Spinning s' /\
              cemitted (consolewrite (c :: buf)) s =
                [EvAcquire cons_lock; EvConsCli]).
Proof.
  intros Hp. split.
  - eexists. split; [apply consputc_panicked, Hp|].
    apply cemitted_app. rewrite consputc_panicked by exact Hp.
    reflexivity.
  - assert (R : consolewrite (c :: buf) s =
      Halt Spinning (with_ctrace (ctrace s ++ [EvAcquire cons_lock; EvConsCli]) s)).
    { unfold consolewrite, acquire. unfold cbind at 1, cemit at 1, cmodify at 1.
      cbn [consolewrite_loop]. unfold cbind.
      rewrite consputc_panicked by exact Hp.
      destruct s. unfold with_ctrace. cbn. rewrite <- app_assoc. reflexivity. }
    eexists. split; [exact R|]. apply cemitted_app. rewrite R. reflexivity.
Qed.

End ConsoleOutput.

Section ConsoleTrace.
Import console.
Variable read : Z -> option Z.
Variable body : Z -> list Z.

Lemma cprintf_text_live text : forall s,
  panicked s = 0 ->
  __cprintf text s = Done tt (with_ctrace (ctrace s ++ flat_map putc_calls text) s).
Proof.
  induction text as [|c text IH]; intros s Hp.
  - destruct s. unfold with_ctrace. cbn. rewrite app_nil_r. reflexivity.
  - cbn [__cprintf flat_map]. unfold writecons.
    rewrite (cbind_Done _ _ _ _ _ (consputc_live _ s Hp)).
    rewrite IH by exact Hp. destruct s. unfold with_ctrace. cbn.
    rewrite <- app_assoc. reflexivity.
Qed.

Lemma cprintf_text_panicked c text s :
  panicked s <> 0 ->
  __cprintf (c :: text) s = Halt Spinning (with_ctrace (ctrace s ++ [EvConsCli]) s).
Proof.
  intros Hp. cbn [__cprintf]. unfold writecons, cbind.
  rewrite consputc_panicked by exact Hp. reflexivity.
Qed.

Lemma printtrace_loop_live pc : forall s,
  panicked s = 0 ->
  printtrace_loop body pc s =
  Done tt (with_ctrace
             (ctrace s ++
              flat_map putc_calls (flat_map (trace_line body) (nonzero_prefix pc)))
             s).
Proof.
  induction pc as [|x pc IH]; intros s Hp.
  - destruct s. unfold with_ctrace. cbn. rewrite app_nil_r. reflexivity.
  - cbn [printtrace_loop nonzero_prefix]. destruct (x =? 0).
    + destruct s. unfold with_ctrace. cbn. rewrite app_nil_r. reflexivity.
    + rewrite (cbind_Done _ _ _ _ _ (cprintf_text_live _ s Hp)).
      rewrite IH by exact Hp. cbn [flat_map]. rewrite flat_map_app.
      destruct s. unfold with_ctrace. cbn [ctrace]. rewrite <- app_assoc.
      reflexivity.
Qed.

Lemma printtrace_loop_panicked pc s :
  panicked s <> 0 ->
  printtrace_loop body pc s =
  match nonzero_prefix pc with
  | [] => Done tt s
  | _ :: _ => Halt Spinning (with_ctrace (ctrace s ++ [EvConsCli]) s)
  end.
Proof.
  intros Hp. destruct pc as [|x pc]; [reflexivity|].
  cbn [printtrace_loop nonzero_prefix]. destruct (x =? 0); [reflexivity|].
  unfold trace_line. cbn [app]. unfold cbind.
  rewrite cprintf_text_panicked by exact Hp. reflexivity.
Qed.

(** The entries before the first zero. *)
Lemma nonzero_prefix_take pc :
  exists k, (k <= length pc)%nat /\
    nonzero_prefix pc = take k pc /\
    (forall j x, (j < k)%nat -> pc !! j = Some x -> x <> 0) /\
    ((k < length pc)%nat -> pc !! k = Some 0).
Proof.
  induction pc as [|x pc (k & Hk & R & Hnz & Hz)].
  - exists 0%nat. split; [cbn; lia|]. split; [reflexivity|].
    split; [intros; lia | cbn; lia].
  - cbn [nonzero_prefix]. destruct (Z.eqb_spec x 0) as [->|Hx].
    + exists 0%nat. split; [cbn; lia|]. split; [reflexivity|].
      split; [intros; lia | reflexivity].
    + exists (S k). split; [cbn; lia|]. split; [cbn; rewrite R; reflexivity|].
      split.
      * intros [|j] y Hj Hy; [cbn in Hy; congruence|].
        cbn in Hy. eapply Hnz; [|exact Hy]. lia.
      * intros Hlt. cbn in Hlt |- *. apply Hz. lia.
Qed.

(** X18: [printtrace] prints a line for each call site of the frames of
    the [%rbp] chain, in order and at most 10: it stops before the first
    frame of which a word cannot be read or whose call site is the address
    0.  On a console that has not panicked the characters of these lines,
    and nothing else, go through [consputc] to the devices.  On a console
    that has panicked nothing is printed: with no line to print
    [printtrace] returns, otherwise it stops in [consputc] at the first
    character and never returns. *)
Theorem printtrace_lines (pc : list Z) (rbp : Z) (s : cstate) :
  length pc = 10%nat ->
  exists k, (k <= 10)%nat /\
    (forall j, (j < k)%nat ->
       frames_readable read rbp j = true /\ call_site read rbp j <> 0) /\
    ((k < 10)%nat ->
       frames_readable read rbp k = false \/ call_site read rbp k = 0) /\
    (panicked s = 0 ->
     printtrace read body pc rbp s =
     Done tt
       (with_ctrace
          (ctrace s ++
           flat_map putc_calls
             (flat_map (trace_line body) (call_site read rbp <$> seq 0 k))) s)) /\
    (panicked s <> 0 ->
     printtrace read body pc rbp s =
     match k with
     | O => Done tt s
     | S _ => Halt Spinning (with_ctrace (ctrace s ++ [EvConsCli]) s)
     end).
Proof.
  intros Hlen. unfold printtrace. rewrite getcallerpcs_list, Hlen.
  set (f := fun j => if frames_readable read rbp j then call_site read rbp j else 0).
  destruct (nonzero_prefix_take (f <$> seq 0 10)) as (k & Hk & R & Hnz & Hz).
  rewrite length_fmap, length_seq in Hk, Hz.
  assert (Hf : forall j, (j < 10)%nat -> (f <$> seq 0 10) !! j = Some (f j)).
  { intros j Hj. rewrite list_lookup_fmap, lookup_seq_lt by exact Hj. reflexivity. }
  assert (Hgood : forall j, (j < k)%nat ->
            frames_readable read rbp j = true /\ call_site read rbp j <> 0).
  { intros j Hj. pose proof (Hnz j (f j) Hj (Hf j ltac:(lia))) as Hne.
    subst f. cbv beta in Hne.
    destruct (frames_readable read rbp j); [auto | contradiction]. }
  assert (Hpre : nonzero_prefix (f <$> seq 0 10) = call_site read rbp <$> seq 0 k).
  { rewrite R, <- fmap_take, take_seq, Nat.min_l by lia.
    apply Forall_fmap_ext, Forall_forall.
    intros j Hj. apply elem_of_seq in Hj.
    destruct (Hgood j ltac:(lia)) as [Hr _]. subst f. cbv beta. rewrite Hr.
    reflexivity. }
  exists k. split; [exact Hk|]. split; [exact Hgood|]. split; [|split].
  - intros Hlt. pose proof (Hz Hlt) as H0. rewrite (Hf k Hlt) in H0.
    injection H0 as H0. subst f. cbv beta in H0.
    destruct (frames_readable read rbp k); auto.
  - intros Hp. rewrite printtrace_loop_live by exact Hp. rewrite Hpre.
    reflexivity.
  - intros Hp. rewrite printtrace_loop_panicked by exact Hp. rewrite Hpre.
    destruct k; reflexivity.
Qed.

End ConsoleTrace.

Section ConsoleBuffer.
Import console.

Lemma writebuf_cases c bs m :
  writebuf c (bs, m) =
  if p bs <? e_ bs
  then (mk_bufstate (p bs + 1) (e_ bs) (total bs + 1), store m (p bs) (Z.land c 0xff))
  else (mk_bufstate (p bs) (e_ bs) (total bs + 1), m).
Proof. unfold writebuf. destruct (p bs <? e_ bs); reflexivity. Qed.

Lemma vprintfmt_writebuf_spec text : forall bs m,
  let k := Z.min (Z.of_nat (length text)) (Z.max 0 (e_ bs - p bs)) in
  let st := vprintfmt writebuf (bs, m) text in
  p (fst st) = p bs + k /\
  e_ (fst st) = e_ bs /\
  total (fst st) = total bs + Z.of_nat (length text) /\
  forall a, snd st a =
            if (p bs <=? a) && (a <? p bs + k)
            then Z.land (nth (Z.to_nat (a - p bs)) text 0) 0xff
            else m a.
Proof.
  induction text as [|c text IH]; intros bs m; cbv zeta.
  - cbn [vprintfmt fold_left fst snd length].
    replace (Z.min (Z.of_nat 0) (Z.max 0 (e_ bs - p bs))) with 0 by lia.
    repeat split; try lia. intros a.
    destruct (Z.leb_spec (p bs) a), (Z.ltb_spec a (p bs + 0));
      cbn [andb]; first [reflexivity | lia].
  - change (vprintfmt writebuf (bs, m) (c :: text))
      with (vprintfmt writebuf (writebuf c (bs, m)) text).
    rewrite writebuf_cases. cbn [length]. rewrite Nat2Z.inj_succ.
    destruct (Z.ltb_spec (p bs) (e_ bs)) as [Hlt|Hge].
    + match goal with |- context [vprintfmt writebuf (?b1, ?m1) text] =>
        specialize (IH b1 m1) end.
      cbv zeta in IH. cbn [p e_ total] in IH.
      destruct IH as (Hp & He & Ht & Hm).
      split; [rewrite Hp; lia|]. split; [exact He|]. split; [rewrite Ht; lia|].
      intros a. rewrite Hm. unfold store.
      destruct (Z.eqb_spec a (p bs)) as [Heq|Hne];
        destruct (Z.leb_spec (p bs + 1) a), (Z.leb_spec (p bs) a),
          (Z.ltb_spec a (p bs + 1 + Z.min (Z.of_nat (length text)) (Z.max 0 (e_ bs - (p bs + 1))))),
          (Z.ltb_spec a (p bs + Z.min (Z.succ (Z.of_nat (length text))) (Z.max 0 (e_ bs - p bs))));
        cbn [andb]; try lia; try reflexivity.
      * rewrite Heq, Z.sub_diag. reflexivity.
      * replace (Z.to_nat (a - p bs)) with (S (Z.to_nat (a - (p bs + 1)))) by lia.
        reflexivity.
    + match goal with |- context [vprintfmt writebuf (?b1, ?m1) text] =>
        specialize (IH b1 m1) end.
      cbv zeta in IH. cbn [p e_ total] in IH.
      destruct IH as (Hp & He & Ht & Hm).
      split; [rewrite Hp; lia|]. split; [exact He|]. split; [rewrite Ht; lia|].
      intros a. rewrite Hm.
      destruct (Z.leb_spec (p bs) a),
        (Z.ltb_spec a (p bs + Z.min (Z.of_nat (length text)) (Z.max 0 (e_ bs - p bs)))),
        (Z.ltb_spec a (p bs + Z.min (Z.succ (Z.of_nat (length text))) (Z.max 0 (e_ bs - p bs))));
        cbn [andb]; first [reflexivity | lia].
Qed.

Lemma vsnprintf_spec buf n text m :
  0 <= n ->
  let k := Z.min (Z.of_nat (length text)) (Z.max 0 (n - 1)) in
  fst (vsnprintf buf n text m) = Z.of_nat (length text) /\
  forall a, snd (vsnprintf buf n text m) a =
            if (buf <=? a) && (a <? buf + k)
            then Z.land (nth (Z.to_nat (a - buf)) text 0) 0xff
            else if a =? buf + k then 0 else m a.
Proof.
  intros Hn. cbv zeta. unfold vsnprintf.
  pose proof (vprintfmt_writebuf_spec text (mk_bufstate buf (buf + n - 1) 0) m) as H.
  cbv zeta in H. cbn [p e_ total] in H.
  destruct (vprintfmt writebuf (mk_bufstate buf (buf + n - 1) 0, m) text) as [bs' m'].
  cbn [fst snd] in *. destruct H as (Hp & _ & Ht & Hm).
  replace (buf + n - 1 - buf) with (n - 1) in * by lia.
  split; [lia|]. intros a. unfold store. rewrite Hp, Hm.
  destruct (Z.eqb_spec a (buf + Z.min (Z.of_nat (length text)) (Z.max 0 (n - 1))));
    [|reflexivity].
  destruct (Z.leb_spec buf a), (Z.ltb_spec a (buf + Z.min (Z.of_nat (length text)) (Z.max 0 (n - 1))));
    cbn [andb]; first [reflexivity | lia].
Qed.

(** X21: [vsnprintf] into a buffer of [n >= 1] bytes returns the length of
    the whole formatted text, however short the buffer; the buffer receives
    the first [min(length, n - 1)] characters followed by a NUL, and no byte
    outside the buffer ([buf] to [buf + n - 1]) is changed. *)
Theorem vsnprintf_truncates (buf n : Z) (text : list Z) (m : Z -> Z) :
  1 <= n ->
  let k := Z.min (Z.of_nat (length text)) (n - 1) in
  let m' := snd (vsnprintf buf n text m) in
  fst (vsnprintf buf n text m) = Z.of_nat (length text) /\
  (forall i, 0 <= i < k ->
     m' (buf + i) = Z.land (nth (Z.to_nat i) text 0) 0xff) /\
  m' (buf + k) = 0 /\
  (forall a, a < buf \/ buf + k < a -> m' a = m a) /\
  (forall a, a < buf \/ buf + n <= a -> m' a = m a).
Proof.
  intros Hn. cbv zeta.
  destruct (vsnprintf_spec buf n text m ltac:(lia)) as [Hr Hm]. cbv zeta in Hm.
  replace (Z.max 0 (n - 1)) with (n - 1) in Hm by lia.
  split; [exact Hr|].
  assert (Hout : forall a,
    a < buf \/ buf + Z.min (Z.of_nat (length text)) (n - 1) < a ->
    snd (vsnprintf buf n text m) a = m a).
  { intros a Ha. rewrite Hm.
    destruct (Z.leb_spec buf a), (Z.ltb_spec a (buf + Z.min (Z.of_nat (length text)) (n - 1)));
      cbn [andb]; try lia;
      (destruct (Z.eqb_spec a (buf + Z.min (Z.of_nat (length text)) (n - 1)));
       [lia | reflexivity]). }
  repeat split.
  - intros i Hi. rewrite Hm.
    destruct (Z.leb_spec buf (buf + i)), (Z.ltb_spec (buf + i) (buf + Z.min (Z.of_nat (length text)) (n - 1)));
      cbn [andb]; try lia.
    replace (buf + i - buf) with i by lia. reflexivity.
  - rewrite Hm.
    destruct (Z.ltb_spec (buf + Z.min (Z.of_nat (length text)) (n - 1))
                         (buf + Z.min (Z.of_nat (length text)) (n - 1))); [lia|].
    rewrite andb_false_r, Z.eqb_refl. reflexivity.
  - exact Hout.
  - intros a Ha. apply Hout. lia.
Qed.

(** X22: with a buffer size of zero [vsnprintf] still returns the length of
    the formatted text, and it still stores the terminating NUL: the byte at
    [buf] is overwritten, all other bytes are unchanged. *)
Theorem vsnprintf_size_zero (buf : Z) (text : list Z) (m : Z -> Z) :
  fst (vsnprintf buf 0 text m) = Z.of_nat (length text) /\
  snd (vsnprintf buf 0 text m) buf = 0 /\
  forall a, a <> buf -> snd (vsnprintf buf 0 text m) a = m a.
Proof.
  destruct (vsnprintf_spec buf 0 text m ltac:(lia)) as [Hr Hm]. cbv zeta in Hm.
  change (Z.max 0 (0 - 1)) with 0 in Hm.
  replace (Z.min (Z.of_nat (length text)) 0) with 0 in Hm by lia.
  split; [exact Hr|]. split.
  - rewrite Hm. destruct (Z.ltb_spec buf (buf + 0)); [lia|].
    rewrite andb_false_r. rewrite Z.add_0_r, Z.eqb_refl. reflexivity.
  - intros a Ha. rewrite Hm.
    destruct (Z.ltb_spec a (buf + 0)), (Z.leb_spec buf a); cbn [andb]; try lia;
      (destruct (Z.eqb_spec a (buf + 0)); [lia | reflexivity]).
Qed.

(** X23: [printtrap] takes the name of a trap from [trapnames] for the
    vectors 0 to 20 and prints a question mark for the vectors from 168 on;
    because the bound it checks is the size of the table in bytes (168) and
    not its 21 entries, the lookup for every vector from 21 to 167 reads
    past the end of the table. *)
Theorem printtrap_trapname_bounds (trapno : Z) :
  0 <= trapno ->
  (trapno < 21 -> exists name, printtrap_trapname trapno = Some name /\
                               trapnames !! Z.to_nat trapno = Some name) /\
  (21 <= trapno < 168 -> printtrap_trapname trapno = None) /\
  (168 <= trapno -> printtrap_trapname trapno = Some "?"%string).
Proof.
  intros H0. unfold printtrap_trapname. change sizeof_trapnames with 168.
  destruct (Z.leb_spec 0 trapno); [|lia]. cbn [andb]. repeat split.
  - intros Hlt. destruct (Z.ltb_spec trapno 168); [|lia].
    destruct (lookup_lt_is_Some_2 trapnames (Z.to_nat trapno)) as [name Hname].
    { change (length trapnames) with 21%nat. lia. }
    exists name. auto.
  - intros [Hge Hlt]. destruct (Z.ltb_spec trapno 168); [|lia].
    apply lookup_ge_None. change (length trapnames) with 21%nat. lia.
  - intros Hge. destruct (Z.ltb_spec trapno 168); [lia|]. reflexivity.
Qed.

End ConsoleBuffer.

Section ConsoleInput.
Import console.

Lemma take_take_app {A} (n : nat) (l l' : list A) :
  take n (take n l ++ l') = take n (l ++ l').
Proof.
  destruct (decide (n <= length l)%nat) as [Hle|Hgt].
  - rewrite (take_app_le l l' n) by exact Hle.
    rewrite take_app_le by (rewrite length_take; lia).
    rewrite take_take, Nat.min_id. reflexivity.
  - rewrite (take_ge l n) by lia. reflexivity.
Qed.

Lemma pending_length i :
  length (pending i) = Z.to_nat (w i - r i).
Proof. unfold pending. rewrite length_fmap, length_seqZ. reflexivity. Qed.

Lemma slot_distinct (i j : Z) : 0 < j - i < 128 -> i mod 128 <> j mod 128.
Proof.
  intros Hij Heq.
  assert (H : (j - i) mod 128 = 0).
  { rewrite Zminus_mod, Heq, Z.sub_diag. reflexivity. }
  rewrite Z.mod_small in H by lia. lia.
Qed.

Lemma rem_slot x : 0 <= x -> Z.rem x INPUT_BUF = x mod 128.
Proof. intros Hx. unfold INPUT_BUF. apply Z.rem_mod_nonneg; lia. Qed.

(** Storing one more character at the edit index. *)
Lemma pending_store bf r0 e0 x :
  length bf = 128%nat -> 0 <= r0 <= e0 -> e0 - r0 < 128 ->
  pending (mk_input (<[Z.to_nat (e0 mod 128) := x]> bf) r0 (e0 + 1) (e0 + 1)) =
  pending (mk_input bf r0 e0 e0) ++ [x].
Proof.
  intros Hlen Hr Hroom. unfold pending. cbn [buf r w].
  replace (e0 + 1 - r0) with ((e0 - r0) + 1) by lia.
  rewrite seqZ_app by lia. rewrite fmap_app. f_equal.
  - apply Forall_fmap_ext, Forall_forall. intros k Hk.
    apply elem_of_seqZ in Hk.
    rewrite list_lookup_insert_ne; [reflexivity|].
    pose proof (slot_distinct k e0 ltac:(lia)).
    pose proof (Z.mod_pos_bound k 128 ltac:(lia)).
    pose proof (Z.mod_pos_bound e0 128 ltac:(lia)). lia.
  - replace (r0 + (e0 - r0)) with e0 by lia.
    rewrite seqZ_cons, seqZ_nil by lia. cbn [fmap list_fmap].
    rewrite list_lookup_insert_eq; [reflexivity|].
    pose proof (Z.mod_pos_bound e0 128 ltac:(lia)). lia.
Qed.

Lemma typed_cons c rest : 0 <= c -> typed (c :: rest) = typed [c] ++ typed rest.
Proof.
  intros Hc. cbn [typed]. destruct (Z.ltb_spec c 0); [lia|].
  destruct (is_command c || (c =? 0)); reflexivity.
Qed.

(** One character handed to [consoleintr]: the ring stays well formed, the
    read index stays, and the character is appended to the unread input if
    it is meant for the ring and there is room. *)
Lemma consoleintr_char_spec c s :
  0 <= c -> input_wf (input s) ->
  exists s', consoleintr_char c s = Done tt s' /\
    input_wf (input s') /\ r (input s') = r (input s) /\
    panicked s' = panicked s /\ cons s' = cons s /\
    pending (input s') = take 128 (pending (input s) ++ typed [c]).
Proof.
  intros Hc Hwf.
  assert (Hsame : pending (input s) = take 128 (pending (input s) ++ [])).
  { rewrite app_nil_r, take_ge; [reflexivity|].
    rewrite pending_length. destruct Hwf as (_ & ? & ? & ?). lia. }
  unfold consoleintr_char. cbn [typed]. unfold is_command.
  destruct (Z.ltb_spec c 0); [lia|].
  destruct (Z.eqb_spec c (C 80)); [eexists; repeat split; try apply Hwf; exact Hsame|].
  destruct (Z.eqb_spec c (C 69)); [eexists; repeat split; try apply Hwf; exact Hsame|].
  destruct (Z.eqb_spec c (C 84)); [eexists; repeat split; try apply Hwf; exact Hsame|].
  destruct (Z.eqb_spec c (C 70)); [eexists; repeat split; try apply Hwf; exact Hsame|].
  destruct (Z.eqb_spec c (C 89)); [eexists; repeat split; try apply Hwf; exact Hsame|].
  cbn [orb].
  destruct s as [pk cn [bf r0 w0 e0] pcs tr]. cbn [input] in *.
  pose proof Hwf as Hwf0.
  destruct Hwf as (Hlen & Hr & Hw & Hroom). cbn [buf r w e] in *. subst w0.
  unfold buf_store. crun.
  destruct (Z.eqb_spec c 0) as [->|Hc0]; crun.
  { eexists. split; [reflexivity|]. split; [exact Hwf0|].
    repeat split. exact Hsame. }
  destruct (Z.ltb_spec (e0 - r0) INPUT_BUF) as [Hlt|Hge]; crun; unfold INPUT_BUF in *.
  - rewrite rem_slot by lia.
    pose proof (Z.mod_pos_bound e0 128 ltac:(lia)) as Hslot.
    destruct (Z.leb_spec 0 (e0 mod 128)); [|lia].
    destruct (Z.ltb_spec (e0 mod 128) (Z.of_nat (length bf))); [|lia].
    crun. eexists. split; [reflexivity|]. cstate_norm.
    split; [|split; [reflexivity|split; [reflexivity|split; [reflexivity|]]]].
    + unfold input_wf. cbn [buf r w e]. rewrite length_insert. lia.
    + rewrite pending_store by lia.
      rewrite take_ge; [reflexivity|].
      rewrite length_app, pending_length. cbn. lia.
  - eexists. split; [reflexivity|]. split; [exact Hwf0|].
    cbn [input panicked cons buf r w e]. repeat split.
    rewrite take_app_le by (rewrite pending_length; cbn; lia).
    rewrite take_ge by (rewrite pending_length; cbn; lia). reflexivity.
Qed.

Lemma consoleintr_loop_spec getc : forall s,
  input_wf (input s) ->
  exists s', consoleintr_loop getc s = Done tt s' /\
    input_wf (input s') /\ r (input s') = r (input s) /\
    panicked s' = panicked s /\ cons s' = cons s /\
    pending (input s') = take 128 (pending (input s) ++ typed getc).
Proof.
  induction getc as [|c getc IH]; intros s Hwf.
  - exists s. repeat split; try apply Hwf.
    cbn [typed]. rewrite app_nil_r, take_ge; [reflexivity|].
    rewrite pending_length. destruct Hwf as (_ & ? & ? & ?). lia.
  - cbn [consoleintr_loop].
    destruct (Z.leb_spec 0 c) as [Hc|Hc].
    + destruct (consoleintr_char_spec c s Hc Hwf) as (s1 & R1 & W1 & Hr1 & P1 & C1 & Hp1).
      destruct (IH s1 W1) as (s2 & R2 & W2 & Hr2 & P2 & C2 & Hp2).
      exists s2. rewrite (cbind_Done _ _ _ _ _ R1).
      split; [exact R2|]. split; [exact W2|].
      split; [congruence|]. split; [congruence|]. split; [congruence|].
      rewrite Hp2, Hp1, take_take_app, (typed_cons c getc Hc), app_assoc.
      reflexivity.
    + exists s. repeat split; try apply Hwf.
      cbn [typed]. destruct (Z.ltb_spec c 0); [|lia].
      rewrite app_nil_r, take_ge; [reflexivity|].
      rewrite pending_length. destruct Hwf as (_ & ? & ? & ?). lia.
Qed.

Lemma consoleintr_spec getc s :
  input_wf (input s) ->
  exists s', consoleintr getc s = Done tt s' /\
    input_wf (input s') /\ r (input s') = r (input s) /\
    pending (input s') = take 128 (pending (input s) ++ typed getc).
Proof.
  intros Hwf. unfold consoleintr, acquire, release.
  unfold cbind at 1, cemit at 1, cmodify at 1.
  match goal with |- context [cbind (consoleintr_loop getc) _ ?s1] =>
    destruct (consoleintr_loop_spec getc s1) as (s2 & R & W & Hr & _ & _ & Hp);
      [destruct s; exact Hwf|]
  end.
  rewrite (cbind_Done _ _ _ _ _ R). crun.
  eexists. split; [reflexivity|].
  destruct s, s2. cbn in *. auto.
Qed.

(** X24: [consoleintr] appends the characters it is handed to the unread
    input, leaving out the command characters and NUL and storing a carriage
    return as a line feed; it never overwrites unread input: what does not
    fit into the 128 slots is dropped, and the ring stays well formed. *)
Theorem consoleintr_appends (getc : list Z) (s : cstate) :
  input_wf (input s) ->
  exists s', consoleintr getc s = Done tt s' /\
    input_wf (input s') /\
    pending (input s') = take 128 (pending (input s) ++ typed getc).
Proof.
  intros Hwf. destruct (consoleintr_spec getc s Hwf) as (s' & R & W & _ & Hp).
  exists s'. auto.
Qed.

End ConsoleInput.

Section ConsoleRead.
Import console.
Variable killed : Z.

(** The oldest unread character sits at the read index. *)
Lemma pending_head i c tl :
  input_wf i -> pending i = c :: tl ->
  r i <> w i /\
  buf i !! Z.to_nat (r i mod 128) = Some c /\
  pending (mk_input (buf i) (r i + 1) (w i) (e i)) = tl /\
  input_wf (mk_input (buf i) (r i + 1) (w i) (e i)).
Proof.
  intros (Hlen & Hr & Hw & Hroom) Hp. unfold pending in *.
  destruct (decide (w i - r i <= 0)) as [Hemp|Hne].
  { rewrite seqZ_nil in Hp by exact Hemp. discriminate. }
  rewrite seqZ_cons in Hp by lia. cbn [fmap list_fmap] in Hp.
  injection Hp as Hc Htl.
  destruct (lookup_lt_is_Some_2 (buf i) (Z.to_nat (r i mod 128))) as [x Hx].
  { pose proof (Z.mod_pos_bound (r i) 128 ltac:(lia)). lia. }
  rewrite Hx in Hc. cbn in Hc. subst x.
  split; [lia|]. split; [exact Hx|]. split.
  - cbn [buf r w]. rewrite <- Htl.
    replace (w i - (r i + 1)) with (Z.pred (w i - r i)) by lia. reflexivity.
  - unfold input_wf. cbn [buf r w e]. lia.
Qed.

Lemma pending_empty i : input_wf i -> pending i = [] -> r i = w i.
Proof.
  intros (_ & Hr & _) Hp. apply (f_equal length) in Hp.
  rewrite pending_length in Hp. cbn in Hp. lia.
Qed.

(** One round of the loop of [consoleread] when input is waiting. *)
Lemma consoleread_loop_step target n dst s c tl :
  input_wf (input s) -> pending (input s) = c :: tl ->
  consoleread_loop killed target (S n) dst s =
  let s1 := set_r (r (input s) + 1) s in
  if c =? C 68 then
    Done (target - Z.of_nat (S n), dst)
      (with_ctrace (ctrace s ++ [EvRelease input_lock])
         (if Z.of_nat (S n) <? target then set_r (r (input s) + 1 - 1) s1 else s1))
  else if c =? 10 then
    Done (target - Z.of_nat n, dst ++ [c])
      (with_ctrace (ctrace s ++ [EvRelease input_lock]) s1)
  else consoleread_loop killed target n (dst ++ [c]) s1.
Proof.
  intros Hwf Hp.
  destruct (pending_head _ _ _ Hwf Hp) as (Hne & Hc & _ & _).
  destruct Hwf as (Hlen & Hr & Hw & Hroom).
  cbn [consoleread_loop]. unfold cbind at 1, cget at 1.
  destruct (Z.eqb_spec (r (input s)) (w (input s))) as [?|_]; [contradiction|].
  unfold buf_load, release. rewrite rem_slot by lia.
  unfold cbind at 1 2, cget at 1.
  pose proof (Z.mod_pos_bound (r (input s)) 128 ltac:(lia)).
  destruct (Z.leb_spec 0 (r (input s) mod 128)); [|lia].
  rewrite Hc. crun.
  destruct (c =? C 68).
  - destruct (Z.of_nat (S n) <? target);
      destruct s as [pk cn [bf r0 w0 e0] pcs tr]; reflexivity.
  - destruct (c =? 10); destruct s as [pk cn [bf r0 w0 e0] pcs tr]; reflexivity.
Qed.

(** Characters other than the end-of-file mark and the line feed are
    copied one by one while the request lasts. *)
Lemma consoleread_loop_data target l : forall n dst s rest,
  input_wf (input s) -> pending (input s) = l ++ rest ->
  Forall (fun c => c <> C 68 /\ c <> 10) l ->
  exists s1,
    consoleread_loop killed target (length l + n) dst s =
    consoleread_loop killed target n (dst ++ l) s1 /\
    input_wf (input s1) /\ pending (input s1) = rest /\
    ctrace s1 = ctrace s /\ panicked s1 = panicked s /\ cons s1 = cons s.
Proof.
  induction l as [|c l IH]; intros n dst s rest Hwf Hp Hok.
  - exists s. rewrite app_nil_r.
    split; [reflexivity|]. split; [exact Hwf|]. split; [exact Hp|]. auto.
  - apply Forall_cons in Hok as [[Hc1 Hc2] Hok].
    cbn [length Nat.add]. rewrite <- app_comm_cons in Hp.
    rewrite (consoleread_loop_step _ _ _ _ _ _ Hwf Hp). cbv zeta.
    destruct (Z.eqb_spec c (C 68)); [contradiction|].
    destruct (Z.eqb_spec c 10); [contradiction|].
    destruct (pending_head _ _ _ Hwf Hp) as (_ & _ & Hp1 & Hwf1).
    destruct (IH n (dst ++ [c]) (set_r (r (input s) + 1) s) rest) as
      (s1 & R & W1 & P1 & T1 & K1 & C1); [exact Hwf1 | exact Hp1 | exact Hok |].
    exists s1. rewrite R, <- app_assoc.
    split; [reflexivity|]. split; [exact W1|]. split; [exact P1|]. auto.
Qed.

Lemma consoleread_acquire n s :
  consoleread killed n s =
  consoleread_loop killed (Z.of_nat n) n []
    (with_ctrace (ctrace s ++ [EvAcquire input_lock]) s).
Proof. reflexivity. Qed.

(** X25: [consoleread] hands out the unread input in the order it was
    typed: when a line feed is among the first [n] unread characters (and no
    end-of-file mark before it) the call returns the line up to and
    including the line feed; when the first [n] unread characters hold
    neither, it returns exactly these [n].  What it returned is consumed,
    the rest stays unread, and the input lock is taken and released once. *)
Theorem consoleread_line_or_count (n : nat) (l rest : list Z) (s : cstate) :
  input_wf (input s) ->
  Forall (fun c => c <> C 68 /\ c <> 10) l ->
  (pending (input s) = l ++ 10 :: rest -> (length l < n)%nat ->
   exists s', consoleread killed n s = Done (Z.of_nat (length l) + 1, l ++ [10]) s' /\
     pending (input s') = rest /\ input_wf (input s') /\
     cemitted (consoleread killed n) s = [EvAcquire input_lock; EvRelease input_lock]) /\
  (pending (input s) = l ++ rest -> length l = n ->
   exists s', consoleread killed n s = Done (Z.of_nat n, l) s' /\
     pending (input s') = rest /\ input_wf (input s') /\
     cemitted (consoleread killed n) s = [EvAcquire input_lock; EvRelease input_lock]).
Proof.
  intros Hwf Hok. split.
  - intros Hp Hlen.
    replace n with (length l + S (n - length l - 1))%nat by lia.
    set (k := (n - length l - 1)%nat).
    assert (R : exists s', consoleread killed (length l + S k) s =
               Done (Z.of_nat (length l) + 1, l ++ [10]) s' /\
               pending (input s') = rest /\ input_wf (input s') /\
               ctrace s' = ctrace s ++ [EvAcquire input_lock; EvRelease input_lock]).
    { rewrite consoleread_acquire.
      destruct (consoleread_loop_data (Z.of_nat (length l + S k)) l (S k) []
                  (with_ctrace (ctrace s ++ [EvAcquire input_lock]) s) (10 :: rest))
        as (s1 & R & W1 & P1 & T1 & _); [exact Hwf | exact Hp | exact Hok |].
      rewrite R, (consoleread_loop_step _ _ _ _ _ _ W1 P1). cbv zeta.
      change (10 =? C 68) with false. change (10 =? 10) with true. cbv iota.
      destruct (pending_head _ _ _ W1 P1) as (_ & _ & P2 & W2).
      eexists. split; [f_equal; f_equal; lia|]. cstate_norm.
      split; [exact P2|]. split; [exact W2|].
      rewrite T1. cstate_norm. rewrite <- app_assoc. reflexivity. }
    destruct R as (s' & R & P & W & T). exists s'.
    split; [exact R|]. split; [exact P|]. split; [exact W|].
    apply cemitted_app. rewrite R. exact T.
  - intros Hp Hlen. subst n.
    assert (R : exists s', consoleread killed (length l) s =
               Done (Z.of_nat (length l), l) s' /\
               pending (input s') = rest /\ input_wf (input s') /\
               ctrace s' = ctrace s ++ [EvAcquire input_lock; EvRelease input_lock]).
    { rewrite consoleread_acquire.
      destruct (consoleread_loop_data (Z.of_nat (length l)) l 0 []
                  (with_ctrace (ctrace s ++ [EvAcquire input_lock]) s) rest)
        as (s1 & R & W1 & P1 & T1 & _); [exact Hwf | exact Hp | exact Hok |].
      rewrite Nat.add_0_r in R. rewrite R. cbn [consoleread_loop].
      unfold release. crun. eexists. split; [f_equal; f_equal; lia|].
      cstate_norm. split; [exact P1|]. split; [exact W1|].
      rewrite T1. cstate_norm. rewrite <- app_assoc. reflexivity. }
    destruct R as (s' & R & P & W & T). exists s'.
    split; [exact R|]. split; [exact P|]. split; [exact W|].
    apply cemitted_app. rewrite R. exact T.
Qed.

Lemma read_until_eof (n : nat) (l rest : list Z) (s : cstate) :
  input_wf (input s) ->
  Forall (fun c => c <> C 68 /\ c <> 10) l ->
  pending (input s) = l ++ C 68 :: rest -> (length l < n)%nat ->
  exists s', consoleread killed n s = Done (Z.of_nat (length l), l) s' /\
    input_wf (input s') /\
    pending (input s') = match l with [] => rest | _ => C 68 :: rest end.
Proof.
  intros Hwf Hok Hp Hlen.
  replace n with (length l + S (n - length l - 1))%nat by lia.
  set (k := (n - length l - 1)%nat).
  rewrite consoleread_acquire.
  destruct (consoleread_loop_data (Z.of_nat (length l + S k)) l (S k) []
              (with_ctrace (ctrace s ++ [EvAcquire input_lock]) s) (C 68 :: rest))
    as (s1 & R & W1 & P1 & T1 & _); [exact Hwf | exact Hp | exact Hok |].
  rewrite R, (consoleread_loop_step _ _ _ _ _ _ W1 P1). cbv zeta.
  rewrite Z.eqb_refl.
  destruct (pending_head _ _ _ W1 P1) as (_ & _ & P2 & W2).
  eexists. split; [f_equal; f_equal; lia|]. cstate_norm.
  destruct (Z.ltb_spec (Z.of_nat (S k)) (Z.of_nat (length l + S k))) as [Hlt|Hge].
  - destruct l as [|c l]; [cbn in Hlt; lia|].
    replace (r (input s1) + 1 - 1) with (r (input s1)) by lia.
    destruct s1 as [pk cn [bf r0 w0 e0] pcs tr]. cstate_norm. auto.
  - destruct l as [|c l]; [|cbn in Hge; lia].
    cstate_norm. auto.
Qed.

(** X26: an end-of-file mark (control-D) ends a read.  When characters were
    read before it, the call returns them and leaves the mark unread, so
    that the next read returns 0 bytes and consumes the mark; when the mark
    comes first, the call returns 0 bytes and consumes it at once. *)
Theorem consoleread_eof (n n2 : nat) (l rest : list Z) (s : cstate) :
  input_wf (input s) ->
  Forall (fun c => c <> C 68 /\ c <> 10) l ->
  pending (input s) = l ++ C 68 :: rest ->
  (length l < n)%nat -> (0 < n2)%nat ->
  exists s1,
    consoleread killed n s = Done (Z.of_nat (length l), l) s1 /\
    match l with
    | [] => pending (input s1) = rest
    | _ => exists s2, consoleread killed n2 s1 = Done (0, []) s2 /\
                      pending (input s2) = rest
    end.
Proof.
  intros Hwf Hok Hp Hlen Hn2.
  destruct (read_until_eof n l rest s Hwf Hok Hp Hlen) as (s1 & R1 & W1 & P1).
  exists s1. split; [exact R1|]. destruct l as [|c l]; [exact P1|].
  destruct (read_until_eof n2 [] rest s1 W1 (Forall_nil_2 _) P1 Hn2)
    as (s2 & R2 & _ & P2).
  exists s2. auto.
Qed.

(** X27: a read that uses up the unread input before its request is
    complete and before a line feed does not return what it has: in a killed
    process it returns -1, although the characters it consumed were already
    stored at the destination and are gone from the ring; otherwise it goes
    to sleep on the condition variable. *)
Theorem consoleread_starved (n : nat) (l : list Z) (s : cstate) :
  input_wf (input s) ->
  Forall (fun c => c <> C 68 /\ c <> 10) l ->
  pending (input s) = l -> (length l < n)%nat ->
  exists s',
    pending (input s') = [] /\
    if truthy killed
    then consoleread killed n s = Done (-1, l) s' /\
         cemitted (consoleread killed n) s =
           [EvAcquire input_lock; EvRelease input_lock]
    else consoleread killed n s = Halt Sleeping s' /\
         cemitted (consoleread killed n) s = [EvAcquire input_lock; EvCvSleep].
Proof.
  intros Hwf Hok Hp Hlen.
  assert (Hrun : consoleread killed n s =
    consoleread killed (length l + S (n - length l - 1)) s).
  { f_equal. lia. }
  set (k := (n - length l - 1)%nat) in Hrun.
  rewrite (consoleread_acquire (length l + S k)) in Hrun.
  destruct (consoleread_loop_data (Z.of_nat (length l + S k)) l (S k) []
              (with_ctrace (ctrace s ++ [EvAcquire input_lock]) s) [])
    as (s1 & R & W1 & P1 & T1 & _);
    [exact Hwf | rewrite app_nil_r; exact Hp | exact Hok |].
  rewrite R in Hrun. cbn [consoleread_loop app] in Hrun.
  unfold cbind at 1, cget at 1 in Hrun.
  rewrite (pending_empty _ W1 P1), Z.eqb_refl in Hrun.
  unfold release in Hrun.
  destruct (truthy killed).
  - eexists. split; [|split; [exact Hrun|]].
    + crun. exact P1.
    + apply cemitted_app. rewrite Hrun. crun. rewrite T1. cstate_norm.
      rewrite <- app_assoc. reflexivity.
  - eexists. split; [|split; [exact Hrun|]].
    + crun. exact P1.
    + apply cemitted_app. rewrite Hrun. crun. rewrite T1. cstate_norm.
      rewrite <- app_assoc. reflexivity.
Qed.

Lemma to_char_ascii c : 0 <= c < 128 -> to_char c = c.
Proof. intros Hc. unfold to_char. rewrite Z.mod_small by lia. lia. Qed.

Lemma typed_plain line tail :
  Forall (fun c => 0 < c < 128 /\ is_command c = false /\ c <> 13) line ->
  typed (line ++ tail) = line ++ typed tail.
Proof.
  induction 1 as [|c line (Hc & Hcmd & Hcr) _ IH]; [reflexivity|].
  cbn [app typed]. destruct (Z.ltb_spec c 0); [lia|].
  rewrite Hcmd. destruct (Z.eqb_spec c 0); [lia|]. cbn [orb].
  destruct (Z.eqb_spec c 13); [contradiction|].
  rewrite to_char_ascii by lia. rewrite IH. reflexivity.
Qed.

(** X28: a line typed into an empty ring is read back as typed.  The
    characters of the line (plain 7-bit characters, fewer than 128) followed
    by a carriage return, handed to [consoleintr], are returned by the next
    [consoleread] in the same order with a line feed at the end, and the
    ring is empty again. *)
Theorem typed_line_read_back (n : nat) (line : list Z) (s : cstate) :
  input_wf (input s) -> pending (input s) = [] ->
  Forall (fun c => 0 < c < 128 /\ is_command c = false /\ c <> 13) line ->
  Forall (fun c => c <> C 68 /\ c <> 10) line ->
  (length line < 128)%nat -> (length line < n)%nat ->
  exists s1 s2,
    consoleintr (line ++ [13]) s = Done tt s1 /\
    consoleread killed n s1 = Done (Z.of_nat (length line) + 1, line ++ [10]) s2 /\
    pending (input s2) = [] /\ input_wf (input s2).
Proof.
  intros Hwf Hemp Hplain Hok Hlen Hn.
  destruct (consoleintr_spec (line ++ [13]) s Hwf) as (s1 & R1 & W1 & _ & P1).
  rewrite Hemp, app_nil_l, (typed_plain line [13] Hplain) in P1.
  change (typed [13]) with [10] in P1.
  rewrite take_ge in P1 by (rewrite length_app; cbn; lia).
  exists s1. rewrite consoleread_acquire.
  destruct (consoleread_loop_data (Z.of_nat n) line (S (n - length line - 1)) []
              (with_ctrace (ctrace s1 ++ [EvAcquire input_lock]) s1) [10])
    as (s2 & R & W2 & P2 & _); [exact W1 | exact P1 | exact Hok |].
  replace (length line + S (n - length line - 1))%nat with n in R by lia.
  rewrite R, (consoleread_loop_step _ _ _ _ _ _ W2 P2). cbv zeta.
  change (10 =? C 68) with false. change (10 =? 10) with true. cbv iota.
  destruct (pending_head _ _ _ W2 P2) as (_ & _ & P3 & W3).
  eexists. split; [exact R1|]. split; [f_equal; f_equal; lia|].
  cstate_norm. auto.
Qed.

End ConsoleRead.

Section ConsolePrintLock.
Import console.
Variable me : Z.

Lemma crun_ops_app {O} (step : O -> CM unit) (l1 l2 : list O) (s : cstate) :
  crun_ops step (l1 ++ l2) s = cbind (crun_ops step l1) (fun _ => crun_ops step l2) s.
Proof.
  revert s. induction l1 as [|o l1 IH]; intros s; [reflexivity|].
  cbn [crun_ops app]. unfold cbind in *.
  destruct (step o s) as [[] s1|h s1]; [apply IH | reflexivity].
Qed.

(** Prints nested inside a print of this core only count. *)
Lemma print_nested (w : list print_op) : forall (d : nat) s,
  balanced print_kind d w = true ->
  truthy (locking (cons s)) = true ->
  holder (cons s) = Some me ->
  nesting_count (cons s) = 1 + Z.of_nat d ->
  exists s', crun_ops (run_print_op me) w s = Done tt s' /\
    ctrace s' = ctrace s /\ locking (cons s') = locking (cons s) /\
    holder (cons s') = Some me /\ nesting_count (cons s') = 1.
Proof.
  induction w as [|o w IH]; intros d s Hb Hl Hh Hn.
  - destruct d; [|discriminate]. exists s. repeat split; auto; lia.
  - destruct o; cbn [balanced print_kind] in Hb; cbn [crun_ops run_print_op].
    + destruct (IH (S d)
        (with_cons (mk_cons (locking (cons s)) (holder (cons s))
                            (nesting_count (cons s) + 1)) s) Hb)
        as (s' & R & T & L & H & N); [exact Hl | exact Hh | cstate_norm; lia |].
      exists s'. split; [|auto].
      unfold _begin_print. unfold cbind at 1 2, cget at 1.
      rewrite Hl, Hh, bool_decide_true by reflexivity. exact R.
    + destruct d as [|d]; [discriminate|].
      destruct (IH d
        (with_cons (mk_cons (locking (cons s)) (holder (cons s))
                            (nesting_count (cons s) - 1)) s) Hb)
        as (s' & R & T & L & H & N); [exact Hl | exact Hh | cstate_norm; lia |].
      exists s'. split; [|auto].
      unfold end_print. unfold cbind at 1 2 3, cmodify at 1, cget at 1.
      cstate_norm.
      destruct (Z.eqb_spec (nesting_count (cons s) - 1) 0); [lia|]. exact R.
Qed.

(** X29: the console print lock is reentrant.  With locking enabled and
    this core not holding the lock, an outermost print with any properly
    nested prints inside takes the console lock exactly once, at the
    outermost begin, and releases it exactly once, at the matching end;
    afterwards no core is recorded as holder and the nesting count is
    zero. *)
Theorem print_lock_reentrant (w : list print_op) (s : cstate) :
  locking (cons s) <> 0 ->
  holder (cons s) <> Some me ->
  balanced print_kind 0 w = true ->
  exists s',
    crun_ops (run_print_op me) (BeginPrint :: w ++ [EndPrint]) s = Done tt s' /\
    cemitted (crun_ops (run_print_op me) (BeginPrint :: w ++ [EndPrint])) s =
      [EvAcquire cons_lock; EvRelease cons_lock] /\
    holder (cons s') = None /\
    nesting_count (cons s') = 0.
Proof.
  intros Hl Hh Hb.
  assert (Hlt : truthy (locking (cons s)) = true).
  { unfold truthy. destruct (Z.eqb_spec (locking (cons s)) 0); [contradiction | reflexivity]. }
  set (s1 := with_cons (mk_cons (locking (cons s)) (Some me) 1)
               (with_ctrace (ctrace s ++ [EvAcquire cons_lock]) s)).
  assert (R1 : _begin_print me s = Done tt s1).
  { unfold _begin_print, acquire. unfold cbind at 1, cget at 1.
    rewrite Hlt, bool_decide_false by exact Hh. reflexivity. }
  destruct (print_nested w 0 s1 Hb) as (s2 & R2 & T2 & L2 & H2 & N2);
    [exact Hlt | reflexivity | reflexivity |].
  assert (R : crun_ops (run_print_op me) (BeginPrint :: w ++ [EndPrint]) s =
              Done tt (with_ctrace (ctrace s2 ++ [EvRelease cons_lock])
                         (with_cons (mk_cons (locking (cons s2)) None 0) s2))).
  { cbn [crun_ops run_print_op]. rewrite (cbind_Done _ _ _ _ _ R1).
    rewrite crun_ops_app, (cbind_Done _ _ _ _ _ R2).
    cbn [crun_ops run_print_op]. unfold end_print, release.
    destruct s2 as [pk [lk hd nc] inp pcs tr]. cstate_norm.
    cbn in L2, H2, N2. subst hd nc.
    crun. subst lk. rewrite Hlt.
    rewrite bool_decide_true by reflexivity. reflexivity. }
  eexists. split; [exact R|]. split; [|split; reflexivity].
  apply cemitted_app. rewrite R. cstate_norm. rewrite T2. subst s1. cstate_norm.
  rewrite <- app_assoc. reflexivity.
Qed.

Lemma print_unlocked (w : list print_op) : forall s,
  locking (cons s) = 0 ->
  exists s', crun_ops (run_print_op me) w s = Done tt s' /\
    ctrace s' = ctrace s /\ holder (cons s') = holder (cons s) /\
    locking (cons s') = 0.
Proof.
  induction w as [|o w IH]; intros s Hl.
  - exists s. auto.
  - destruct o; cbn [crun_ops run_print_op].
    + destruct (IH (with_cons (mk_cons (locking (cons s)) (holder (cons s))
                                       (nesting_count (cons s) + 1)) s) Hl)
        as (s' & R & T & H & L).
      exists s'. split; [|auto].
      unfold _begin_print. unfold cbind at 1 2, cget at 1.
      rewrite Hl. exact R.
    + destruct (IH (with_cons (mk_cons (locking (cons s)) (holder (cons s))
                                       (nesting_count (cons s) - 1)) s) Hl)
        as (s' & R & T & H & L).
      exists s'. split; [|auto].
      unfold end_print. unfold cbind at 1 2 3, cmodify at 1, cget at 1.
      cstate_norm.
      destruct (truthy (locking (cons s))) eqn:Ht;
        [unfold truthy in Ht; rewrite Hl in Ht; discriminate|].
      rewrite orb_true_r. exact R.
Qed.

(** X30: while locking is disabled (the state before [initconsole]) no
    sequence of prints, nested properly or not, takes or releases the
    console lock or records a holder. *)
Theorem print_without_locking (w : list print_op) (s : cstate) :
  locking (cons s) = 0 ->
  exists s',
    crun_ops (run_print_op me) w s = Done tt s' /\
    cemitted (crun_ops (run_print_op me) w) s = [] /\
    holder (cons s') = holder (cons s).
Proof.
  intros Hl. destruct (print_unlocked w s Hl) as (s' & R & T & H & _).
  exists s'. split; [exact R|]. split; [|exact H].
  apply cemitted_app. rewrite R, app_nil_r. exact T.
Qed.

End ConsolePrintLock.

(** ** The further properties at concrete inputs *)

(** X1 at a concrete input: the table of 224 free lines. *)
Lemma reserve_takes_highest_free_witness :
  exists b this' s',
    @reserve sv6_consts irq_unassigned_valid irq_unassigned None
      (machine (frame 0 0 0 0) None) = Ok (b, this') s' /\
    if b then
      0 <= gsi this' < Z.of_nat (length (irq_info (machine (frame 0 0 0 0) None))) /\
      line_in_use (irq_info (machine (frame 0 0 0 0) None)) (gsi this') = false /\
      (forall g, gsi this' < g < Z.of_nat (length (irq_info (machine (frame 0 0 0 0) None))) ->
                 line_in_use (irq_info (machine (frame 0 0 0 0) None)) g = true)
    else
      s' = machine (frame 0 0 0 0) None /\ this' = irq_unassigned /\
      forall g, 0 <= g < Z.of_nat (length (irq_info (machine (frame 0 0 0 0) None))) ->
                line_in_use (irq_info (machine (frame 0 0 0 0) None)) g = true.
Proof.
  apply (@reserve_takes_highest_free sv6_consts irq_unassigned_valid).
  reflexivity.
Defined.

Example reserve_from_top_example :
  exists s', @reserve sv6_consts irq_unassigned_valid irq_unassigned None
               (machine (frame 0 0 0 0) None) =
             Ok (true, mk_irq 255 223 false false) s'.
Proof. eexists. vm_compute. reflexivity. Qed.

(** X2 at a concrete input: a driver that accepts lines 5 and 40. *)
Lemma reserve_takes_first_accepted_witness :
  exists b this' s',
    @reserve sv6_consts irq_unassigned_valid irq_unassigned (Some [5; 40])
      (machine (frame 0 0 0 0) None) = Ok (b, this') s' /\
    if b then
      line_in_use (irq_info (machine (frame 0 0 0 0) None)) (gsi this') = false /\
      line_in_use (irq_info s') (gsi this') = true /\
      exists pre post, [5; 40] = pre ++ gsi this' :: post /\
        forall g, g ∈ pre -> line_in_use (irq_info (machine (frame 0 0 0 0) None)) g = true
    else
      s' = machine (frame 0 0 0 0) None /\ this' = irq_unassigned /\
      forall g, g ∈ [5; 40] -> line_in_use (irq_info (machine (frame 0 0 0 0) None)) g = true.
Proof.
  apply (@reserve_takes_first_accepted sv6_consts irq_unassigned_valid).
  - reflexivity.
  - intros g Hg. apply elem_of_cons in Hg as [->|Hg]; [vm_compute; split; [discriminate | reflexivity]|].
    apply elem_of_cons in Hg as [->|Hg]; [vm_compute; split; [discriminate | reflexivity]|].
    by apply elem_of_nil in Hg.
Defined.

(** X3 at a concrete input: a keyboard interrupt taken in user mode for a
    process that is marked killed. *)
Lemma labelled_trap_never_resumes_killed_user_witness :
  exists s',
    @trap sv6_consts quiet_env false kbd_killed_machine = Stop ProcExit s' \/
    (panicked kbd_killed_machine = true /\
     @trap sv6_consts quiet_env false kbd_killed_machine = Stop ConsoleSpin s').
Proof.
  refine (proj2 (@labelled_trap_never_resumes_killed_user sv6_consts quiet_env
                   false kbd_killed_machine _ _) killed_proc eq_refl _ _).
  - compute_done.
  - intros Heq. vm_compute in Heq. discriminate.
  - vm_compute. discriminate.
  - reflexivity.
Defined.

Example kbd_killed_trace :
  emitted (@trap sv6_consts quiet_env false) kbd_killed_machine
    = [EvKbdintr; EvLapicEoi; EvPicEoi].
Proof. vm_compute. reflexivity. Qed.


Example timer_tick_trace :
  emitted (@trap sv6_consts quiet_env false) timer_machine =
  [EvKstat sched_tick_count; EvRefcacheTick; EvLapicEoi; EvYield 0].
Proof. vm_compute. reflexivity. Qed.

Example timer_killed_trace :
  emitted (@trap sv6_consts quiet_env false) timer_killed_machine =
  [EvKstat sched_tick_count; EvRefcacheTick; EvLapicEoi].
Proof. vm_compute. reflexivity. Qed.

(** X5 at a concrete input: a keyboard interrupt. *)
Lemma legacy_device_acknowledged_witness :
  exists ys,
    forallb is_yield ys = true /\
    emitted (@trap sv6_consts quiet_env false) kbd_user_machine =
      EvKbdintr :: EvLapicEoi :: EvPicEoi :: ys.
Proof.
  apply (@legacy_device_acknowledged sv6_consts quiet_env false kbd_user_machine).
  - compute_done.
  - reflexivity.
Defined.

(** X6 at a concrete input: a third handler on line 40. *)
Lemma newest_handler_runs_first_witness :
  exists s',
    (@register_handler sv6_consts irq_unassigned_valid nic_irq 9 ;;
     @trap sv6_consts quiet_env false) nic_shared_machine = Ok tt s' /\
    emitted (@register_handler sv6_consts irq_unassigned_valid nic_irq 9 ;;
             @trap sv6_consts quiet_env false) nic_shared_machine =
      EvHandleIrq 9 :: (EvHandleIrq <$> [8; 7]) ++ [EvLapicEoi; EvPicEoi] /\
    forall g, line_in_use (irq_info s') g = line_in_use (irq_info nic_shared_machine) g.
Proof.
  apply (@newest_handler_runs_first sv6_consts quiet_env irq_unassigned_valid
           false nic_irq 9 [8; 7] false nic_shared_machine).
  - reflexivity.
  - reflexivity.
  - vm_compute. discriminate.
  - reflexivity.
  - vm_compute. reflexivity.
  - compute_done.
  - reflexivity.
Defined.

(** X7 at a concrete input: a user fault that the resolver fails. *)
Lemma do_pagefault_interrupt_discipline_witness :
  exists r s',
    @do_pagefault sv6_consts segv_env false segv_machine = Ok r s' /\
    (r = 0 \/ r = -1) /\
    ncli (mycpu s') = ncli (mycpu segv_machine) /\
    (EvSti ∈ emitted (@do_pagefault sv6_consts segv_env false) segv_machine ->
     intr_on s' = false) /\
    (EvSti ∉ emitted (@do_pagefault sv6_consts segv_env false) segv_machine ->
     intr_on s' = intr_on segv_machine).
Proof.
  apply (@do_pagefault_interrupt_discipline sv6_consts segv_env false segv_machine).
  eexists. reflexivity.
Defined.

(** X8 at a concrete input: the guarded copy is aborted. *)
Lemma uaccess_fault_fixup_witness :
  exists s',
    @do_pagefault sv6_consts segv_env true uaccess_machine = Ok 0 s' /\
    gpr (tf s') RAX = 2^64 - 1 /\
    rip (tf s') = @uaccess_end sv6_consts.
Proof.
  destruct (@uaccess_fault_fixup sv6_consts segv_env true uaccess_machine
              uaccess_proc eq_refl eq_refl) as (s' & R & H).
  - vm_compute. discriminate.
  - right. reflexivity.
  - right. left. reflexivity.
  - exists s'. split; [exact R|].
    change ((ncli (mycpu uaccess_machine) =? 0) &&
            (0 <=? pagefault segv_env (rcr2 segv_env) (err (tf uaccess_machine))))
      with false in H.
    destruct H as (Hrax & Hrip & _). split; assumption.
Defined.

(** X9 at a concrete input: a kernel fault on a secret address. *)
Lemma secrets_fault_resolved_witness :
  exists s' evs,
    @do_pagefault sv6_consts secret_env false secret_fault_machine = Ok 0 s' /\
    emitted (@do_pagefault sv6_consts secret_env false) secret_fault_machine =
      EvSwitchToKstack :: evs /\
    (forall e, e ∈ evs -> exists bt, e = EvWbIncrement true bt) /\
    intr_on s' = intr_on secret_fault_machine /\
    tf s' = tf secret_fault_machine /\
    (transparent_barriers <$> myproc s') =
      ((fun p => wrap64 (transparent_barriers p + 1)) <$> myproc secret_fault_machine).
Proof.
  apply (@secrets_fault_resolved sv6_consts secret_env secret_fault_machine).
  - vm_compute. discriminate.
  - left. reflexivity.
  - vm_compute. discriminate.
Defined.

(** X10 at a concrete input: the same fault without a current process. *)
Lemma resolved_pagefault_ends_trap_witness :
  exists s', @trap sv6_consts secret_env false secret_fault_idle = Stop Undefined s' /\
             EvSwitchToKstack ∈ emitted (@trap sv6_consts secret_env false) secret_fault_idle.
Proof.
  refine (proj2 (@resolved_pagefault_ends_trap sv6_consts secret_env _ _ _
                   false secret_fault_idle _) eq_refl eq_refl _ _).
  - compute_done.
  - vm_compute. discriminate.
  - vm_compute. reflexivity.
  - reflexivity.
  - vm_compute. discriminate.
  - vm_compute. discriminate.
Defined.

Example secret_fault_without_process :
  exists s', @trap sv6_consts secret_env false secret_fault_idle = Stop Undefined s' /\
             emitted (@trap sv6_consts secret_env false) secret_fault_idle =
             [EvSwitchToKstack].
Proof. eexists. vm_compute. split; reflexivity. Qed.

(** X11 at a concrete input: a process at depth zero with interrupts on. *)
Lemma ensure_secrets_transparent_witness :
  exists s',
    @ensure_secrets sv6_consts quiet_env gp_user_machine = Ok tt s' /\
    ncli (mycpu s') = ncli (mycpu gp_user_machine) /\
    intr_on s' = intr_on gp_user_machine /\
    EvSwitchToKstack ∈ emitted (@ensure_secrets sv6_consts quiet_env) gp_user_machine /\
    (intentional_barriers <$> myproc s') =
      ((fun p => if secrets_mapped gp_user_machine then intentional_barriers p
                 else wrap64 (intentional_barriers p + 1)) <$> myproc gp_user_machine).
Proof.
  apply (@ensure_secrets_transparent sv6_consts quiet_env).
  - vm_compute. discriminate.
  - left. reflexivity.
Defined.

(** X12 at a concrete input: vector 128 with a handler registered. *)
Lemma registered_trap_handler_called_witness :
  exists s' pre,
    @trap sv6_consts quiet_env false hooked_machine = Ok tt s' /\
    emitted (@trap sv6_consts quiet_env false) hooked_machine =
      pre ++ [EvTrapHandler 0xffffffffc0200000
                (default 0 (registered_trap_handler_contexts hooked_machine
                              !! trapno (tf hooked_machine)))] /\
    EvSwitchToKstack ∈ pre /\
    forallb (fun e => negb (is_yield e)) pre = true /\
    intr_on s' = intr_on hooked_machine.
Proof.
  apply (@registered_trap_handler_called sv6_consts quiet_env).
  - vm_compute. discriminate.
  - compute_done.
  - vm_compute. discriminate.
  - vm_compute. discriminate.
  - intros _. exists false. reflexivity.
  - reflexivity.
  - reflexivity.
  - left. reflexivity.
Defined.

Example registered_trap_handler_trace :
  emitted (@trap sv6_consts quiet_env false) hooked_machine =
  [EvCli; EvSwitchToKstack; EvSti; EvTrapHandler 0xffffffffc0200000 7].
Proof. vm_compute. reflexivity. Qed.

(** X13 at a concrete input: the layout of the concrete runs, with the
    kernel image at [KGLOBAL]. *)
Lemma direct_map_round_trip_witness :
  (forall va, @KBASE sv6_consts <= va < 0xffffffffc0000000 ->
     @p2v sv6_consts (@v2p sv6_consts 0xffffffffc0000000 0x100000 va) = va) /\
  (forall pa, 0 <= pa -> pa + @KBASE sv6_consts < 0xffffffffc0000000 ->
     @v2p sv6_consts 0xffffffffc0000000 0x100000 (@p2v sv6_consts pa) = pa).
Proof.
  apply (@direct_map_round_trip sv6_consts 0xffffffffc0000000 0x100000).
  - vm_compute. discriminate.
  - vm_compute. discriminate.
  - vm_compute. discriminate.
Defined.

(** X14 at a concrete input: interrupts on, no process. *)
Lemma critical_levels_nest_witness :
  @check_critical sv6_consts sv6_critical_masks (fun _ => 0)
    (@NO_CRITICAL sv6_critical_masks) spurious_machine = Ok true spurious_machine /\
  (@check_critical sv6_consts sv6_critical_masks (fun _ => 0)
     (@NO_INT sv6_critical_masks) spurious_machine = Ok true spurious_machine ->
   @check_critical sv6_consts sv6_critical_masks (fun _ => 0)
     (@NO_SCHED sv6_critical_masks) spurious_machine = Ok true spurious_machine) /\
  (@check_critical sv6_consts sv6_critical_masks (fun _ => 0)
     (@NO_SCHED sv6_critical_masks) spurious_machine = Ok true spurious_machine ->
   @check_critical sv6_consts sv6_critical_masks (fun _ => 0)
     (@NO_MIGRATE sv6_critical_masks) spurious_machine = Ok true spurious_machine) /\
  (@check_critical sv6_consts sv6_critical_masks (fun _ => 0)
     (@NO_SCHED sv6_critical_masks) spurious_machine = Ok false spurious_machine ->
   myproc spurious_machine = None ->
   @check_critical sv6_consts sv6_critical_masks (fun _ => 0)
     (@NO_MIGRATE sv6_critical_masks) spurious_machine = Stop Undefined spurious_machine).
Proof.
  apply (@critical_levels_nest sv6_consts sv6_critical_masks (fun _ => 0)).
  - vm_compute. repeat split; discriminate.
  - vm_compute. repeat split; discriminate.
Defined.

Example check_critical_without_process :
  @check_critical sv6_consts sv6_critical_masks (fun _ => 0)
    (@NO_MIGRATE sv6_critical_masks) spurious_machine = Stop Undefined spurious_machine.
Proof. vm_compute. reflexivity. Qed.

(** X16 at a concrete input: [popcnt %rax, %rcx] with 7 in [%rax]. *)
Lemma popcnt_trap_zeroes_destination_witness :
  exists rd,
    regs_init !! Z.to_nat (popcnt_rm (mem64 popcnt_env (rip (tf popcnt_machine))))
      = Some (mk_regptr rd 0) /\
    @trap sv6_consts popcnt_env false popcnt_machine =
    Ok tt (with_tf (fun t => set_rip (wrap64 (rip t + 5)) (set_gpr rd 0 t))
             popcnt_machine).
Proof.
  apply (@popcnt_trap_zeroes_destination sv6_consts popcnt_env).
  - compute_done.
  - reflexivity.
  - reflexivity.
  - cbn. lia.
  - vm_compute. reflexivity.
Defined.

(** X17 at a concrete input: two frames, four entries asked for. *)
Lemma getcallerpcs_entries_witness :
  length (callstack.getcallerpcs two_frames 0x7000 [1; 1; 1; 1]) = 4%nat /\
  callstack.getcallerpcs two_frames 0x7000 [1; 1; 1; 1] !! 1%nat =
    Some (if frames_readable two_frames 0x7000 1
          then call_site two_frames 0x7000 1 else 0).
Proof.
  apply (getcallerpcs_entries two_frames 0x7000 [1; 1; 1; 1] 1).
  cbn. lia.
Defined.

Example getcallerpcs_two_frames :
  callstack.getcallerpcs two_frames 0x7000 [1; 1; 1; 1] = [0x400fff; 0x401fff; 0; 0].
Proof. vm_compute. reflexivity. Qed.

(** The frame whose return address can be read but whose saved frame
    pointer cannot is left out of the trace. *)
Example getcallerpcs_drops_last_frame :
  callstack.getcallerpcs
    (fun a => if a =? 0x7008 then Some 0x401000 else None) 0x7000 [1; 1] = [0; 0].
Proof. vm_compute. reflexivity. Qed.

(** X19 at a concrete input: the text [hi] and a line feed. *)
Lemma consolewrite_output_witness :
  exists s',
    console.consolewrite [104; 105; 10] console_up = console.Done 3 s' /\
    let t := cemitted (console.consolewrite [104; 105; 10]) console_up in
    let bytes := (fun c => Z.land c 0xff) <$> [104; 105; 10] in
    uart_output t = crlf bytes /\
    cga_output t = bytes /\
    vga_output t = bytes /\
    lock_calls t = [console.EvAcquire console.cons_lock;
                    console.EvRelease console.cons_lock].
Proof.
  apply (consolewrite_output [104; 105; 10] console_up).
  reflexivity.
Defined.

Example consolewrite_uart :
  uart_output (cemitted (console.consolewrite [104; 105; 10]) console_up) =
  [104; 105; 13; 10].
Proof. vm_compute. reflexivity. Qed.

(** X20 at a concrete input. *)
Lemma console_silent_after_panic_witness :
  (exists s', console.consputc 104 console_down = console.Halt console.Spinning s' /\
              cemitted (console.consputc 104) console_down = [console.EvConsCli]) /\
  (exists s', console.consolewrite (104 :: [105]) console_down =
                console.Halt console.Spinning s' /\
              cemitted (console.consolewrite (104 :: [105])) console_down =
                [console.EvAcquire console.cons_lock; console.EvConsCli]).
Proof.
  apply (console_silent_after_panic 104 [105] console_down).
  vm_compute. discriminate.
Defined.

(** X21 at a concrete input: five characters into a buffer of four. *)
Lemma vsnprintf_truncates_witness :
  let k := Z.min (Z.of_nat (length [97; 98; 99; 100; 101])) (4 - 1) in
  let m' := snd (console.vsnprintf 0x1000 4 [97; 98; 99; 100; 101] (fun _ => 255)) in
  fst (console.vsnprintf 0x1000 4 [97; 98; 99; 100; 101] (fun _ => 255)) =
    Z.of_nat (length [97; 98; 99; 100; 101]) /\
  (forall i, 0 <= i < k ->
     m' (0x1000 + i) = Z.land (nth (Z.to_nat i) [97; 98; 99; 100; 101] 0) 0xff) /\
  m' (0x1000 + k) = 0 /\
  (forall a, a < 0x1000 \/ 0x1000 + k < a -> m' a = (fun _ : Z => 255) a) /\
  (forall a, a < 0x1000 \/ 0x1000 + 4 <= a -> m' a = (fun _ : Z => 255) a).
Proof.
  apply (vsnprintf_truncates 0x1000 4 [97; 98; 99; 100; 101] (fun _ => 255)).
  lia.
Defined.

Example vsnprintf_five_into_four :
  let r := console.vsnprintf 0x1000 4 [97; 98; 99; 100; 101] (fun _ => 255) in
  fst r = 5 /\ (snd r <$> seqZ 0x1000 5) = [97; 98; 99; 0; 255].
Proof. vm_compute. split; reflexivity. Qed.

(** X23 at a concrete input: the timer vector 32. *)
Lemma printtrap_trapname_bounds_witness :
  (32 < 21 -> exists name, console.printtrap_trapname 32 = Some name /\
                           console.trapnames !! Z.to_nat 32 = Some name) /\
  (21 <= 32 < 168 -> console.printtrap_trapname 32 = None) /\
  (168 <= 32 -> console.printtrap_trapname 32 = Some "?"%string).
Proof.
  apply (printtrap_trapname_bounds 32). lia.
Defined.

(** X24 at a concrete input: [ls] and a carriage return are typed. *)
Lemma consoleintr_appends_witness :
  exists s', console.consoleintr [108; 115; 13] console_up = console.Done tt s' /\
    input_wf (console.input s') /\
    pending (console.input s') =
      take 128 (pending (console.input console_up) ++ typed [108; 115; 13]).
Proof.
  apply (consoleintr_appends [108; 115; 13] console_up).
  unfold input_wf. cbn. lia.
Defined.

(** X25 at a concrete input: the line [ls] is read, [p] stays. *)
Lemma consoleread_line_or_count_witness :
  exists s', console.consoleread 0 10 console_line =
               console.Done (Z.of_nat (length [108; 115]) + 1, [108; 115] ++ [10]) s' /\
    pending (console.input s') = [112] /\ input_wf (console.input s') /\
    cemitted (console.consoleread 0 10) console_line =
      [console.EvAcquire console.input_lock; console.EvRelease console.input_lock].
Proof.
  refine (proj1 (consoleread_line_or_count 0 10 [108; 115] [112] console_line _ _) _ _).
  - unfold input_wf. vm_compute. repeat split; discriminate.
  - repeat constructor; discriminate.
  - vm_compute. reflexivity.
  - cbn. lia.
Defined.

(** X26 at a concrete input: [a], control-D, [b]. *)
Lemma consoleread_eof_witness :
  exists s1,
    console.consoleread 0 10 console_eof = console.Done (Z.of_nat (length [97]), [97]) s1 /\
    exists s2, console.consoleread 0 10 s1 = console.Done (0, []) s2 /\
               pending (console.input s2) = [98].
Proof.
  apply (consoleread_eof 0 10 10 [97] [98] console_eof).
  - unfold input_wf. vm_compute. repeat split; discriminate.
  - repeat constructor; discriminate.
  - vm_compute. reflexivity.
  - cbn. lia.
  - lia.
Defined.

(** X27 at a concrete input: [ab] typed, ten characters asked for by a
    killed process. *)
Lemma consoleread_starved_witness :
  exists s',
    pending (console.input s') = [] /\
    if truthy 1
    then console.consoleread 1 10 console_partial = console.Done (-1, [97; 98]) s' /\
         cemitted (console.consoleread 1 10) console_partial =
           [console.EvAcquire console.input_lock; console.EvRelease console.input_lock]
    else console.consoleread 1 10 console_partial = console.Halt console.Sleeping s' /\
         cemitted (console.consoleread 1 10) console_partial =
           [console.EvAcquire console.input_lock; console.EvCvSleep].
Proof.
  apply (consoleread_starved 1 10 [97; 98] console_partial).
  - unfold input_wf. vm_compute. repeat split; discriminate.
  - repeat constructor; discriminate.
  - vm_compute. reflexivity.
  - cbn. lia.
Defined.

(** X28 at a concrete input: the line [ls]. *)
Lemma typed_line_read_back_witness :
  exists s1 s2,
    console.consoleintr ([108; 115] ++ [13]) console_up = console.Done tt s1 /\
    console.consoleread 0 10 s1 =
      console.Done (Z.of_nat (length [108; 115]) + 1, [108; 115] ++ [10]) s2 /\
    pending (console.input s2) = [] /\ input_wf (console.input s2).
Proof.
  apply (typed_line_read_back 0 10 [108; 115] console_up).
  - unfold input_wf. cbn. lia.
  - reflexivity.
  - repeat constructor; first [lia | reflexivity | discriminate].
  - repeat constructor; discriminate.
  - cbn. lia.
  - cbn. lia.
Defined.

(** X29 at a concrete input: three prints nested inside the outermost
    one, on core 0. *)
Lemma print_lock_reentrant_witness :
  exists s',
    crun_ops (run_print_op 0) (BeginPrint :: nested_prints ++ [EndPrint]) console_up =
      console.Done tt s' /\
    cemitted (crun_ops (run_print_op 0) (BeginPrint :: nested_prints ++ [EndPrint]))
      console_up =
      [console.EvAcquire console.cons_lock; console.EvRelease console.cons_lock] /\
    console.holder (console.cons s') = None /\
    console.nesting_count (console.cons s') = 0.
Proof.
  apply (print_lock_reentrant 0 nested_prints console_up).
  - vm_compute. discriminate.
  - discriminate.
  - reflexivity.
Defined.

(** X30 at a concrete input: prints before locking is enabled, one of
    them left open. *)
Lemma print_without_locking_witness :
  exists s',
    crun_ops (run_print_op 0) [BeginPrint; BeginPrint; EndPrint] console_early =
      console.Done tt s' /\
    cemitted (crun_ops (run_print_op 0) [BeginPrint; BeginPrint; EndPrint])
      console_early = [] /\
    console.holder (console.cons s') = console.holder (console.cons console_early).
Proof.
  apply (print_without_locking 0 [BeginPrint; BeginPrint; EndPrint] console_early).
  reflexivity.
Defined.

(** X18 at concrete inputs: the stack of two frames, on a console that has
    not panicked and on one that has. *)
Lemma printtrace_lines_witness :
  exists k, (k <= 10)%nat /\
    (forall j, (j < k)%nat ->
       frames_readable two_frames 0x7000 j = true /\
       call_site two_frames 0x7000 j <> 0) /\
    ((k < 10)%nat ->
       frames_readable two_frames 0x7000 k = false \/
       call_site two_frames 0x7000 k = 0) /\
    console.printtrace two_frames low_digit (replicate 10 1) 0x7000 console_up =
    console.Done tt
      (console.with_ctrace
         (console.ctrace console_up ++
          flat_map putc_calls
            (flat_map (console.trace_line low_digit)
                      (call_site two_frames 0x7000 <$> seq 0 k))) console_up) /\
    console.printtrace two_frames low_digit (replicate 10 1) 0x7000 console_down =
    match k with
    | O => console.Done tt console_down
    | S _ => console.Halt console.Spinning
               (console.with_ctrace
                  (console.ctrace console_down ++ [console.EvConsCli]) console_down)
    end.
Proof.
  destruct (printtrace_lines two_frames low_digit (replicate 10 1) 0x7000
              console_up eq_refl) as (k & Hk & Hgood & Hstop & Hlive & _).
  destruct (printtrace_lines two_frames low_digit (replicate 10 1) 0x7000
              console_down eq_refl) as (k' & Hk' & Hgood' & Hstop' & _ & Hdown).
  assert (Hkk : k' = k).
  { destruct (Nat.lt_trichotomy k' k) as [Hlt|[Heq|Hgt]]; [|exact Heq|].
    - destruct (Hgood k' Hlt) as [Hr Hc].
      destruct (Hstop' ltac:(lia)) as [Hf|Hz]; congruence.
    - destruct (Hgood' k Hgt) as [Hr Hc].
      destruct (Hstop ltac:(lia)) as [Hf|Hz]; congruence. }
  subst k'. exists k. split; [exact Hk|]. split; [exact Hgood|].
  split; [exact Hstop|]. split.
  - apply Hlive. reflexivity.
  - apply Hdown. vm_compute. discriminate.
Defined.

Example printtrace_two_frames :
  cga_output (cemitted (console.printtrace two_frames low_digit (replicate 10 1) 0x7000)
                       console_up) =
  [32; 32; 57; 10; 32; 32; 53; 10] /\
  uart_output (cemitted (console.printtrace two_frames low_digit (replicate 10 1) 0x7000)
                        console_up) =
  [32; 32; 57; 13; 10; 32; 32; 53; 13; 10].
Proof. vm_compute. split; reflexivity. Qed.

Example printtrace_after_panic :
  console.printtrace two_frames low_digit (replicate 10 1) 0x7000 console_down =
  console.Halt console.Spinning
    (console.with_ctrace [console.EvConsCli] console_down).
Proof. vm_compute. reflexivity. Qed.

